(** * NeuralPath: the synthetic training-data generator

    A shallow embedding of [generate_training_data.py] and the properties
    its specification states about it.

    Modelling conventions.
    - The generator is embedded twice.  [Generator] computes with exact
      rationals: a Python [float] carries the exact real result of every
      operation.  It departs from the interpreter where a rounding error
      decides a comparison or a tie (0.15 + 0.2 against a draw of 0.35,
      a sum of 3.4999999999999996 against 3.5), and serves the
      properties that bound a value or follow the control flow.
      [Binary64] computes with the kernel's binary64 floats, operation
      for operation as the interpreter does; it serves the properties
      that say which value a field has.
    - The process-wide generator of the [random] module is a state: the
      stream of values [random.random()] will return (fixed by the seed)
      and a cursor into it.  Code that draws numbers lives in a state
      monad.
    - [datetime.now()] is an input: the proleptic Gregorian ordinal of the
      current date, a date of the years 1 to 9999.  The time of day never
      influences the program. *)

From Stdlib Require Import ZArith QArith Qround Qminmax Lqa Lia Bool List.
From Stdlib Require Import String Ascii.
From Stdlib Require Import DecimalString.
From Stdlib Require Import PrimFloat FloatOps FloatAxioms SpecFloat.
From Stdlib Require Import Zpower.
From Stdlib Require Uint63.
Import ListNotations.

(* A decimal literal of type [float] denotes the nearest binary64
   number, as it does in Python. *)
Set Warnings "-inexact-float".

Local Open Scope Z_scope.

(** ** Python numbers *)

Module PyNum.

Inductive num : Type :=
| PyInt (z : Z)
| PyFloat (q : Q).

Definition val (x : num) : Q :=
  match x with
  | PyInt z => inject_Z z
  | PyFloat q => q
  end.

Definition Qltb (a b : Q) : bool := negb (Qle_bool b a).

Definition add (a b : num) : num :=
  match a, b with
  | PyInt x, PyInt y => PyInt (x + y)
  | _, _ => PyFloat (val a + val b)
  end.

Definition sub (a b : num) : num :=
  match a, b with
  | PyInt x, PyInt y => PyInt (x - y)
  | _, _ => PyFloat (val a - val b)
  end.

Definition mul (a b : num) : num :=
  match a, b with
  | PyInt x, PyInt y => PyInt (x * y)
  | _, _ => PyFloat (val a * val b)
  end.

Definition neg (a : num) : num :=
  match a with
  | PyInt x => PyInt (- x)
  | PyFloat q => PyFloat (- q)
  end.

(** [a / b], true division.  Every divisor in the generator is a nonzero
    literal; the writer checks its divisor before it divides. *)
Definition truediv (a b : num) : num := PyFloat (val a / val b).

Definition lt (a b : num) : bool := Qltb (val a) (val b).
Definition gt (a b : num) : bool := lt b a.

(** The builtins [min(a, b)] and [max(a, b)]: the first argument is kept
    unless the second is strictly smaller (resp. larger); the result is
    one of the two arguments, with its type. *)
Definition py_min (a b : num) : num := if lt b a then b else a.
Definition py_max (a b : num) : num := if gt b a then b else a.

(** Rounding of an exact value to the nearest integer, ties to even. *)
Definition round_half_even (q : Q) : Z :=
  let f := Qfloor q in
  let r := (q - inject_Z f)%Q in
  if Qltb r (1 # 2) then f
  else if Qltb (1 # 2) r then f + 1
  else if Z.even f then f else f + 1.

(** [round(x)]: an [int] in both cases. *)
Definition py_round (x : num) : Z :=
  match x with
  | PyInt z => z
  | PyFloat q => round_half_even q
  end.

(** [round(x, 1)]: an [int] stays as it is, a [float] is rounded to one
    decimal place. *)
Definition py_round1 (x : num) : num :=
  match x with
  | PyInt z => PyInt z
  | PyFloat q => PyFloat (inject_Z (round_half_even (q * 10)) / 10)
  end.

(** [int(x)]: truncation toward zero. *)
Definition py_int (x : num) : Z :=
  match x with
  | PyInt z => z
  | PyFloat q => Z.quot (Qnum q) (Zpos (Qden q))
  end.

Definition of_bool (b : bool) : Z := if b then 1 else 0.

End PyNum.
Export PyNum.

Declare Scope py_scope.
Delimit Scope py_scope with py.
Infix "+" := add : py_scope.
Infix "-" := sub : py_scope.
Infix "*" := mul : py_scope.
Infix "/" := truediv : py_scope.
Notation "- x" := (neg x) : py_scope.
Infix "<?" := lt : py_scope.
Infix ">?" := gt : py_scope.

(** ** The calendar of [datetime]

    Dates are proleptic Gregorian ordinals (day 1 is 0001-01-01), as
    [date.toordinal()] gives them.  [weekday] and [_ord2ymd] follow the
    pure-Python [datetime] module. *)

Module Calendar.

Definition MINORDINAL : Z := 1.
Definition MAXORDINAL : Z := 3652059.

Definition _DI400Y : Z := 146097.
Definition _DI100Y : Z := 36524.
Definition _DI4Y : Z := 1461.

Definition _DAYS_IN_MONTH : list Z :=
  [-1; 31; 28; 31; 30; 31; 30; 31; 31; 30; 31; 30; 31].

Definition _DAYS_BEFORE_MONTH : list Z :=
  [-1; 0; 31; 59; 90; 120; 151; 181; 212; 243; 273; 304; 334].

Definition index (l : list Z) (i : Z) : Z := nth (Z.to_nat i) l 0.

(** [_ord2ymd(n)]: ordinal to (year, month, day). *)
Definition _ord2ymd (ordinal : Z) : Z * Z * Z :=
  let n := ordinal - 1 in
  let n400 := n / _DI400Y in
  let n := n mod _DI400Y in
  let year := n400 * 400 + 1 in
  let n100 := n / _DI100Y in
  let n := n mod _DI100Y in
  let n4 := n / _DI4Y in
  let n := n mod _DI4Y in
  let n1 := n / 365 in
  let n := n mod 365 in
  let year := year + (n100 * 100 + n4 * 4 + n1) in
  if (n1 =? 4) || (n100 =? 4) then (year - 1, 12, 31)
  else
    let leapyear := (n1 =? 3) && (negb (n4 =? 24) || (n100 =? 3)) in
    let month := Z.shiftr (n + 50) 5 in
    let preceding :=
      index _DAYS_BEFORE_MONTH month + of_bool ((2 <? month) && leapyear) in
    if n <? preceding then
      let month := month - 1 in
      let preceding :=
        preceding - (index _DAYS_IN_MONTH month
                     + of_bool ((month =? 2) && leapyear)) in
      (year, month, n - preceding + 1)
    else (year, month, n - preceding + 1).

(** [date.weekday()]: Monday is 0 and Sunday is 6. *)
Definition weekday (ordinal : Z) : Z := (ordinal + 6) mod 7.

(** [date.month]. *)
Definition month_of (ordinal : Z) : Z := snd (fst (_ord2ymd ordinal)).

Inductive day_name : Type :=
| Monday | Tuesday | Wednesday | Thursday | Friday | Saturday | Sunday.

(** The day [date.weekday()] stands for, as the library documents it. *)
Definition name_of_weekday (w : Z) : day_name :=
  match w with
  | 0 => Monday
  | 1 => Tuesday
  | 2 => Wednesday
  | 3 => Thursday
  | 4 => Friday
  | 5 => Saturday
  | _ => Sunday
  end.

Definition day_name_of (ordinal : Z) : day_name :=
  name_of_weekday (weekday ordinal).

End Calendar.

(** ** The pseudo-random generator *)

Record rng_state : Type := MkRng {
  stream : nat -> Q;
  cursor : nat
}.

(** The generator after [random.seed(...)]: the stream the seed fixes,
    read from its start. *)
Definition seeded (draws : nat -> Q) : rng_state :=
  {| stream := draws; cursor := 0 |}.

Definition M (A : Type) : Type := rng_state -> A * rng_state.

Definition ret {A} (a : A) : M A := fun s => (a, s).

Definition bind {A B} (c : M A) (k : A -> M B) : M B :=
  fun s => let (a, s') := c s in k a s'.

Notation "x <- c ;; k" := (bind c (fun x => k))
  (at level 61, c at next level, right associativity).

(** [random.random()] *)
Definition random : M num :=
  fun s => (PyFloat (stream s (cursor s)),
            {| stream := stream s; cursor := S (cursor s) |}).

(** [random.uniform(a, b)] is [a + (b - a) * random()]. *)
Definition uniform (a b : num) : M num :=
  r <- random ;; ret (a + (b - a) * r)%py.

(** [random.random()] returns a float of the half-open interval [0, 1). *)
Definition unit_draws (draws : nat -> Q) : Prop :=
  forall k, (0 <= draws k /\ draws k < 1)%Q.


(** ** Exceptions *)

Inductive exn : Type :=
| OverflowError
| OSError
| ZeroDivisionError.

Inductive result (A : Type) : Type :=
| Ok (a : A)
| Raise (e : exn).

Arguments Ok {A} a.
Arguments Raise {A} e.

(** ** The daily record *)

(** The dictionary appended to [data] each day, one field per key. *)
Record record : Type := MkRecord {
  moodLevel : Z;
  anxietyLevel : Z;
  anhedoniaLevel : Z;
  sleepHours : num;
  sleepQuality : Z;
  daylightMinutes : num;
  exerciseMinutes : num;
  medicationTaken : Z;
  substanceAmount : num;
  dayOfWeek : Z;
  previousDaySleep : num;
  previousDayMood : Z
}.

(** ** [generate_realistic_data] *)

Module Generator.

Import Calendar.

Definition medication_start_day : Z := 60.
Definition baseline_mood : num := PyFloat 2.0.
Definition baseline_anxiety : num := PyFloat 3.0.

(** The variables one iteration of the loop assigns, up to the line
    [anhedonia_level = ...]. *)
Record locals : Type := MkLocals {
  current_date : Z;
  day_of_week : Z;
  on_medication : bool;
  medication_taken : Z;
  days_on_meds : Z;
  med_effect : num;
  is_weekend : bool;
  base_sleep : num;
  sleep_hours : num;
  sleep_quality : Z;
  exercise_probability : num;
  exercise_minutes : num;
  month : Z;
  seasonal_factor : num;
  base_daylight : num;
  daylight_minutes : num;
  substance_amount : num;
  mood : num;
  mood_level : Z;
  anxiety : num;
  anxiety_level : Z;
  anhedonia : num;
  anhedonia_level : Z
}.

(** The variables that live across iterations. *)
Record frame : Type := MkFrame {
  previous_sleep : num;
  previous_mood : Z;
  data : list record
}.

(** Lines 43-56: adherence and the medication effect.  Returns
    [(medication_taken, days_on_meds, med_effect)]. *)
Definition medication_block (day : Z) : M (Z * Z * num) :=
  let on_medication := medication_start_day <=? day in
  taken <- (if on_medication
            then r <- random ;; ret (r <? PyFloat 0.85)%py
            else ret false) ;;
  let medication_taken := of_bool taken in
  let days_on_meds :=
    if negb (medication_taken =? 0)
    then Z.max 0 (day - medication_start_day) else 0 in
  let med_effect := PyInt 0 in
  let med_effect :=
    if on_medication then
      let med_effect :=
        py_min (PyFloat 1.5)
               ((PyInt days_on_meds / PyInt 30) * PyFloat 1.5)%py in
      if medication_taken =? 0 then (med_effect * PyFloat 0.3)%py
      else med_effect
    else med_effect in
  ret (medication_taken, days_on_meds, med_effect).

(** Line 68, given the draw of [random.uniform(-1, 1)]. *)
Definition sleep_quality_of (sleep_hours quality_noise : num) : Z :=
  py_int (py_min (PyInt 5)
            (py_max (PyInt 1)
               ((sleep_hours / PyFloat 8.0) * PyInt 5 + quality_noise)%py)).

(** Lines 61-68.  Returns [(base_sleep, sleep_hours, sleep_quality)]. *)
Definition sleep_block (is_weekend : bool) (med_effect : num)
  : M (num * num * Z) :=
  base_sleep <- (if is_weekend then uniform (PyFloat 7.5) (PyFloat 9.0)
                 else uniform (PyFloat 6.0) (PyFloat 8.0)) ;;
  sleep_noise <- uniform (PyFloat (-0.5)) (PyFloat 0.5) ;;
  let sleep_hours :=
    (base_sleep + (med_effect * PyFloat 0.5) + sleep_noise)%py in
  let sleep_hours :=
    py_max (PyFloat 4.0) (py_min (PyFloat 10.0) sleep_hours) in
  quality_noise <- uniform (PyInt (-1)) (PyInt 1) ;;
  let sleep_quality := sleep_quality_of sleep_hours quality_noise in
  ret (base_sleep, sleep_hours, sleep_quality).

(** Lines 71-78.  Returns [(exercise_probability, exercise_minutes)]. *)
Definition exercise_block (is_weekend : bool) (day previous_mood : Z)
  : M (num * num) :=
  let exercise_probability :=
    if is_weekend then PyFloat 0.3 else PyFloat 0.15 in
  let exercise_probability :=
    if (0 <? day) && (3 <=? previous_mood)
    then (exercise_probability + PyFloat 0.2)%py
    else exercise_probability in
  let exercise_minutes := PyInt 0 in
  r <- random ;;
  exercise_minutes <- (if (r <? exercise_probability)%py
                       then uniform (PyInt 20) (PyInt 60)
                       else ret exercise_minutes) ;;
  ret (exercise_probability, exercise_minutes).

(** Lines 81-85.  Returns
    [(month, seasonal_factor, base_daylight, daylight_minutes)]. *)
Definition daylight_block (is_weekend : bool) (current_date : Z)
  : M (Z * num * num * num) :=
  let month := month_of current_date in
  let seasonal_factor :=
    if (5 <=? month) && (month <=? 8) then PyFloat 1.5 else PyFloat 0.7 in
  u <- uniform (PyInt 60) (PyInt 180) ;;
  let base_daylight := (u * seasonal_factor)%py in
  let daylight_minutes :=
    if is_weekend then base_daylight else (base_daylight * PyFloat 0.6)%py in
  let daylight_minutes :=
    py_max (PyInt 15) (py_min (PyInt 300) daylight_minutes) in
  ret (month, seasonal_factor, base_daylight, daylight_minutes).

(** Lines 89-93.  Returns [substance_amount]. *)
Definition substance_block (is_weekend : bool) : M num :=
  let substance_amount := PyInt 0 in
  r <- random ;;
  substance_amount <- (if (r <? PyFloat 0.7)%py
                       then u <- uniform (PyInt 100) (PyInt 400) ;;
                            ret (substance_amount + u)%py
                       else ret substance_amount) ;;
  substance_amount <- (if is_weekend
                       then r <- random ;;
                            if (r <? PyFloat 0.4)%py
                            then u <- uniform (PyInt 200) (PyInt 600) ;;
                                 ret (substance_amount + u)%py
                            else ret substance_amount
                       else ret substance_amount) ;;
  ret substance_amount.

(** Lines 99-114: the six effects that enter the mood. *)
Definition sleep_effect_of (previous_sleep : num) : num :=
  ((previous_sleep - PyFloat 6.0) * PyFloat 0.5)%py.

Definition exercise_effect_of (exercise_minutes : num) : num :=
  if (exercise_minutes >? PyInt 0)%py
  then ((exercise_minutes / PyFloat 60.0) * PyFloat 0.8)%py
  else PyInt 0.

Definition daylight_effect_of (daylight_minutes : num) : num :=
  ((daylight_minutes / PyFloat 120.0) * PyFloat 0.4)%py.

Definition substance_effect_of (substance_amount : num) : num :=
  (- (substance_amount / PyFloat 500.0) * PyFloat 0.3)%py.

Definition weekday_effect_of (day_of_week : Z) : num :=
  if day_of_week =? 2 then PyFloat (-0.3) else PyInt 0.

Definition mood_momentum_of (previous_mood : Z) : num :=
  (PyInt (previous_mood - 3) * PyFloat 0.2)%py.

(** Lines 96-121.  Returns [(mood, mood_level)]. *)
Definition mood_block (med_effect previous_sleep exercise_minutes
    daylight_minutes substance_amount : num) (day_of_week previous_mood : Z)
  : M (num * Z) :=
  let mood_base := baseline_mood in
  let sleep_effect := sleep_effect_of previous_sleep in
  let exercise_effect := exercise_effect_of exercise_minutes in
  let daylight_effect := daylight_effect_of daylight_minutes in
  let substance_effect := substance_effect_of substance_amount in
  let weekday_effect := weekday_effect_of day_of_week in
  let mood_momentum := mood_momentum_of previous_mood in
  mood_noise <- uniform (PyFloat (-0.3)) (PyFloat 0.3) ;;
  let mood :=
    (mood_base + med_effect + sleep_effect + exercise_effect
     + daylight_effect + substance_effect + weekday_effect
     + mood_momentum + mood_noise)%py in
  let mood_level :=
    py_int (py_max (PyInt 1) (py_min (PyInt 5) (PyInt (py_round mood)))) in
  ret (mood, mood_level).

(** Lines 124-142.  Returns [(anxiety, anxiety_level)]. *)
Definition anxiety_block (med_effect sleep_hours exercise_minutes
    substance_amount : num) : M (num * Z) :=
  let anxiety_base := baseline_anxiety in
  let anxiety_med_effect := (- med_effect * PyFloat 0.8)%py in
  let anxiety_sleep_effect :=
    ((PyFloat 7.0 - sleep_hours) * PyFloat 0.3)%py in
  let anxiety_exercise_effect :=
    (- (exercise_minutes / PyFloat 60.0) * PyFloat 0.5)%py in
  let anxiety_substance_effect :=
    ((substance_amount / PyFloat 500.0) * PyFloat 0.5)%py in
  anxiety_noise <- uniform (PyFloat (-0.4)) (PyFloat 0.4) ;;
  let anxiety :=
    (anxiety_base + anxiety_med_effect + anxiety_sleep_effect
     + anxiety_exercise_effect + anxiety_substance_effect
     + anxiety_noise)%py in
  let anxiety_level :=
    py_int (py_max (PyInt 0) (py_min (PyInt 4) (PyInt (py_round anxiety)))) in
  ret (anxiety, anxiety_level).

(** Lines 145-160.  Returns [(anhedonia, anhedonia_level)]. *)
Definition anhedonia_block (med_effect sleep_hours exercise_minutes : num)
  : M (num * Z) :=
  let anhedonia_base := PyFloat 2.5 in
  let anhedonia_med_effect := (- med_effect * PyFloat 0.7)%py in
  let anhedonia_exercise_effect :=
    (- (exercise_minutes / PyFloat 60.0) * PyFloat 0.4)%py in
  let anhedonia_sleep_effect :=
    ((PyFloat 7.0 - sleep_hours) * PyFloat 0.2)%py in
  anhedonia_noise <- uniform (PyFloat (-0.3)) (PyFloat 0.3) ;;
  let anhedonia :=
    (anhedonia_base + anhedonia_med_effect + anhedonia_exercise_effect
     + anhedonia_sleep_effect + anhedonia_noise)%py in
  let anhedonia_level :=
    py_int (py_max (PyInt 0)
              (py_min (PyInt 4) (PyInt (py_round anhedonia)))) in
  ret (anhedonia, anhedonia_level).

(** Lines 39-160 of the loop body, block after block in source order. *)
Definition day_body (start_date day : Z) (previous_sleep : num)
    (previous_mood : Z) : M locals :=
  let current_date := start_date + day in
  let day_of_week := weekday current_date + 1 in
  let on_medication := medication_start_day <=? day in
  med <- medication_block day ;;
  let '(medication_taken, days_on_meds, med_effect) := med in
  let is_weekend := (day_of_week =? 1) || (day_of_week =? 7) in
  slp <- sleep_block is_weekend med_effect ;;
  let '(base_sleep, sleep_hours, sleep_quality) := slp in
  exr <- exercise_block is_weekend day previous_mood ;;
  let '(exercise_probability, exercise_minutes) := exr in
  dayl <- daylight_block is_weekend current_date ;;
  let '(month, seasonal_factor, base_daylight, daylight_minutes) := dayl in
  substance_amount <- substance_block is_weekend ;;
  md <- mood_block med_effect previous_sleep exercise_minutes
          daylight_minutes substance_amount day_of_week previous_mood ;;
  let '(mood, mood_level) := md in
  anx <- anxiety_block med_effect sleep_hours exercise_minutes
           substance_amount ;;
  let '(anxiety, anxiety_level) := anx in
  anh <- anhedonia_block med_effect sleep_hours exercise_minutes ;;
  let '(anhedonia, anhedonia_level) := anh in
  ret {| current_date := current_date;
         day_of_week := day_of_week;
         on_medication := on_medication;
         medication_taken := medication_taken;
         days_on_meds := days_on_meds;
         med_effect := med_effect;
         is_weekend := is_weekend;
         base_sleep := base_sleep;
         sleep_hours := sleep_hours;
         sleep_quality := sleep_quality;
         exercise_probability := exercise_probability;
         exercise_minutes := exercise_minutes;
         month := month;
         seasonal_factor := seasonal_factor;
         base_daylight := base_daylight;
         daylight_minutes := daylight_minutes;
         substance_amount := substance_amount;
         mood := mood;
         mood_level := mood_level;
         anxiety := anxiety;
         anxiety_level := anxiety_level;
         anhedonia := anhedonia;
         anhedonia_level := anhedonia_level |}.

(** Lines 167-180: the dictionary, built from the day's variables and
    from [previous_sleep] and [previous_mood] as they stand at that
    point. *)
Definition make_row (day : Z) (l : locals) (previous_sleep : num)
    (previous_mood : Z) : record :=
  {| moodLevel := mood_level l;
     anxietyLevel := anxiety_level l;
     anhedoniaLevel := anhedonia_level l;
     sleepHours := py_round1 (sleep_hours l);
     sleepQuality := sleep_quality l;
     daylightMinutes := py_round1 (daylight_minutes l);
     exerciseMinutes := py_round1 (exercise_minutes l);
     medicationTaken := medication_taken l;
     substanceAmount := py_round1 (substance_amount l);
     dayOfWeek := day_of_week l;
     previousDaySleep :=
       if 0 <? day then py_round1 previous_sleep else PyInt 0;
     previousDayMood := if 0 <? day then previous_mood else 0 |}.

(** Lines 162-180: the carried variables are overwritten first (lines
    163-164), the dictionary is appended afterwards. *)
Definition store_and_append (day : Z) (l : locals) (f : frame) : frame :=
  let previous_sleep := sleep_hours l in
  let previous_mood := mood_level l in
  {| previous_sleep := previous_sleep;
     previous_mood := previous_mood;
     data := data f ++ [make_row day l previous_sleep previous_mood] |}.

(** One iteration of [for day in range(num_days)]. *)
Definition iteration (start_date : Z) (f : frame) (day : Z) : M frame :=
  l <- day_body start_date day (previous_sleep f) (previous_mood f) ;;
  ret (store_and_append day l f).

Fixpoint for_each (days : list Z) (body : frame -> Z -> M frame)
    (f : frame) : M frame :=
  match days with
  | [] => ret f
  | day :: rest => f' <- body f day ;; for_each rest body f'
  end.

(** [range(n)] *)
Definition range (n : Z) : list Z := map Z.of_nat (seq 0 (Z.to_nat n)).

Definition initial_frame : frame :=
  {| previous_sleep := PyFloat 6.5; previous_mood := 2; data := [] |}.

(** The loop of [generate_realistic_data], from a start date in range. *)
Definition generate_from (start_date num_days : Z) : M frame :=
  for_each (range num_days) (iteration start_date) initial_frame.

(** [generate_realistic_data(num_days)], run on the day [now].
    [datetime.now() - timedelta(days=num_days)] raises [OverflowError]
    when the date falls outside the years 1 to 9999; every later date of
    the loop lies between the start date and [now]. *)
Definition generate_realistic_data (now num_days : Z)
  : M (result (list record)) :=
  let start_date := now - num_days in
  if (MINORDINAL <=? start_date) && (start_date <=? MAXORDINAL) then
    f <- generate_from start_date num_days ;;
    ret (Ok (data f))
  else ret (Raise OverflowError).

End Generator.


(** ** [save_to_csv] and the script body *)

Module Writer.

Import Generator.

Local Open Scope string_scope.
Local Open Scope Z_scope.

Definition fieldnames : list string :=
  ["moodLevel"; "anxietyLevel"; "anhedoniaLevel"; "sleepHours";
   "sleepQuality"; "daylightMinutes"; "exerciseMinutes";
   "medicationTaken"; "substanceAmount"; "dayOfWeek";
   "previousDaySleep"; "previousDayMood"].

Definition str_int (z : Z) : string := NilZero.string_of_int (Z.to_int z).

(** [repr] of a float with one decimal digit (below 1e16 in magnitude),
    which is what [round(x, 1)] hands to the writer: the only floats a
    generated record holds.  It is [repr] on these values alone; another
    float is printed by its one-decimal rounding. *)
Definition repr_float (q : Q) : string :=
  let t := round_half_even (q * 10) in
  (if t <? 0 then "-" else "")
  ++ str_int (Z.abs t / 10) ++ "." ++ str_int (Z.abs t mod 10).

Definition str (x : num) : string :=
  match x with
  | PyInt z => str_int z
  | PyFloat q => repr_float q
  end.

Definition crlf : string :=
  String (ascii_of_nat 13) (String (ascii_of_nat 10) EmptyString).

Definition csv_line (cells : list string) : string :=
  String.concat "," cells ++ crlf.

(** The cells of a row, in the order of [fieldnames]. *)
Definition cells_of (d : record) : list string :=
  [str_int (moodLevel d); str_int (anxietyLevel d);
   str_int (anhedoniaLevel d); str (sleepHours d);
   str_int (sleepQuality d); str (daylightMinutes d);
   str (exerciseMinutes d); str_int (medicationTaken d);
   str (substanceAmount d); str_int (dayOfWeek d);
   str (previousDaySleep d); str_int (previousDayMood d)].

(** What [writeheader()] and [writerows(data)] write, one entry per
    write. *)
Definition csv_writes (data : list record) : list string :=
  csv_line fieldnames :: map (fun d => csv_line (cells_of d)) data.

(** The lines [print] sends to the console. *)
Inductive console_line : Type :=
| Title                              (* Generating realistic ... data... *)
| Rule                               (* "=" * 60 *)
| GeneratedDays (n : nat)            (* Generated {len(data)} days ... *)
| SavedTo (filename : string)        (* Saved to: {filename} *)
| StatisticsHeader                   (* Dataset Statistics: *)
| DaysOnMedication (n : Z)           (* Days on medication: {med_days} *)
| AvgMoodBefore (x : num)            (* Avg mood before medication *)
| AvgMoodAfter (x : num)             (* Avg mood after medication *)
| MoodImprovement (x : num)          (* Mood improvement *)
| Done                               (* Done! Use this file ... *)
| KeyPatternsTitle                   (* Key patterns in this data: *)
| KeyPattern (text : string).        (* a line of the list, lines 219-225,
                                        by its text after the check mark *)

(** A line of the summary statistics (lines 204-208). *)
Definition is_statistics (l : console_line) : bool :=
  match l with
  | StatisticsHeader | DaysOnMedication _ | AvgMoodBefore _
  | AvgMoodAfter _ | MoodImprovement _ => true
  | _ => false
  end.

(** A line [save_to_csv] prints (lines 196-208). *)
Definition is_summary (l : console_line) : bool :=
  match l with
  | GeneratedDays _ | SavedTo _ => true
  | _ => is_statistics l
  end.

(** What the file system does to this run: nothing, or an [OSError] at
    [open], at the [k]-th write (the header is write 0), or when the file
    is closed. *)
Inductive fault : Type :=
| NoFault
| OpenFails
| WriteFails (k : nat)
| CloseFails.

Definition filesystem : Type := string -> option string.

Definition put (fs : filesystem) (name content : string) : filesystem :=
  fun n => if String.eqb n name then Some content else fs n.

Record world : Type := MkWorld {
  console : list console_line;
  files : filesystem
}.

Definition print (l : console_line) (w : world) : world :=
  {| console := (console w ++ [l])%list; files := files w |}.

(** The [with open(filename, 'w', newline='')] block: the text left in
    the file and whether the block completed. *)
Definition write_file (flt : fault) (writes : list string) (name : string)
    (fs : filesystem) : result unit * filesystem :=
  match flt with
  | OpenFails => (Raise OSError, fs)
  | WriteFails k =>
      if (k <? List.length writes)%nat
      then (Raise OSError, put fs name (String.concat "" (firstn k writes)))
      else (Ok tt, put fs name (String.concat "" writes))
  | CloseFails => (Raise OSError, put fs name (String.concat "" writes))
  | NoFault => (Ok tt, put fs name (String.concat "" writes))
  end.

Definition sum_mood (l : list record) : Z :=
  fold_left (fun acc d => acc + moodLevel d) l 0.

Definition count_medicated (l : list record) : Z :=
  fold_left (fun acc d => if medicationTaken d =? 1 then acc + 1 else acc)
            l 0.

(** [save_to_csv(data, filename)] *)
Definition save_to_csv (flt : fault) (data : list record) (filename : string)
    (w : world) : result unit * world :=
  match write_file flt (csv_writes data) filename (files w) with
  | (Raise e, fs) => (Raise e, {| console := console w; files := fs |})
  | (Ok _, fs) =>
      let w := {| console := console w; files := fs |} in
      let w := print (GeneratedDays (List.length data)) w in
      let w := print (SavedTo filename) w in
      let med_days := count_medicated data in
      let avg_mood_before :=
        (PyInt (sum_mood (firstn 60 data)) / PyInt 60)%py in
      let divisor := Z.of_nat (List.length data) - 90 in
      if divisor =? 0 then (Raise ZeroDivisionError, w)
      else
        let avg_mood_after :=
          (PyInt (sum_mood (skipn 90 data)) / PyInt divisor)%py in
        let w := print StatisticsHeader w in
        let w := print (DaysOnMedication med_days) w in
        let w := print (AvgMoodBefore avg_mood_before) w in
        let w := print (AvgMoodAfter avg_mood_after) w in
        let w := print (MoodImprovement
                          (avg_mood_after - avg_mood_before)%py) w in
        (Ok tt, w)
  end.

Definition default_filename : string := "neuralpath_ml_training.csv".

(** The block under [if __name__ == '__main__'], with [num_days] the
    literal 180 of the call: one console line per call of [print]. *)
Definition script (num_days : Z) (now : Z) (flt : fault) (g : rng_state)
    (w : world) : result unit * world :=
  let w := print Title w in
  let w := print Rule w in
  match fst (generate_realistic_data now num_days g) with
  | Raise e => (Raise e, w)
  | Ok data =>
      match save_to_csv flt data default_filename w with
      | (Raise e, w) => (Raise e, w)
      | (Ok _, w) =>
          let w := print Done w in
          let w := print KeyPatternsTitle w in
          let w :=
            print (KeyPattern "Medication effectiveness (starts day 60)") w in
          let w := print (KeyPattern "Sleep-mood correlation") w in
          let w := print (KeyPattern "Exercise benefits") w in
          let w := print (KeyPattern "Daylight exposure benefits") w in
          let w := print (KeyPattern "Substance effects (negative)") w in
          let w := print (KeyPattern "Day of week patterns") w in
          let w := print (KeyPattern "Previous day effects") w in
          (Ok tt, w)
      end
  end.

Definition main : Z -> fault -> rng_state -> world -> result unit * world :=
  script 180.

Definition empty_world : world :=
  {| console := []; files := fun _ => None |}.

End Writer.

(** ** [generate_realistic_data] in binary64 arithmetic

    The same function, computed as the interpreter computes it: a [float]
    is a binary64 number and every operation rounds to nearest, ties to
    even.  A literal denotes the binary64 number nearest to it. *)

Declare Scope b64_scope.
Delimit Scope b64_scope with b64.

Module Binary64.

Import Calendar.

Inductive num : Type :=
| PyInt (z : Z)
| PyFloat (f : float).

(** [float(z)], exact for the integers of the program (below [2^53]). *)
Definition of_int (z : Z) : float :=
  match z with
  | Z0 => 0%float
  | Zpos _ => PrimFloat.of_uint63 (Uint63.of_Z z)
  | Zneg p => PrimFloat.opp (PrimFloat.of_uint63 (Uint63.of_Z (Zpos p)))
  end.

Definition to_float (x : num) : float :=
  match x with
  | PyInt z => of_int z
  | PyFloat f => f
  end.

(** The real number a finite float stands for.  On an infinity or a NaN,
    where Python's [round] and [int] raise, this is 0. *)
Definition exact (f : float) : Q :=
  match Prim2SF f with
  | S754_finite s m e =>
      let v := if 0 <=? e then inject_Z (Zpos m * 2 ^ e)
               else Qmake (Zpos m) (2 ^ Z.to_pos (- e)) in
      if s then Qopp v else v
  | _ => 0%Q
  end.

(** A finite float counted in units of [2^-1074], the smallest positive
    binary64 number: every finite float is a whole number of them. *)
Definition ulps (m : positive) (e : Z) : Z := Zpos m * 2 ^ (e + 1074).

Definition scaled (x : spec_float) : Z :=
  match x with
  | S754_finite s m e => if s then - ulps m e else ulps m e
  | _ => 0
  end.

Definition finite_sf (x : spec_float) : bool :=
  match x with
  | S754_zero _ => true
  | S754_finite _ m e => bounded prec emax m e
  | _ => false
  end.

Definition finite64 (f : float) : bool := finite_sf (Prim2SF f).
Definition scaled64 (f : float) : Z := scaled (Prim2SF f).

Definition add (a b : num) : num :=
  match a, b with
  | PyInt x, PyInt y => PyInt (x + y)
  | _, _ => PyFloat (to_float a + to_float b)
  end.

Definition sub (a b : num) : num :=
  match a, b with
  | PyInt x, PyInt y => PyInt (x - y)
  | _, _ => PyFloat (to_float a - to_float b)
  end.

Definition mul (a b : num) : num :=
  match a, b with
  | PyInt x, PyInt y => PyInt (x * y)
  | _, _ => PyFloat (to_float a * to_float b)
  end.

Definition neg (a : num) : num :=
  match a with
  | PyInt x => PyInt (- x)
  | PyFloat f => PyFloat (- f)
  end.

(** [a / b], true division: the quotient rounded once, which for two
    integers below [2^53] is the quotient of their floats. *)
Definition truediv (a b : num) : num := PyFloat (to_float a / to_float b).

(** [a < b]: integers compare as integers, a float compares as a float
    (unordered with NaN). *)
Definition lt (a b : num) : bool :=
  match a, b with
  | PyInt x, PyInt y => x <? y
  | _, _ => PrimFloat.ltb (to_float a) (to_float b)
  end.

Definition gt (a b : num) : bool := lt b a.

Definition py_min (a b : num) : num := if lt b a then b else a.
Definition py_max (a b : num) : num := if gt b a then b else a.

(** [round(x)]: the integer nearest to the float's value, ties to even. *)
Definition py_round (x : num) : Z :=
  match x with
  | PyInt z => z
  | PyFloat f => round_half_even (exact f)
  end.

(** [round(x, 1)]: the float nearest to the one-decimal number nearest to
    the float's value (ties to even); an [int] stays as it is. *)
Definition py_round1 (x : num) : num :=
  match x with
  | PyInt z => PyInt z
  | PyFloat f =>
      PyFloat (of_int (round_half_even (exact f * 10)) / of_int 10)
  end.

(** [int(x)]: truncation toward zero. *)
Definition py_int (x : num) : Z :=
  match x with
  | PyInt z => z
  | PyFloat f => Z.quot (Qnum (exact f)) (Zpos (Qden (exact f)))
  end.

Infix "+" := add : b64_scope.
Infix "-" := sub : b64_scope.
Infix "*" := mul : b64_scope.
Infix "/" := truediv : b64_scope.
Notation "- x" := (neg x) : b64_scope.
Infix "<?" := lt : b64_scope.
Infix ">?" := gt : b64_scope.

(** The generator of the [random] module. *)
Record rng_state : Type := MkRng {
  stream : nat -> float;
  cursor : nat
}.

Definition seeded (draws : nat -> float) : rng_state :=
  {| stream := draws; cursor := 0 |}.

Definition M (A : Type) : Type := rng_state -> A * rng_state.

Definition ret {A} (a : A) : M A := fun s => (a, s).

Definition bind {A B} (c : M A) (k : A -> M B) : M B :=
  fun s => let (a, s') := c s in k a s'.

Local Set Warnings "-notation-overridden".
Local Notation "x <- c ;; k" := (bind c (fun x => k))
  (at level 61, c at next level, right associativity).

(** [random.random()] *)
Definition random : M num :=
  fun s => (PyFloat (stream s (cursor s)),
            {| stream := stream s; cursor := S (cursor s) |}).

(** The draws of [random()] are floats of [[0, 1)]. *)
Definition unit_draws (draws : nat -> float) : Prop :=
  forall k, PrimFloat.leb 0 (draws k) = true
            /\ PrimFloat.ltb (draws k) 1 = true.

(** A computation reads the generator and moves its cursor, and leaves
    the stream as it is. *)
Definition keeps_stream {A} (c : M A) : Prop :=
  forall s, stream (snd (c s)) = stream s.

(** What [random.uniform(a, b)] makes of the draw [r]. *)
Definition uniform_of (a b r : num) : num := (a + (b - a) * r)%b64.

(** [random.uniform(a, b)] *)
Definition uniform (a b : num) : M num :=
  r <- random ;; ret (uniform_of a b r).

Record record : Type := MkRecord {
  moodLevel : Z;
  anxietyLevel : Z;
  anhedoniaLevel : Z;
  sleepHours : num;
  sleepQuality : Z;
  daylightMinutes : num;
  exerciseMinutes : num;
  medicationTaken : Z;
  substanceAmount : num;
  dayOfWeek : Z;
  previousDaySleep : num;
  previousDayMood : Z
}.

Definition medication_start_day : Z := 60.
Definition baseline_mood : num := PyFloat 2.0.
Definition baseline_anxiety : num := PyFloat 3.0.

(** The variables one iteration assigns, and the values of the five
    noise terms, which the source leaves unnamed. *)
Record locals : Type := MkLocals {
  current_date : Z;
  day_of_week : Z;
  on_medication : bool;
  medication_taken : Z;
  days_on_meds : Z;
  med_effect : num;
  is_weekend : bool;
  base_sleep : num;
  sleep_noise : num;          (* [random.uniform(-0.5, 0.5)], line 64 *)
  sleep_hours : num;
  quality_noise : num;        (* [random.uniform(-1, 1)], line 68 *)
  sleep_quality : Z;
  exercise_probability : num;
  exercise_minutes : num;
  month : Z;
  seasonal_factor : num;
  base_daylight : num;
  daylight_minutes : num;
  substance_amount : num;
  mood_noise : num;           (* [random.uniform(-0.3, 0.3)], line 119 *)
  mood : num;
  mood_level : Z;
  anxiety_noise : num;        (* [random.uniform(-0.4, 0.4)], line 140 *)
  anxiety : num;
  anxiety_level : Z;
  anhedonia_noise : num;      (* [random.uniform(-0.3, 0.3)], line 158 *)
  anhedonia : num;
  anhedonia_level : Z
}.

Record frame : Type := MkFrame {
  previous_sleep : num;
  previous_mood : Z;
  data : list record
}.

(** Lines 43-56.  Returns [(medication_taken, days_on_meds, med_effect)]. *)
Definition medication_block (day : Z) : M (Z * Z * num) :=
  let on_medication := medication_start_day <=? day in
  taken <- (if on_medication
            then r <- random ;; ret (r <? PyFloat 0.85)%b64
            else ret false) ;;
  let medication_taken := of_bool taken in
  let days_on_meds :=
    if negb (medication_taken =? 0)
    then Z.max 0 (day - medication_start_day) else 0 in
  let med_effect := PyInt 0 in
  let med_effect :=
    if on_medication then
      let med_effect :=
        py_min (PyFloat 1.5)
               ((PyInt days_on_meds / PyInt 30) * PyFloat 1.5)%b64 in
      if medication_taken =? 0 then (med_effect * PyFloat 0.3)%b64
      else med_effect
    else med_effect in
  ret (medication_taken, days_on_meds, med_effect).

(** Line 68, given the draw of [random.uniform(-1, 1)]. *)
Definition sleep_quality_of (sleep_hours quality_noise : num) : Z :=
  py_int (py_min (PyInt 5)
            (py_max (PyInt 1)
               ((sleep_hours / PyFloat 8.0) * PyInt 5 + quality_noise)%b64)).

(** Lines 61-68.  Returns
    [(base_sleep, sleep_noise, sleep_hours, quality_noise,
      sleep_quality)]. *)
Definition sleep_block (is_weekend : bool) (med_effect : num)
  : M (num * num * num * num * Z) :=
  base_sleep <- (if is_weekend then uniform (PyFloat 7.5) (PyFloat 9.0)
                 else uniform (PyFloat 6.0) (PyFloat 8.0)) ;;
  sleep_noise <- uniform (PyFloat (-0.5)) (PyFloat 0.5) ;;
  let sleep_hours :=
    (base_sleep + (med_effect * PyFloat 0.5) + sleep_noise)%b64 in
  let sleep_hours :=
    py_max (PyFloat 4.0) (py_min (PyFloat 10.0) sleep_hours) in
  quality_noise <- uniform (PyInt (-1)) (PyInt 1) ;;
  let sleep_quality := sleep_quality_of sleep_hours quality_noise in
  ret (base_sleep, sleep_noise, sleep_hours, quality_noise, sleep_quality).

(** Lines 71-78.  Returns [(exercise_probability, exercise_minutes)]. *)
Definition exercise_block (is_weekend : bool) (day previous_mood : Z)
  : M (num * num) :=
  let exercise_probability :=
    if is_weekend then PyFloat 0.3 else PyFloat 0.15 in
  let exercise_probability :=
    if (0 <? day) && (3 <=? previous_mood)
    then (exercise_probability + PyFloat 0.2)%b64
    else exercise_probability in
  let exercise_minutes := PyInt 0 in
  r <- random ;;
  exercise_minutes <- (if (r <? exercise_probability)%b64
                       then uniform (PyInt 20) (PyInt 60)
                       else ret exercise_minutes) ;;
  ret (exercise_probability, exercise_minutes).

(** Lines 81-85.  Returns
    [(month, seasonal_factor, base_daylight, daylight_minutes)]. *)
Definition daylight_block (is_weekend : bool) (current_date : Z)
  : M (Z * num * num * num) :=
  let month := month_of current_date in
  let seasonal_factor :=
    if (5 <=? month) && (month <=? 8) then PyFloat 1.5 else PyFloat 0.7 in
  u <- uniform (PyInt 60) (PyInt 180) ;;
  let base_daylight := (u * seasonal_factor)%b64 in
  let daylight_minutes :=
    if is_weekend then base_daylight else (base_daylight * PyFloat 0.6)%b64 in
  let daylight_minutes :=
    py_max (PyInt 15) (py_min (PyInt 300) daylight_minutes) in
  ret (month, seasonal_factor, base_daylight, daylight_minutes).

(** Lines 89-93.  Returns [substance_amount]. *)
Definition substance_block (is_weekend : bool) : M num :=
  let substance_amount := PyInt 0 in
  r <- random ;;
  substance_amount <- (if (r <? PyFloat 0.7)%b64
                       then u <- uniform (PyInt 100) (PyInt 400) ;;
                            ret (substance_amount + u)%b64
                       else ret substance_amount) ;;
  substance_amount <- (if is_weekend
                       then r <- random ;;
                            if (r <? PyFloat 0.4)%b64
                            then u <- uniform (PyInt 200) (PyInt 600) ;;
                                 ret (substance_amount + u)%b64
                            else ret substance_amount
                       else ret substance_amount) ;;
  ret substance_amount.

(** Lines 99-114: the six effects that enter the mood. *)
Definition sleep_effect_of (previous_sleep : num) : num :=
  ((previous_sleep - PyFloat 6.0) * PyFloat 0.5)%b64.

Definition exercise_effect_of (exercise_minutes : num) : num :=
  if (exercise_minutes >? PyInt 0)%b64
  then ((exercise_minutes / PyFloat 60.0) * PyFloat 0.8)%b64
  else PyInt 0.

Definition daylight_effect_of (daylight_minutes : num) : num :=
  ((daylight_minutes / PyFloat 120.0) * PyFloat 0.4)%b64.

Definition substance_effect_of (substance_amount : num) : num :=
  (- (substance_amount / PyFloat 500.0) * PyFloat 0.3)%b64.

Definition weekday_effect_of (day_of_week : Z) : num :=
  if day_of_week =? 2 then PyFloat (-0.3) else PyInt 0.

Definition mood_momentum_of (previous_mood : Z) : num :=
  (PyInt (previous_mood - 3) * PyFloat 0.2)%b64.

(** Lines 96-121.  Returns [(mood_noise, mood, mood_level)]. *)
Definition mood_block (med_effect previous_sleep exercise_minutes
    daylight_minutes substance_amount : num) (day_of_week previous_mood : Z)
  : M (num * num * Z) :=
  let mood_base := baseline_mood in
  let sleep_effect := sleep_effect_of previous_sleep in
  let exercise_effect := exercise_effect_of exercise_minutes in
  let daylight_effect := daylight_effect_of daylight_minutes in
  let substance_effect := substance_effect_of substance_amount in
  let weekday_effect := weekday_effect_of day_of_week in
  let mood_momentum := mood_momentum_of previous_mood in
  mood_noise <- uniform (PyFloat (-0.3)) (PyFloat 0.3) ;;
  let mood :=
    (mood_base + med_effect + sleep_effect + exercise_effect
     + daylight_effect + substance_effect + weekday_effect
     + mood_momentum + mood_noise)%b64 in
  let mood_level :=
    py_int (py_max (PyInt 1) (py_min (PyInt 5) (PyInt (py_round mood)))) in
  ret (mood_noise, mood, mood_level).

(** Lines 124-142.  Returns [(anxiety_noise, anxiety, anxiety_level)]. *)
Definition anxiety_block (med_effect sleep_hours exercise_minutes
    substance_amount : num) : M (num * num * Z) :=
  let anxiety_base := baseline_anxiety in
  let anxiety_med_effect := (- med_effect * PyFloat 0.8)%b64 in
  let anxiety_sleep_effect :=
    ((PyFloat 7.0 - sleep_hours) * PyFloat 0.3)%b64 in
  let anxiety_exercise_effect :=
    (- (exercise_minutes / PyFloat 60.0) * PyFloat 0.5)%b64 in
  let anxiety_substance_effect :=
    ((substance_amount / PyFloat 500.0) * PyFloat 0.5)%b64 in
  anxiety_noise <- uniform (PyFloat (-0.4)) (PyFloat 0.4) ;;
  let anxiety :=
    (anxiety_base + anxiety_med_effect + anxiety_sleep_effect
     + anxiety_exercise_effect + anxiety_substance_effect
     + anxiety_noise)%b64 in
  let anxiety_level :=
    py_int (py_max (PyInt 0) (py_min (PyInt 4) (PyInt (py_round anxiety)))) in
  ret (anxiety_noise, anxiety, anxiety_level).

(** Lines 145-160.  Returns
    [(anhedonia_noise, anhedonia, anhedonia_level)]. *)
Definition anhedonia_block (med_effect sleep_hours exercise_minutes : num)
  : M (num * num * Z) :=
  let anhedonia_base := PyFloat 2.5 in
  let anhedonia_med_effect := (- med_effect * PyFloat 0.7)%b64 in
  let anhedonia_exercise_effect :=
    (- (exercise_minutes / PyFloat 60.0) * PyFloat 0.4)%b64 in
  let anhedonia_sleep_effect :=
    ((PyFloat 7.0 - sleep_hours) * PyFloat 0.2)%b64 in
  anhedonia_noise <- uniform (PyFloat (-0.3)) (PyFloat 0.3) ;;
  let anhedonia :=
    (anhedonia_base + anhedonia_med_effect + anhedonia_exercise_effect
     + anhedonia_sleep_effect + anhedonia_noise)%b64 in
  let anhedonia_level :=
    py_int (py_max (PyInt 0)
              (py_min (PyInt 4) (PyInt (py_round anhedonia)))) in
  ret (anhedonia_noise, anhedonia, anhedonia_level).

(** Lines 39-160 of the loop body, block after block in source order. *)
Definition day_body (start_date day : Z) (previous_sleep : num)
    (previous_mood : Z) : M locals :=
  let current_date := start_date + day in
  let day_of_week := weekday current_date + 1 in
  let on_medication := medication_start_day <=? day in
  med <- medication_block day ;;
  let '(medication_taken, days_on_meds, med_effect) := med in
  let is_weekend := (day_of_week =? 1) || (day_of_week =? 7) in
  slp <- sleep_block is_weekend med_effect ;;
  let '(base_sleep, sleep_noise, sleep_hours, quality_noise,
        sleep_quality) := slp in
  exr <- exercise_block is_weekend day previous_mood ;;
  let '(exercise_probability, exercise_minutes) := exr in
  dayl <- daylight_block is_weekend current_date ;;
  let '(month, seasonal_factor, base_daylight, daylight_minutes) := dayl in
  substance_amount <- substance_block is_weekend ;;
  md <- mood_block med_effect previous_sleep exercise_minutes
          daylight_minutes substance_amount day_of_week previous_mood ;;
  let '(mood_noise, mood, mood_level) := md in
  anx <- anxiety_block med_effect sleep_hours exercise_minutes
           substance_amount ;;
  let '(anxiety_noise, anxiety, anxiety_level) := anx in
  anh <- anhedonia_block med_effect sleep_hours exercise_minutes ;;
  let '(anhedonia_noise, anhedonia, anhedonia_level) := anh in
  ret {| current_date := current_date;
         day_of_week := day_of_week;
         on_medication := on_medication;
         medication_taken := medication_taken;
         days_on_meds := days_on_meds;
         med_effect := med_effect;
         is_weekend := is_weekend;
         base_sleep := base_sleep;
         sleep_noise := sleep_noise;
         sleep_hours := sleep_hours;
         quality_noise := quality_noise;
         sleep_quality := sleep_quality;
         exercise_probability := exercise_probability;
         exercise_minutes := exercise_minutes;
         month := month;
         seasonal_factor := seasonal_factor;
         base_daylight := base_daylight;
         daylight_minutes := daylight_minutes;
         substance_amount := substance_amount;
         mood_noise := mood_noise;
         mood := mood;
         mood_level := mood_level;
         anxiety_noise := anxiety_noise;
         anxiety := anxiety;
         anxiety_level := anxiety_level;
         anhedonia_noise := anhedonia_noise;
         anhedonia := anhedonia;
         anhedonia_level := anhedonia_level |}.

(** Lines 167-180. *)
Definition make_row (day : Z) (l : locals) (previous_sleep : num)
    (previous_mood : Z) : record :=
  {| moodLevel := mood_level l;
     anxietyLevel := anxiety_level l;
     anhedoniaLevel := anhedonia_level l;
     sleepHours := py_round1 (sleep_hours l);
     sleepQuality := sleep_quality l;
     daylightMinutes := py_round1 (daylight_minutes l);
     exerciseMinutes := py_round1 (exercise_minutes l);
     medicationTaken := medication_taken l;
     substanceAmount := py_round1 (substance_amount l);
     dayOfWeek := day_of_week l;
     previousDaySleep :=
       if 0 <? day then py_round1 previous_sleep else PyInt 0;
     previousDayMood := if 0 <? day then previous_mood else 0 |}.

(** Lines 162-180: the carried variables are overwritten first, the
    dictionary is appended afterwards. *)
Definition store_and_append (day : Z) (l : locals) (f : frame) : frame :=
  let previous_sleep := sleep_hours l in
  let previous_mood := mood_level l in
  {| previous_sleep := previous_sleep;
     previous_mood := previous_mood;
     data := data f ++ [make_row day l previous_sleep previous_mood] |}.

Definition iteration (start_date : Z) (f : frame) (day : Z) : M frame :=
  l <- day_body start_date day (previous_sleep f) (previous_mood f) ;;
  ret (store_and_append day l f).

Fixpoint for_each (days : list Z) (body : frame -> Z -> M frame)
    (f : frame) : M frame :=
  match days with
  | [] => ret f
  | day :: rest => f' <- body f day ;; for_each rest body f'
  end.

Definition initial_frame : frame :=
  {| previous_sleep := PyFloat 6.5; previous_mood := 2; data := [] |}.

Definition generate_from (start_date num_days : Z) : M frame :=
  for_each (Generator.range num_days) (iteration start_date) initial_frame.

(** [generate_realistic_data(num_days)], run on the day [now]. *)
Definition generate_realistic_data (now num_days : Z)
  : M (result (list record)) :=
  let start_date := now - num_days in
  if (MINORDINAL <=? start_date) && (start_date <=? MAXORDINAL) then
    f <- generate_from start_date num_days ;;
    ret (Ok (data f))
  else ret (Raise OverflowError).

(** The frame and the generator when iteration [i] begins. *)
Definition state_before (start_date : Z) (i : nat) (g : rng_state)
  : frame * rng_state :=
  generate_from start_date (Z.of_nat i) g.

(** The variables iteration [i] assigns. *)
Definition locals_at (start_date : Z) (i : nat) (g : rng_state) : locals :=
  let (f, s) := state_before start_date i g in
  fst (day_body start_date (Z.of_nat i) (previous_sleep f) (previous_mood f) s).

(** The carried variables as iteration [i] reads them. *)
Definition previous_sleep_at (start_date : Z) (i : nat) (g : rng_state)
  : num :=
  previous_sleep (fst (state_before start_date i g)).

Definition previous_mood_at (start_date : Z) (i : nat) (g : rng_state) : Z :=
  previous_mood (fst (state_before start_date i g)).

(** The dictionary iteration [i] appends. *)
Definition row_at (start_date : Z) (i : nat) (g : rng_state) : record :=
  let l := locals_at start_date i g in
  make_row (Z.of_nat i) l (sleep_hours l) (mood_level l).

(** *** The formulas as the specification words them *)

(** The sum whose rounding is the mood level, added from left to
    right. *)
Definition moodSum (medEffect previousSleep exerciseMinutes daylightMinutes
    substanceAmount : num) (dayOfWeek previousMood : Z) (noise : num)
  : num :=
  (PyFloat 2.0 + medEffect
   + (previousSleep - PyFloat 6.0) * PyFloat 0.5
   + (if (exerciseMinutes >? PyInt 0)%b64
      then (exerciseMinutes / PyFloat 60.0) * PyFloat 0.8 else PyInt 0)
   + (daylightMinutes / PyFloat 120.0) * PyFloat 0.4
   + (- (substanceAmount / PyFloat 500.0)) * PyFloat 0.3
   + (if dayOfWeek =? 2 then PyFloat (-0.3) else PyInt 0)
   + PyInt (previousMood - 3) * PyFloat 0.2
   + noise)%b64.

(** The medication effect of a day, from its index and its dose: 0
    before day 60; from then on [min(1.5, (daysOnMeds / 30) * 1.5)],
    where [daysOnMeds] is [max(0, day - 60)] with the dose and 0 without,
    and without the dose the effect is multiplied by 0.3. *)
Definition medEffect (day medicationTaken : Z) : num :=
  let daysOnMeds :=
    if medicationTaken =? 0 then 0 else Z.max 0 (day - 60) in
  if 60 <=? day then
    let effect :=
      py_min (PyFloat 1.5) ((PyInt daysOnMeds / PyInt 30) * PyFloat 1.5)%b64 in
    if medicationTaken =? 0 then (effect * PyFloat 0.3)%b64 else effect
  else PyInt 0.

(** Round to the nearest integer, then clamp into [[lo, hi]]. *)
Definition round_then_clamp (lo hi : Z) (x : num) : Z :=
  Z.max lo (Z.min hi (py_round x)).

(** Clamp a float into the real interval [[lo, hi]], then truncate
    toward zero.  A NaN compares with nothing and gives [lo]. *)
Definition clamp_then_truncate (lo hi : Z) (x : float) : Z :=
  if PrimFloat.ltb (of_int lo) x
  then if PrimFloat.ltb x (of_int hi) then py_int (PyFloat x) else hi
  else lo.

(** Draws to run the program on: [((15 k + 10) mod 16) / 16]. *)
Definition sixteenths (k : nat) : float :=
  (of_int (Z.of_nat ((15 * k + 10) mod 16)) / 16)%float.

(** The same draws as exact rationals. *)
Definition sixteenths_exact (k : nat) : Q :=
  inject_Z (Z.of_nat ((15 * k + 10) mod 16)) / 16.

End Binary64.


(** ** Vocabulary of the properties *)

Module Run.

Import Generator.

(** A computation only moves the cursor; the stream is the seed's. *)
Definition keeps_stream {A} (c : M A) : Prop :=
  forall s, stream (snd (c s)) = stream s.

(** The frame and the generator when iteration [i] begins. *)
Definition state_before (start_date : Z) (i : nat) (g : rng_state)
  : frame * rng_state :=
  generate_from start_date (Z.of_nat i) g.

(** The variables iteration [i] assigns. *)
Definition locals_at (start_date : Z) (i : nat) (g : rng_state) : locals :=
  let (f, s) := state_before start_date i g in
  fst (day_body start_date (Z.of_nat i) (previous_sleep f) (previous_mood f) s).

(** The carried variables as iteration [i] reads them. *)
Definition previous_sleep_at (start_date : Z) (i : nat) (g : rng_state)
  : num :=
  previous_sleep (fst (state_before start_date i g)).

Definition previous_mood_at (start_date : Z) (i : nat) (g : rng_state) : Z :=
  previous_mood (fst (state_before start_date i g)).

(** The dictionary iteration [i] appends. *)
Definition row_at (start_date : Z) (i : nat) (g : rng_state) : record :=
  let l := locals_at start_date i g in
  make_row (Z.of_nat i) l (sleep_hours l) (mood_level l).

End Run.

(** ** The formulas as the specification words them *)

Module Spec.

Import Generator.

Local Open Scope Q_scope.

(** Clamping of a real into [[lo, hi]]. *)
Definition clamp (lo hi x : Q) : Q := Qmax lo (Qmin hi x).

(** Clamping of an integer into [[lo, hi]]. *)
Definition clampZ (lo hi x : Z) : Z := Z.max lo (Z.min hi x).

(** Conversion to an integer by truncation toward zero. *)
Definition truncate (x : Q) : Z :=
  if Qle_bool 0 x then Qfloor x else Qceiling x.

(** daysOnMeds = max(0, day - medicationStartDay) if medicationTaken
    else 0. *)
Definition daysOnMeds (day medicationTaken : Z) : Z :=
  if (medicationTaken =? 1)%Z then Z.max 0 (day - medication_start_day)
  else 0%Z.

(** medEffect = min(1.5, (daysOnMeds/30) x 1.5) on or after the start
    day and 0 before; scaled by 0.3 on a day on medication whose dose is
    not taken. *)
Definition medEffect (day medicationTaken : Z) : Q :=
  let onMedication := (medication_start_day <=? day)%Z in
  let computed :=
    if onMedication
    then Qmin 1.5 (inject_Z (daysOnMeds day medicationTaken) / 30 * 1.5)
    else 0 in
  if onMedication && (medicationTaken =? 0)%Z then computed * 0.3
  else computed.

(** The sum whose rounding is the mood level. *)
Definition moodSum (medEffect previousSleep exerciseMinutes daylightMinutes
    substanceAmount : Q) (dayOfWeek previousMood : Z) (noise : Q) : Q :=
  2.0 + medEffect
  + (previousSleep - 6.0) * 0.5
  + (if Qltb 0 exerciseMinutes then (exerciseMinutes / 60) * 0.8 else 0)
  + (daylightMinutes / 120) * 0.4
  - (substanceAmount / 500) * 0.3
  + (if (dayOfWeek =? 2)%Z then - 0.3 else 0)
  + (inject_Z previousMood - 3) * 0.2
  + noise.

(** moodLevel: round to the nearest integer, then clamp into [[1, 5]]. *)
Definition moodLevel_of (sum : Q) : Z := clampZ 1 5 (round_half_even sum).

(** sleepQuality: clamp into the real interval [[1, 5]], then truncate. *)
Definition sleepQuality_of (sleepHours noise : Q) : Z :=
  truncate (clamp 1 5 ((sleepHours / 8.0) * 5 + noise)).

(** The value [random.uniform(a, b)] makes of the draw [r]. *)
Definition uniform_of (a b r : Q) : Q := a + (b - a) * r.

(** The documented range of every bounded field of a record. *)
Definition in_range (r : record) : Prop :=
  (1 <= moodLevel r <= 5)%Z /\
  (0 <= anxietyLevel r <= 4)%Z /\
  (0 <= anhedoniaLevel r <= 4)%Z /\
  4.0 <= val (sleepHours r) <= 10.0 /\
  (1 <= sleepQuality r <= 5)%Z /\
  15 <= val (daylightMinutes r) <= 300 /\
  (val (exerciseMinutes r) == 0 \/ 20 <= val (exerciseMinutes r) <= 60) /\
  (1 <= dayOfWeek r <= 7)%Z.

End Spec.

(** The mean mood level of a list of records; a list without records has
    none. *)
Definition mean_mood (l : list record) : option Q :=
  match l with
  | [] => None
  | _ => Some (inject_Z (Writer.sum_mood l)
               / inject_Z (Z.of_nat (List.length l)))%Q
  end.

(** A record to fill data sets with. *)
Definition sample_record : record :=
  {| moodLevel := 3; anxietyLevel := 2; anhedoniaLevel := 2;
     sleepHours := PyFloat 7.5; sleepQuality := 4;
     daylightMinutes := PyFloat 80.0; exerciseMinutes := PyInt 0;
     medicationTaken := 1; substanceAmount := PyFloat 250.0;
     dayOfWeek := 3; previousDaySleep := PyFloat 7.5;
     previousDayMood := 3 |}.

(** A stream of draws to run the program on: 0.11, 0.48, 0.85, 0.22, ... *)
Definition sample_draws (k : nat) : Q :=
  inject_Z (Z.of_nat ((k * 37 + 11) mod 100)) / 100.

(** Two generator states that will return the same draws. *)
Definition same_draws (s1 s2 : rng_state) : Prop :=
  cursor s1 = cursor s2 /\ forall k, stream s1 k = stream s2 k.

(** A computation whose result depends on the generator only through the
    draws it will return. *)
Definition respects {A} (c : M A) : Prop :=
  forall s1 s2, same_draws s1 s2 ->
    fst (c s1) = fst (c s2) /\ same_draws (snd (c s1)) (snd (c s2)).

(** The draw [random.uniform(-0.3, 0.3)] of the mood block, read at the
    generator state the block starts from. *)
Definition mood_noise_of (s : rng_state) : Q :=
  Spec.uniform_of (- 0.3) 0.3 (stream s (cursor s)).

(** ** Vocabulary for the draws a computation consumes *)

(** A computation that calls [random.random()] at least [lo] and at most
    [hi] times. *)
Definition advances {A} (lo hi : nat) (c : M A) : Prop :=
  forall s,
    (cursor s + lo <= cursor (snd (c s)) <= cursor s + hi)%nat.

(** * Properties *)

Import Calendar Generator Writer Run.

(** ** The model on concrete inputs *)

Example ord2ymd_2026_11_03 : _ord2ymd 739923 = (2026, 11, 3).
Proof. reflexivity. Qed.

Example ord2ymd_leap_day : _ord2ymd 738945 = (2024, 2, 29).
Proof. reflexivity. Qed.

Example ord2ymd_last_day : _ord2ymd MAXORDINAL = (9999, 12, 31).
Proof. reflexivity. Qed.

Example weekday_2026_11_03 : day_name_of 739923 = Tuesday.
Proof. reflexivity. Qed.

Example round_ties_to_even :
  py_round (PyFloat 2.5) = 2 /\ py_round (PyFloat 3.5) = 4
  /\ py_round (PyFloat (-0.5)) = 0.
Proof. repeat split. Qed.

Example round1_sample :
  py_round1 (PyFloat 7.26) = PyFloat 7.3 /\ py_round1 (PyInt 0) = PyInt 0.
Proof. split; reflexivity. Qed.

Example int_truncates :
  py_int (PyFloat 3.7) = 3 /\ py_int (PyFloat (-3.7)) = -3.
Proof. split; reflexivity. Qed.

Example uniform_sample :
  fst (uniform (PyInt 20) (PyInt 60) (seeded (fun _ => 0.5%Q)))
  = PyFloat 40.0.
Proof. reflexivity. Qed.

Example csv_of_sample_record :
  csv_line (cells_of sample_record)
  = ("3,2,2,7.5,4,80.0,0,1,250.0,3,7.5,3" ++ crlf)%string.
Proof. reflexivity. Qed.

(** ** Facts about Python numbers *)

(** Linear arithmetic over [Q] after literal inverses and injected
    integer literals are evaluated. *)
Ltac is_pos_literal p :=
  lazymatch p with
  | xH => idtac
  | xO ?q => is_pos_literal q
  | xI ?q => is_pos_literal q
  end.

Ltac is_Z_closed z :=
  lazymatch z with
  | Z0 => idtac
  | Zpos ?p => is_pos_literal p
  | Zneg ?p => is_pos_literal p
  | Z.add ?a ?b => is_Z_closed a; is_Z_closed b
  | Z.sub ?a ?b => is_Z_closed a; is_Z_closed b
  | Z.opp ?a => is_Z_closed a
  end.

Ltac eval_literals :=
  unfold Qdiv in *;
  repeat match goal with
  | |- context [Qinv (?n # ?d)] =>
      is_Z_closed n; is_pos_literal d;
      let v := eval cbv in (Qinv (n # d)) in
      change (Qinv (n # d)) with v
  | H : context [Qinv (?n # ?d)] |- _ =>
      is_Z_closed n; is_pos_literal d;
      let v := eval cbv in (Qinv (n # d)) in
      change (Qinv (n # d)) with v in H
  | |- context [inject_Z ?z] =>
      is_Z_closed z;
      let v := eval cbv in (inject_Z z) in
      change (inject_Z z) with v
  | H : context [inject_Z ?z] |- _ =>
      is_Z_closed z;
      let v := eval cbv in (inject_Z z) in
      change (inject_Z z) with v in H
  end.

Ltac qlra :=
  cbn [val PyNum.add PyNum.sub PyNum.mul PyNum.truediv PyNum.neg] in *;
  eval_literals; lra.

Section NumFacts.

Local Open Scope Q_scope.

Lemma Qltb_true (a b : Q) : Qltb a b = true <-> a < b.
Proof.
  unfold Qltb. rewrite negb_true_iff.
  split; intro H.
  - apply Qnot_le_lt. intro Hle.
    apply Qle_bool_iff in Hle. congruence.
  - destruct (Qle_bool b a) eqn:E; [|reflexivity].
    apply Qle_bool_iff in E. lra.
Qed.

Lemma Qltb_false (a b : Q) : Qltb a b = false <-> b <= a.
Proof.
  unfold Qltb. rewrite negb_false_iff. apply Qle_bool_iff.
Qed.

Lemma val_add (a b : num) : val (a + b)%py == val a + val b.
Proof.
  destruct a, b; cbn [add val]; try reflexivity.
  rewrite inject_Z_plus. reflexivity.
Qed.

Lemma val_sub (a b : num) : val (a - b)%py == val a - val b.
Proof.
  destruct a, b; cbn [sub val]; try reflexivity.
  all: unfold Z.sub, Qminus; rewrite inject_Z_plus, inject_Z_opp; reflexivity.
Qed.

Lemma val_mul (a b : num) : val (a * b)%py == val a * val b.
Proof.
  destruct a, b; cbn [mul val]; reflexivity.
Qed.

Lemma val_neg (a : num) : val (- a)%py == - val a.
Proof.
  destruct a; cbn [neg val]; [rewrite inject_Z_opp |]; reflexivity.
Qed.

Lemma val_truediv (a b : num) : val (a / b)%py == val a / val b.
Proof. reflexivity. Qed.

Lemma lt_true (a b : num) : lt a b = true <-> val a < val b.
Proof. apply Qltb_true. Qed.

Lemma lt_false (a b : num) : lt a b = false <-> val b <= val a.
Proof. apply Qltb_false. Qed.

Lemma py_min_cases (a b : num) :
  (py_min a b = b /\ val b < val a) \/ (py_min a b = a /\ val a <= val b).
Proof.
  unfold py_min. destruct (lt b a) eqn:E.
  - left. split; [reflexivity | now apply lt_true].
  - right. split; [reflexivity | now apply lt_false].
Qed.

Lemma py_max_cases (a b : num) :
  (py_max a b = b /\ val a < val b) \/ (py_max a b = a /\ val b <= val a).
Proof.
  unfold py_max, gt. destruct (lt a b) eqn:E.
  - left. split; [reflexivity | now apply lt_true].
  - right. split; [reflexivity | now apply lt_false].
Qed.

(** [max(lo, min(hi, x))] is [lo], [hi] or [x], and lies in between. *)
Lemma clamp_max_min (lo hi x : num) :
  val lo <= val hi ->
  let c := py_max lo (py_min hi x) in
  (c = lo \/ c = hi \/ c = x) /\ val lo <= val c <= val hi.
Proof.
  intros Hlh c. subst c.
  destruct (py_min_cases hi x) as [[-> Hm] | [-> Hm]];
    destruct (py_max_cases lo x) as [[Hx H1] | [Hx H1]];
    destruct (py_max_cases lo hi) as [[Hh H2] | [Hh H2]];
    rewrite ?Hx, ?Hh; split; auto; lra.
Qed.

(** [min(hi, max(lo, x))], the order line 68 uses. *)
Lemma clamp_min_max (lo hi x : num) :
  val lo <= val hi ->
  let c := py_min hi (py_max lo x) in
  (c = lo \/ c = hi \/ c = x) /\ val lo <= val c <= val hi.
Proof.
  intros Hlh c. subst c.
  destruct (py_max_cases lo x) as [[-> Hm] | [-> Hm]];
    destruct (py_min_cases hi x) as [[Hx H1] | [Hx H1]];
    destruct (py_min_cases hi lo) as [[Hh H2] | [Hh H2]];
    rewrite ?Hx, ?Hh; split; auto; lra.
Qed.

Lemma round_half_even_cases (q : Q) :
  round_half_even q = Qfloor q \/ round_half_even q = (Qfloor q + 1)%Z.
Proof.
  unfold round_half_even.
  destruct (Qltb _ _); [auto|].
  destruct (Qltb _ _); [auto|].
  destruct (Z.even _); auto.
Qed.

Lemma round_half_even_ge (m : Z) (q : Q) :
  inject_Z m <= q -> (m <= round_half_even q)%Z.
Proof.
  intro H. apply Qfloor_resp_le in H. rewrite Qfloor_Z in H.
  destruct (round_half_even_cases q) as [-> | ->]; lia.
Qed.

Lemma round_half_even_le (m : Z) (q : Q) :
  q <= inject_Z m -> (round_half_even q <= m)%Z.
Proof.
  intro H.
  destruct (Qlt_le_dec q (inject_Z m)) as [Hlt | Hge].
  - assert (Hf : (Qfloor q < m)%Z).
    { rewrite Zlt_Qlt. eapply Qle_lt_trans; [apply Qfloor_le | exact Hlt]. }
    destruct (round_half_even_cases q) as [-> | ->]; lia.
  - assert (E : q == inject_Z m) by lra.
    unfold round_half_even.
    rewrite (Qfloor_comp _ _ E), Qfloor_Z.
    assert (Hr : Qltb (q - inject_Z m) (1 # 2) = true)
      by (apply Qltb_true; lra).
    rewrite Hr. lia.
Qed.

(** The exact value is within one half of its rounding. *)
Lemma round_half_even_near (q : Q) :
  q - (1 # 2) <= inject_Z (round_half_even q) <= q + (1 # 2).
Proof.
  pose proof (Qfloor_le q) as Hlo.
  pose proof (Qlt_floor q) as Hhi.
  rewrite inject_Z_plus in Hhi.
  unfold round_half_even.
  destruct (Qltb (q - inject_Z (Qfloor q)) (1 # 2)) eqn:E1.
  - apply Qltb_true in E1. lra.
  - apply Qltb_false in E1.
    assert (H1 : inject_Z (Qfloor q + 1) == inject_Z (Qfloor q) + 1)
      by (rewrite inject_Z_plus; reflexivity).
    destruct (Qltb (1 # 2) (q - inject_Z (Qfloor q))) eqn:E2.
    + rewrite H1. change (inject_Z 1) with 1 in Hhi. lra.
    + apply Qltb_false in E2.
      change (inject_Z 1) with 1 in Hhi.
      destruct (Z.even (Qfloor q)); [lra | rewrite H1; lra].
Qed.

(** [round(x, 1)] keeps a value between two bounds with one decimal. *)
Lemma py_round1_bounds (a b : Z) (x : num) :
  inject_Z a / 10 <= val x <= inject_Z b / 10 ->
  inject_Z a / 10 <= val (py_round1 x) <= inject_Z b / 10.
Proof.
  destruct x as [z | q]; cbn [py_round1 val]; [tauto|].
  intros [Ha Hb].
  assert (H1 : (a <= round_half_even (q * 10))%Z)
    by (apply round_half_even_ge; qlra).
  assert (H2 : (round_half_even (q * 10) <= b)%Z)
    by (apply round_half_even_le; qlra).
  rewrite Zle_Qle in H1, H2. qlra.
Qed.

Lemma py_round1_type (x : num) :
  match x, py_round1 x with
  | PyInt z, PyInt z' => z = z'
  | PyFloat _, PyFloat _ => True
  | _, _ => False
  end.
Proof. destruct x; cbn; auto. Qed.

(** Truncation of a value that lies between two non-negative integers. *)
Lemma py_int_bounds (a b : Z) (x : num) :
  (0 <= a)%Z -> inject_Z a <= val x <= inject_Z b ->
  (a <= py_int x <= b)%Z.
Proof.
  intros Ha0 [Ha Hb].
  destruct x as [z | q]; cbn [py_int val] in *.
  - rewrite <- !Zle_Qle in *. lia.
  - assert (H0 : 0 <= q).
    { eapply Qle_trans; [|exact Ha]. rewrite Zle_Qle in Ha0. exact Ha0. }
    assert (Hn : (0 <= Qnum q)%Z).
    { destruct q as [n d]. unfold Qle in H0. cbn in *. lia. }
    rewrite Z.quot_div_nonneg by lia.
    assert (Ef : (Qnum q / Z.pos (Qden q))%Z = Qfloor q)
      by (destruct q; reflexivity).
    rewrite Ef. split.
    + apply Qfloor_resp_le in Ha. now rewrite Qfloor_Z in Ha.
    + apply Qfloor_resp_le in Hb. now rewrite Qfloor_Z in Hb.
Qed.

End NumFacts.

(** Pushes [val] through the arithmetic of the goal. *)
Ltac push_val :=
  cbn [val];
  repeat (progress
            (rewrite ?val_mul, ?val_sub, ?val_neg, ?val_truediv, ?val_add);
          cbn [val]).

(** Case analysis on the outermost [min] or [max] of the goal. *)
Ltac case_min :=
  match goal with
  | |- context [py_min ?a ?b] =>
      let H := fresh "Hmin" in
      destruct (py_min_cases a b) as [[-> H] | [-> H]]
  end.

Ltac case_max :=
  match goal with
  | |- context [py_max ?a ?b] =>
      let H := fresh "Hmax" in
      destruct (py_max_cases a b) as [[-> H] | [-> H]]
  end.

(** ** Facts about the generator monad *)

Section MonadFacts.

Lemma keeps_ret {A} (a : A) : keeps_stream (ret a).
Proof. intro s. reflexivity. Qed.

Lemma keeps_random : keeps_stream random.
Proof. intro s. reflexivity. Qed.

Lemma keeps_bind {A B} (c : M A) (k : A -> M B) :
  keeps_stream c -> (forall a, keeps_stream (k a)) ->
  keeps_stream (bind c k).
Proof.
  intros Hc Hk s. unfold bind.
  specialize (Hc s). destruct (c s) as [a s']. cbn in Hc.
  rewrite Hk. exact Hc.
Qed.

Lemma keeps_if {A} (b : bool) (c1 c2 : M A) :
  keeps_stream c1 -> keeps_stream c2 -> keeps_stream (if b then c1 else c2).
Proof. destruct b; auto. Qed.

Lemma keeps_uniform (a b : num) : keeps_stream (uniform a b).
Proof. intro s. reflexivity. Qed.

End MonadFacts.

Ltac keeps :=
  repeat first
    [ apply keeps_ret | apply keeps_random | apply keeps_uniform
    | apply keeps_if
    | apply keeps_bind; [| intro]
    | match goal with
      | |- keeps_stream (let '(_, _) := ?p in _) => destruct p
      end ].

Section BlockFacts.

Lemma keeps_medication_block day : keeps_stream (medication_block day).
Proof. unfold medication_block. keeps. Qed.

Lemma keeps_sleep_block w m : keeps_stream (sleep_block w m).
Proof. unfold sleep_block. keeps. Qed.

Lemma keeps_exercise_block w d p : keeps_stream (exercise_block w d p).
Proof. unfold exercise_block. keeps. Qed.

Lemma keeps_daylight_block w d : keeps_stream (daylight_block w d).
Proof. unfold daylight_block. keeps. Qed.

Lemma keeps_substance_block w : keeps_stream (substance_block w).
Proof. unfold substance_block. keeps. Qed.

Lemma keeps_mood_block a b c d e f g : keeps_stream (mood_block a b c d e f g).
Proof. unfold mood_block. keeps. Qed.

Lemma keeps_anxiety_block a b c d : keeps_stream (anxiety_block a b c d).
Proof. unfold anxiety_block. keeps. Qed.

Lemma keeps_anhedonia_block a b c : keeps_stream (anhedonia_block a b c).
Proof. unfold anhedonia_block. keeps. Qed.

Lemma keeps_day_body start day ps pm : keeps_stream (day_body start day ps pm).
Proof.
  unfold day_body.
  apply keeps_bind; [apply keeps_medication_block | intros [[? ?] ?]].
  apply keeps_bind; [apply keeps_sleep_block | intros [[? ?] ?]].
  apply keeps_bind; [apply keeps_exercise_block | intros [? ?]].
  apply keeps_bind; [apply keeps_daylight_block | intros [[[? ?] ?] ?]].
  apply keeps_bind; [apply keeps_substance_block | intros ?].
  apply keeps_bind; [apply keeps_mood_block | intros [? ?]].
  apply keeps_bind; [apply keeps_anxiety_block | intros [? ?]].
  apply keeps_bind; [apply keeps_anhedonia_block | intros [? ?]].
  apply keeps_ret.
Qed.

Lemma keeps_iteration start f day : keeps_stream (iteration start f day).
Proof.
  unfold iteration.
  apply keeps_bind; [apply keeps_day_body | intro; apply keeps_ret].
Qed.

Lemma keeps_for_each start days f :
  keeps_stream (for_each days (iteration start) f).
Proof.
  revert f. induction days as [| d days IH]; intro f; cbn [for_each].
  - apply keeps_ret.
  - apply keeps_bind; [apply keeps_iteration | intro; apply IH].
Qed.

End BlockFacts.

(** ** The loop *)

Section LoopFacts.

Variable start_date : Z.

Lemma for_each_app (l1 l2 : list Z) body f s :
  for_each (l1 ++ l2) body f s =
  let (f', s') := for_each l1 body f s in for_each l2 body f' s'.
Proof.
  revert f s. induction l1 as [| d l1 IH]; intros f s; cbn.
  - reflexivity.
  - unfold bind. destruct (body f d s) as [f1 s1]. apply IH.
Qed.

Lemma range_of_nat (n : nat) : range (Z.of_nat n) = map Z.of_nat (seq 0 n).
Proof. unfold range. now rewrite Nat2Z.id. Qed.

Lemma range_succ (i : nat) :
  range (Z.of_nat (S i)) = range (Z.of_nat i) ++ [Z.of_nat i].
Proof. rewrite !range_of_nat, seq_S, map_app. reflexivity. Qed.

Lemma range_to_nat (n : Z) : range n = range (Z.of_nat (Z.to_nat n)).
Proof. unfold range. now rewrite Nat2Z.id. Qed.

Lemma generate_from_state_before (n : Z) (g : rng_state) :
  generate_from start_date n g = state_before start_date (Z.to_nat n) g.
Proof.
  unfold state_before, generate_from. now rewrite <- range_to_nat.
Qed.

Lemma state_before_succ (i : nat) (g : rng_state) :
  state_before start_date (S i) g =
  let (f, s) := state_before start_date i g in
  iteration start_date f (Z.of_nat i) s.
Proof.
  unfold state_before, generate_from.
  rewrite range_succ, for_each_app.
  destruct (for_each _ _ _ g) as [f s]. cbn [for_each].
  unfold bind. destruct (iteration start_date f (Z.of_nat i) s).
  reflexivity.
Qed.

(** What one iteration leaves in the frame. *)
Lemma frame_after (i : nat) (g : rng_state) :
  let f := fst (state_before start_date i g) in
  let f' := fst (state_before start_date (S i) g) in
  let l := locals_at start_date i g in
  previous_sleep f' = sleep_hours l /\
  previous_mood f' = mood_level l /\
  data f' = data f ++ [row_at start_date i g].
Proof.
  cbn zeta. rewrite state_before_succ.
  unfold row_at, locals_at.
  destruct (state_before start_date i g) as [f s].
  unfold iteration, bind.
  destruct (day_body _ _ _ _ s) as [l s']. cbn.
  repeat split.
Qed.

(** The rows generated so far, day by day. *)
Lemma data_state_before (i : nat) (g : rng_state) :
  data (fst (state_before start_date i g)) =
  map (fun k => row_at start_date k g) (seq 0 i).
Proof.
  induction i as [| i IH].
  - reflexivity.
  - destruct (frame_after i g) as (_ & _ & ->).
    rewrite IH, seq_S, map_app. reflexivity.
Qed.

Lemma previous_sleep_at_succ (i : nat) (g : rng_state) :
  previous_sleep_at start_date (S i) g = sleep_hours (locals_at start_date i g).
Proof. apply frame_after. Qed.

Lemma previous_mood_at_succ (i : nat) (g : rng_state) :
  previous_mood_at start_date (S i) g = mood_level (locals_at start_date i g).
Proof. apply frame_after. Qed.

Lemma stream_state_before (i : nat) (g : rng_state) :
  stream (snd (state_before start_date i g)) = stream g.
Proof. apply keeps_for_each. Qed.

End LoopFacts.

(** The list [generate_realistic_data] returns. *)
Lemma generate_realistic_data_rows (now num_days : Z) (g : rng_state) :
  MINORDINAL <= now - num_days <= MAXORDINAL ->
  fst (generate_realistic_data now num_days g) =
  Ok (map (fun k => row_at (now - num_days) k g) (seq 0 (Z.to_nat num_days))).
Proof.
  intros [H1 H2]. unfold generate_realistic_data.
  apply Z.leb_le in H1, H2. rewrite H1, H2. cbn [andb].
  unfold bind. rewrite generate_from_state_before.
  rewrite <- data_state_before.
  destruct (state_before _ _ g). reflexivity.
Qed.

(** The list has one record per day. *)
Lemma generate_realistic_data_length (now num_days : Z) (g : rng_state) :
  MINORDINAL <= now - num_days <= MAXORDINAL ->
  exists rows,
    fst (generate_realistic_data now num_days g) = Ok rows
    /\ List.length rows = Z.to_nat num_days.
Proof.
  intro H. eexists. split; [now apply generate_realistic_data_rows |].
  now rewrite length_map, length_seq.
Qed.

Lemma generate_realistic_data_overflow (now num_days : Z) (g : rng_state) :
  ~ (MINORDINAL <= now - num_days <= MAXORDINAL) ->
  fst (generate_realistic_data now num_days g) = Raise OverflowError.
Proof.
  intro H. unfold generate_realistic_data.
  destruct ((MINORDINAL <=? now - num_days)
            && (now - num_days <=? MAXORDINAL)) eqn:E; [|reflexivity].
  apply andb_prop in E. destruct E as [E1 E2].
  apply Z.leb_le in E1, E2. tauto.
Qed.

Lemma nth_error_rows {A} (f : nat -> A) (n i : nat) :
  (i < n)%nat -> nth_error (map f (seq 0 n)) i = Some (f i).
Proof.
  intro H. rewrite nth_error_map, nth_error_seq.
  apply Nat.ltb_lt in H. rewrite H. reflexivity.
Qed.

(** ** One iteration, block by block *)

Section DayBody.

Variables (start_date day : Z) (previous_sleep : num) (previous_mood : Z).

(** The record [day_body] returns is made of the results of the blocks,
    each run from the generator state the one before it left. *)
Lemma day_body_blocks (s : rng_state) :
  let l := fst (day_body start_date day previous_sleep previous_mood s) in
  exists s1 s2 s3 s4 s5 s6 s7 : rng_state,
    (forall t, In t [s1; s2; s3; s4; s5; s6; s7] -> stream t = stream s) /\
    current_date l = start_date + day /\
    day_of_week l = weekday (start_date + day) + 1 /\
    on_medication l = (medication_start_day <=? day) /\
    is_weekend l = ((day_of_week l =? 1) || (day_of_week l =? 7)) /\
    medication_block day s
      = (medication_taken l, days_on_meds l, med_effect l, s1) /\
    sleep_block (is_weekend l) (med_effect l) s1
      = (base_sleep l, sleep_hours l, sleep_quality l, s2) /\
    exercise_block (is_weekend l) day previous_mood s2
      = (exercise_probability l, exercise_minutes l, s3) /\
    daylight_block (is_weekend l) (current_date l) s3
      = (month l, seasonal_factor l, base_daylight l, daylight_minutes l, s4) /\
    substance_block (is_weekend l) s4 = (substance_amount l, s5) /\
    mood_block (med_effect l) previous_sleep (exercise_minutes l)
      (daylight_minutes l) (substance_amount l) (day_of_week l)
      previous_mood s5 = (mood l, mood_level l, s6) /\
    anxiety_block (med_effect l) (sleep_hours l) (exercise_minutes l)
      (substance_amount l) s6 = (anxiety l, anxiety_level l, s7) /\
    fst (anhedonia_block (med_effect l) (sleep_hours l)
           (exercise_minutes l) s7) = (anhedonia l, anhedonia_level l).
Proof.
  unfold day_body, bind.
  destruct (medication_block day s) as [[[mt dm] me] s1] eqn:E1.
  destruct (sleep_block _ me s1) as [[[bs sh] sq] s2] eqn:E2.
  destruct (exercise_block _ day previous_mood s2) as [[ep em] s3] eqn:E3.
  destruct (daylight_block _ _ s3) as [[[[mo sf] bd] dm'] s4] eqn:E4.
  destruct (substance_block _ s4) as [sa s5] eqn:E5.
  destruct (mood_block me previous_sleep em dm' sa _ previous_mood s5)
    as [[m ml] s6] eqn:E6.
  destruct (anxiety_block me sh em sa s6) as [[ax al] s7] eqn:E7.
  destruct (anhedonia_block me sh em s7) as [[ah hl] s8] eqn:E8.
  cbn [fst snd ret current_date day_of_week on_medication medication_taken
       days_on_meds med_effect is_weekend base_sleep sleep_hours
       sleep_quality exercise_probability exercise_minutes month
       seasonal_factor base_daylight daylight_minutes substance_amount
       mood mood_level anxiety anxiety_level anhedonia anhedonia_level].
  exists s1, s2, s3, s4, s5, s6, s7.
  rewrite E8. split; [| repeat split; assumption].
  pose proof (keeps_medication_block day s) as K1.
  pose proof (keeps_sleep_block
                ((weekday (start_date + day) + 1 =? 1)
                 || (weekday (start_date + day) + 1 =? 7)) me s1) as K2.
  pose proof (keeps_exercise_block
                ((weekday (start_date + day) + 1 =? 1)
                 || (weekday (start_date + day) + 1 =? 7))
                day previous_mood s2) as K3.
  pose proof (keeps_daylight_block
                ((weekday (start_date + day) + 1 =? 1)
                 || (weekday (start_date + day) + 1 =? 7))
                (start_date + day) s3) as K4.
  pose proof (keeps_substance_block
                ((weekday (start_date + day) + 1 =? 1)
                 || (weekday (start_date + day) + 1 =? 7)) s4) as K5.
  pose proof (keeps_mood_block me previous_sleep em dm' sa
                (weekday (start_date + day) + 1) previous_mood s5) as K6.
  pose proof (keeps_anxiety_block me sh em sa s6) as K7.
  rewrite E1 in K1. rewrite E2 in K2. rewrite E3 in K3. rewrite E4 in K4.
  rewrite E5 in K5. rewrite E6 in K6. rewrite E7 in K7.
  cbn [snd] in *.
  intros t Ht. cbn [In] in Ht.
  repeat (destruct Ht as [<- | Ht]; [congruence |]).
  contradiction.
Qed.

End DayBody.

(** ** The blocks *)

Lemma pair_inv {A B} (a a' : A) (b b' : B) :
  (a, b) = (a', b') -> a = a' /\ b = b'.
Proof. intros [= -> ->]. split; reflexivity. Qed.

(** Introduces an equation between tuples and substitutes its components,
    without evaluating them. *)
Ltac intro_tuple :=
  let H := fresh "Htuple" in
  intro H;
  repeat match goal with
  | E : (_, _) = (_, _) |- _ =>
      apply pair_inv in E; destruct E as [E ?]
  end;
  subst.

Section Blocks.

Local Open Scope Q_scope.

Lemma uniform_run (a b : num) (s : rng_state) :
  uniform a b s =
  ((a + (b - a) * PyFloat (stream s (cursor s)))%py,
   {| stream := stream s; cursor := S (cursor s) |}).
Proof. reflexivity. Qed.

Lemma medication_block_spec (day : Z) (s : rng_state) mt dm me s1 :
  medication_block day s = (mt, dm, me, s1) ->
  (mt = 0 \/ mt = 1)%Z /\
  ((day < medication_start_day)%Z -> mt = 0%Z) /\
  dm = Spec.daysOnMeds day mt /\
  val me == Spec.medEffect day mt.
Proof.
  unfold medication_block, bind, Spec.medEffect, Spec.daysOnMeds.
  destruct (medication_start_day <=? day)%Z eqn:Eon.
  - cbn [random ret fst snd].
    destruct (PyFloat (stream s (cursor s)) <? PyFloat 0.85)%py;
      intros [= <- <- <- <-]; cbn [of_bool Z.eqb negb andb Pos.eqb].
    + repeat split; auto.
      * apply Z.leb_le in Eon. lia.
      * case_min; cbn [val mul truediv] in *.
        -- rewrite Q.min_r; [reflexivity | qlra].
        -- rewrite Q.min_l; [reflexivity | qlra].
    + repeat split; auto.
  - intros [= <- <- <- <-]. cbn [ret of_bool Z.eqb negb andb].
    repeat split; auto.
Qed.

(** Truncation as [int] performs it is truncation toward zero. *)
Lemma py_int_truncate (x : num) : py_int x = Spec.truncate (val x).
Proof.
  unfold Spec.truncate.
  destruct x as [z | [n d]]; cbn [py_int val Qnum Qden].
  - unfold Qceiling. rewrite <- inject_Z_opp, !Qfloor_Z.
    destruct (Qle_bool 0 (inject_Z z)); lia.
  - destruct (Qle_bool 0 (n # d)) eqn:E.
    + apply Qle_bool_iff in E. unfold Qle in E. cbn in E.
      rewrite Z.quot_div_nonneg by lia. reflexivity.
    + assert (Hn : (n < 0)%Z).
      { destruct (Z.ltb_spec n 0) as [H | H]; [exact H | exfalso].
        assert (Hle : Qle_bool 0 (n # d) = true)
          by (apply Qle_bool_iff; unfold Qle; cbn; lia).
        congruence. }
      unfold Qceiling, Qfloor, Qopp. cbn [Qnum Qden].
      rewrite <- (Z.opp_involutive n) at 1.
      rewrite Z.quot_opp_l by lia.
      rewrite Z.quot_div_nonneg by lia. reflexivity.
Qed.

Lemma truncate_comp (x y : Q) : x == y -> Spec.truncate x = Spec.truncate y.
Proof.
  intro E. unfold Spec.truncate, Qceiling.
  rewrite (Qfloor_comp _ _ E).
  assert (E' : - x == - y) by (rewrite E; reflexivity).
  rewrite (Qfloor_comp _ _ E').
  destruct (Qle_bool 0 x) eqn:H1, (Qle_bool 0 y) eqn:H2; try reflexivity;
    exfalso.
  - apply Qle_bool_iff in H1. rewrite E in H1. apply Qle_bool_iff in H1.
    congruence.
  - apply Qle_bool_iff in H2. rewrite <- E in H2. apply Qle_bool_iff in H2.
    congruence.
Qed.

Lemma Qltb_comp (a b a' b' : Q) :
  a == a' -> b == b' -> Qltb a b = Qltb a' b'.
Proof.
  intros Ea Eb.
  destruct (Qltb a b) eqn:H1, (Qltb a' b') eqn:H2; try reflexivity; exfalso.
  - apply Qltb_true in H1. apply Qltb_false in H2. lra.
  - apply Qltb_false in H1. apply Qltb_true in H2. lra.
Qed.

Lemma round_half_even_comp (x y : Q) :
  x == y -> round_half_even x = round_half_even y.
Proof.
  intro E. unfold round_half_even.
  rewrite (Qfloor_comp _ _ E).
  assert (E' : x - inject_Z (Qfloor y) == y - inject_Z (Qfloor y))
    by (rewrite E; reflexivity).
  rewrite (Qltb_comp _ _ _ _ E' (Qeq_refl (1 # 2))).
  rewrite (Qltb_comp _ _ _ _ (Qeq_refl (1 # 2)) E').
  reflexivity.
Qed.

(** [min(hi, max(lo, x))] is the clamp of the value into [[lo, hi]]. *)
Lemma clamp_min_max_val (lo hi x : num) :
  val lo <= val hi ->
  val (py_min hi (py_max lo x)) == Spec.clamp (val lo) (val hi) (val x).
Proof.
  intro Hlh. unfold Spec.clamp.
  destruct (Q.min_spec (val hi) (val x)) as [[H1 E1] | [H1 E1]];
    rewrite E1;
    match goal with
    | |- _ == Qmax ?a ?b =>
        destruct (Q.max_spec a b) as [[H2 E2] | [H2 E2]]; rewrite E2
    end;
    destruct (py_max_cases lo x) as [[Hx H3] | [Hx H3]]; rewrite Hx;
    case_min; lra.
Qed.

(** [int(max(lo, min(hi, n)))] on integers. *)
Lemma clamp_int (lo hi z : Z) :
  py_int (py_max (PyInt lo) (py_min (PyInt hi) (PyInt z)))
  = Spec.clampZ lo hi z.
Proof.
  unfold Spec.clampZ.
  case_min; case_max; cbn [py_int val] in *;
    rewrite <- ?Zlt_Qlt, <- ?Zle_Qle in *; lia.
Qed.

Lemma sleep_quality_of_spec (sleep_hours quality_noise : num) :
  sleep_quality_of sleep_hours quality_noise
  = Spec.sleepQuality_of (val sleep_hours) (val quality_noise).
Proof.
  unfold sleep_quality_of, Spec.sleepQuality_of.
  rewrite py_int_truncate. apply truncate_comp.
  rewrite clamp_min_max_val by (cbn; qlra).
  cbn [val mul truediv add]. reflexivity.
Qed.

Lemma sleep_quality_of_bounds (sleep_hours quality_noise : num) :
  (1 <= sleep_quality_of sleep_hours quality_noise <= 5)%Z.
Proof.
  unfold sleep_quality_of.
  apply py_int_bounds; [lia |].
  apply (clamp_min_max (PyInt 1) (PyInt 5)). cbn. qlra.
Qed.

Lemma sleep_block_spec (w : bool) (m : num) (s : rng_state) bs sh sq s2 :
  sleep_block w m s = (bs, sh, sq, s2) ->
  (exists q, sh = PyFloat q) /\
  4 <= val sh <= 10 /\
  sq = sleep_quality_of sh
         (PyFloat (Spec.uniform_of (inject_Z (-1)) (inject_Z 1)
                     (stream s (S (S (cursor s)))))).
Proof.
  unfold sleep_block, bind.
  destruct w; rewrite !uniform_run; unfold ret; cbn [stream cursor];
    intro_tuple.
  all: match goal with
       | |- context [py_max ?lo (py_min ?hi ?x)] =>
           destruct (clamp_max_min lo hi x) as [Hc Hb]; [cbn; qlra |]
       end.
  all: cbn zeta in Hc, Hb; split; [| split; [| reflexivity]].
  all: try (cbn [val] in Hb; qlra).
  all: destruct Hc as [-> | [-> | ->]]; cbn [add]; eauto.
Qed.

Lemma exercise_block_spec (w : bool) (day pm : Z) (s : rng_state) ep em s3 :
  unit_draws (stream s) ->
  exercise_block w day pm s = (ep, em, s3) ->
  em = PyInt 0 \/ exists q, em = PyFloat q /\ 20 <= q < 60.
Proof.
  intros Hu. unfold exercise_block, bind.
  cbn [random fst snd].
  match goal with
  | |- context [if lt ?a ?b then _ else _] => destruct (lt a b)
  end.
  - rewrite uniform_run. unfold ret. intro_tuple.
    right. eexists. split; [reflexivity |].
    cbn [stream cursor].
    pose proof (Hu (S (cursor s))) as [H0 H1]. qlra.
  - unfold ret. intro_tuple. now left.
Qed.

Lemma daylight_block_spec (w : bool) (d : Z) (s : rng_state) mo sf bd dm s4 :
  daylight_block w d s = (mo, sf, bd, dm, s4) ->
  15 <= val dm <= 300.
Proof.
  unfold daylight_block, bind. rewrite uniform_run. unfold ret.
  intro_tuple.
  match goal with
  | |- context [py_max ?lo (py_min ?hi ?x)] =>
      destruct (clamp_max_min lo hi x) as [_ Hb]; [cbn; qlra |]
  end.
  cbn zeta in Hb. cbn [val] in Hb. qlra.
Qed.

Lemma mood_block_spec (me ps em dl sa : num) (dow pm : Z) (s : rng_state)
    m ml s6 :
  mood_block me ps em dl sa dow pm s = (m, ml, s6) ->
  ml = Spec.moodLevel_of
         (Spec.moodSum (val me) (val ps) (val em) (val dl) (val sa) dow pm
            (mood_noise_of s)).
Proof.
  unfold mood_block, bind. rewrite uniform_run. unfold ret.
  intro_tuple.
  rewrite clamp_int. unfold Spec.moodLevel_of. f_equal.
  unfold baseline_mood. cbn [add py_round].
  apply round_half_even_comp.
  unfold Spec.moodSum, mood_noise_of, Spec.uniform_of.
  unfold sleep_effect_of, exercise_effect_of, daylight_effect_of,
    substance_effect_of, weekday_effect_of, mood_momentum_of.
  unfold gt, lt. change (val (PyInt 0)) with 0.
  destruct (Qltb 0 (val em)); destruct (dow =? 2)%Z; push_val;
    unfold Z.sub; rewrite inject_Z_plus; qlra.
Qed.

Lemma clampZ_bounds (lo hi z : Z) :
  (lo <= hi)%Z -> (lo <= Spec.clampZ lo hi z <= hi)%Z.
Proof. unfold Spec.clampZ. lia. Qed.

Lemma mood_block_bounds (me ps em dl sa : num) (dow pm : Z) (s : rng_state)
    m ml s6 :
  mood_block me ps em dl sa dow pm s = (m, ml, s6) -> (1 <= ml <= 5)%Z.
Proof.
  intro H. rewrite (mood_block_spec _ _ _ _ _ _ _ _ _ _ _ H).
  apply clampZ_bounds. lia.
Qed.

Lemma anxiety_block_bounds (me sh em sa : num) (s : rng_state) a al s7 :
  anxiety_block me sh em sa s = (a, al, s7) -> (0 <= al <= 4)%Z.
Proof.
  unfold anxiety_block, bind. rewrite uniform_run. unfold ret.
  intro_tuple. rewrite clamp_int. apply clampZ_bounds. lia.
Qed.

Lemma anhedonia_block_bounds (me sh em : num) (s : rng_state) a al :
  fst (anhedonia_block me sh em s) = (a, al) -> (0 <= al <= 4)%Z.
Proof.
  unfold anhedonia_block, bind. rewrite uniform_run. unfold ret; cbn [fst].
  intro_tuple. rewrite clamp_int. apply clampZ_bounds. lia.
Qed.

Lemma weekday_bounds (d : Z) : (0 <= weekday d <= 6)%Z.
Proof. unfold weekday. pose proof (Z.mod_pos_bound (d + 6) 7). lia. Qed.

End Blocks.

(** ** One day *)

Section Day.

Local Open Scope Q_scope.

Variables (start_date day : Z) (previous_sleep : num) (previous_mood : Z).
Variable s : rng_state.

Local Notation "'this_day'" :=
  (fst (day_body start_date day previous_sleep previous_mood s)).

Lemma day_of_week_bounds : (1 <= day_of_week this_day <= 7)%Z.
Proof.
  destruct (day_body_blocks start_date day previous_sleep previous_mood s)
    as (s1 & s2 & s3 & s4 & s5 & s6 & s7 & _ & _ & Hd & _).
  rewrite Hd.
  pose proof (weekday_bounds (start_date + day)). lia.
Qed.

Lemma medication_before_start :
  (day < medication_start_day)%Z -> medication_taken this_day = 0%Z.
Proof.
  destruct (day_body_blocks start_date day previous_sleep previous_mood s)
    as (s1 & s2 & s3 & s4 & s5 & s6 & s7 & _ & _ & _ & _ & _ & Hm & _).
  apply medication_block_spec in Hm. tauto.
Qed.

(** Every bounded field of the row built from a day lies in its range. *)
Lemma day_in_range (ps : num) (pm : Z) :
  unit_draws (stream s) -> Spec.in_range (make_row day this_day ps pm).
Proof.
  intro Hu.
  pose proof day_of_week_bounds as Hdow.
  destruct (day_body_blocks start_date day previous_sleep previous_mood s)
    as (s1 & s2 & s3 & s4 & s5 & s6 & s7 & Hs & _ & _ & _ & _
        & Hmed & Hslp & Hex & Hdl & _ & Hmood & Hanx & Hanh).
  assert (Hu2 : unit_draws (stream s2)).
  { rewrite (Hs s2) by (cbn; auto). exact Hu. }
  apply sleep_block_spec in Hslp. destruct Hslp as (_ & Hsh & Hsq).
  apply (exercise_block_spec _ _ _ _ _ _ _ Hu2) in Hex.
  apply daylight_block_spec in Hdl.
  apply mood_block_bounds in Hmood.
  apply anxiety_block_bounds in Hanx.
  apply anhedonia_block_bounds in Hanh.
  assert (Hsl : 4.0 <= val (py_round1 (sleep_hours this_day)) <= 10.0).
  { destruct (py_round1_bounds 40 100 (sleep_hours this_day)) as [Ha Hb];
      qlra. }
  assert (Hdm : 15 <= val (py_round1 (daylight_minutes this_day)) <= 300).
  { destruct (py_round1_bounds 150 3000 (daylight_minutes this_day))
      as [Ha Hb]; qlra. }
  assert (Hem : val (py_round1 (exercise_minutes this_day)) == 0
                \/ 20 <= val (py_round1 (exercise_minutes this_day)) <= 60).
  { destruct Hex as [-> | (q & -> & Hq)].
    - left. reflexivity.
    - right.
      destruct (py_round1_bounds 200 600 (PyFloat q)) as [Ha Hb]; qlra. }
  assert (Hq : (1 <= sleep_quality this_day <= 5)%Z)
    by (rewrite Hsq; apply sleep_quality_of_bounds).
  unfold Spec.in_range, make_row. cbn [moodLevel anxietyLevel anhedoniaLevel
    sleepHours sleepQuality daylightMinutes exerciseMinutes dayOfWeek].
  tauto.
Qed.

End Day.

(** ** Every day of the run *)

Section Run.

Variable start_date : Z.
Variable g : rng_state.

Lemma row_at_in_range (i : nat) :
  unit_draws (stream g) -> Spec.in_range (row_at start_date i g).
Proof.
  intro Hu. unfold row_at, locals_at.
  pose proof (stream_state_before start_date i g) as Hs.
  destruct (state_before start_date i g) as [f s]. cbn [snd] in Hs.
  apply day_in_range. now rewrite Hs.
Qed.

Lemma row_at_medication (i : nat) :
  Z.of_nat i < medication_start_day ->
  medicationTaken (row_at start_date i g) = 0.
Proof.
  intro H. unfold row_at, locals_at.
  destruct (state_before start_date i g) as [f s].
  cbn [make_row medicationTaken].
  now apply medication_before_start.
Qed.

Lemma row_at_day_of_week (i : nat) :
  dayOfWeek (row_at start_date i g)
  = weekday (start_date + Z.of_nat i) + 1.
Proof.
  unfold row_at, locals_at.
  destruct (state_before start_date i g) as [f s].
  cbn [make_row dayOfWeek].
  destruct (day_body_blocks start_date (Z.of_nat i) (previous_sleep f)
              (previous_mood f) s)
    as (s1 & s2 & s3 & s4 & s5 & s6 & s7 & _ & _ & Hd & _).
  exact Hd.
Qed.

(** From the second row on, the two "previous day" fields repeat the
    row's own sleep and mood. *)
Lemma row_at_previous_fields (i : nat) :
  (0 < i)%nat ->
  previousDaySleep (row_at start_date i g) = sleepHours (row_at start_date i g)
  /\ previousDayMood (row_at start_date i g)
     = moodLevel (row_at start_date i g).
Proof.
  intro H. unfold row_at, make_row.
  cbn [previousDaySleep previousDayMood sleepHours moodLevel].
  assert (E : (0 <? Z.of_nat i) = true) by (apply Z.ltb_lt; lia).
  rewrite E. split; reflexivity.
Qed.

Lemma row_at_first_previous_fields :
  previousDaySleep (row_at start_date 0 g) = PyInt 0
  /\ previousDayMood (row_at start_date 0 g) = 0.
Proof. split; reflexivity. Qed.

End Run.

(** The generator returns a list whenever the start date is a date. *)
Lemma generate_realistic_data_ok (now num_days : Z) (g : rng_state)
    (rows : list record) :
  fst (generate_realistic_data now num_days g) = Ok rows ->
  rows = map (fun k => row_at (now - num_days) k g)
             (seq 0 (Z.to_nat num_days)).
Proof.
  intro H.
  destruct (Z_le_dec MINORDINAL (now - num_days)) as [H1 | H1].
  - destruct (Z_le_dec (now - num_days) MAXORDINAL) as [H2 | H2].
    + rewrite generate_realistic_data_rows in H by lia. congruence.
    + rewrite generate_realistic_data_overflow in H by lia. discriminate.
  - rewrite generate_realistic_data_overflow in H by lia. discriminate.
Qed.

Lemma sample_draws_unit : unit_draws sample_draws.
Proof.
  intro k. unfold sample_draws.
  pose proof (Nat.mod_upper_bound (k * 37 + 11) 100) as H.
  assert (Hz : 0 <= Z.of_nat ((k * 37 + 11) mod 100) < 100) by lia.
  destruct Hz as [H0 H1]. rewrite Zle_Qle in H0. rewrite Zlt_Qlt in H1.
  eval_literals. lra.
Qed.

Lemma rows_nth (now num_days : Z) (g : rng_state) (rows : list record)
    (i : nat) (r : record) :
  fst (generate_realistic_data now num_days g) = Ok rows ->
  nth_error rows i = Some r ->
  (i < Z.to_nat num_days)%nat /\ r = row_at (now - num_days) i g.
Proof.
  intros Hrows Hnth. apply generate_realistic_data_ok in Hrows. subst rows.
  assert (Hi : (i < Z.to_nat num_days)%nat).
  { assert (Hn : nth_error
                   (map (fun k => row_at (now - num_days) k g)
                        (seq 0 (Z.to_nat num_days))) i <> None)
      by congruence.
    apply nth_error_Some in Hn.
    now rewrite length_map, length_seq in Hn. }
  rewrite nth_error_rows in Hnth by exact Hi.
  split; [exact Hi | congruence].
Qed.

(** ** The day of the week *)

Lemma day_of_week_names (d : Z) :
  let day_of_week := weekday d + 1 in
  (day_of_week = 2 <-> day_name_of d = Tuesday) /\
  ((day_of_week =? 1) || (day_of_week =? 7) = true
     <-> day_name_of d = Monday \/ day_name_of d = Sunday) /\
  (day_name_of d = Sunday <-> day_of_week = 7).
Proof.
  cbn zeta. unfold day_name_of.
  pose proof (weekday_bounds d) as H.
  assert (C : weekday d = 0 \/ weekday d = 1 \/ weekday d = 2 \/ weekday d = 3
              \/ weekday d = 4 \/ weekday d = 5 \/ weekday d = 6) by lia.
  destruct C as [E | [E | [E | [E | [E | [E | E]]]]]]; rewrite E; cbn;
    repeat split; intros; try discriminate; try lia; auto;
    match goal with
    | H : _ \/ _ |- _ => destruct H; discriminate
    end.
Qed.

(** ** The claims *)

(** C1 (the code departs from the claim).  On the run of
    [generate_realistic_data(3)] of 2026-11-03 with the draws
    [sample_draws], the third record carries [previousDaySleep = 8.6] and
    [previousDayMood = 3], its own [sleepHours] and [moodLevel], while the
    record before it has [sleepHours = 8.5] and [moodLevel = 2]: lines
    163-164 overwrite the carried variables before line 167 reads them. *)
Theorem C1_previous_day_fields_repeat_current_day :
  exists r0 r1 r2 : record,
    fst (generate_realistic_data 739923 3 (seeded sample_draws))
      = Ok [r0; r1; r2] /\
    previousDaySleep r2 = PyFloat 8.6 /\ sleepHours r2 = PyFloat 8.6 /\
    sleepHours r1 = PyFloat 8.5 /\
    previousDayMood r2 = 3 /\ moodLevel r2 = 3 /\ moodLevel r1 = 2 /\
    previousDaySleep r0 = PyInt 0 /\ previousDayMood r0 = 0.
Proof.
  do 3 eexists. split; [vm_compute; reflexivity |].
  cbn. repeat split; reflexivity.
Qed.

(** In every run, a record after the first repeats its own sleep and mood
    in the two "previous day" fields. *)
Lemma previous_day_fields_of_a_run (now num_days : Z) (g : rng_state)
    (rows : list record) (i : nat) (r : record) :
  fst (generate_realistic_data now num_days g) = Ok rows ->
  nth_error rows i = Some r -> (0 < i)%nat ->
  previousDaySleep r = sleepHours r /\ previousDayMood r = moodLevel r.
Proof.
  intros Hrows Hnth Hi.
  destruct (rows_nth _ _ _ _ _ _ Hrows Hnth) as [_ ->].
  now apply row_at_previous_fields.
Qed.

(** C2 (the code departs from the claim).  2026-11-01 is a Sunday and
    the record generated for it has [dayOfWeek = 7], not 1; 2026-11-02 is
    a Monday and its record has [dayOfWeek = 1]: [weekday()] counts from
    Monday = 0, so [weekday() + 1] maps Monday to 1 and Sunday to 7. *)
Theorem C2_day_of_week_counts_from_monday (g : rng_state) :
  _ord2ymd 739921 = (2026, 11, 1) /\ day_name_of 739921 = Sunday /\
  (exists r, fst (generate_realistic_data 739922 1 g) = Ok [r]
             /\ dayOfWeek r = 7) /\
  _ord2ymd 739922 = (2026, 11, 2) /\ day_name_of 739922 = Monday /\
  (exists r, fst (generate_realistic_data 739923 1 g) = Ok [r]
             /\ dayOfWeek r = 1).
Proof.
  repeat split; try reflexivity.
  - exists (row_at (739922 - 1) 0 g). split.
    + rewrite generate_realistic_data_rows
        by (unfold MINORDINAL, MAXORDINAL; lia).
      reflexivity.
    + rewrite row_at_day_of_week. reflexivity.
  - exists (row_at (739923 - 1) 0 g). split.
    + rewrite generate_realistic_data_rows
        by (unfold MINORDINAL, MAXORDINAL; lia).
      reflexivity.
    + rewrite row_at_day_of_week. reflexivity.
Qed.

(** C4.  Every record of a run has [moodLevel] in [1,5], [anxietyLevel]
    and [anhedoniaLevel] in [0,4], [sleepHours] in [4.0,10.0],
    [sleepQuality] in [1,5], [daylightMinutes] in [15,300],
    [exerciseMinutes] equal to 0 or in [20,60] and [dayOfWeek] in [1,7],
    whatever the day count and the draws of [random()] (values of
    [0,1)). *)
Theorem C4_bounded_fields_in_range (now num_days : Z) (draws : nat -> Q)
    (rows : list record) :
  unit_draws draws ->
  fst (generate_realistic_data now num_days (seeded draws)) = Ok rows ->
  Forall Spec.in_range rows.
Proof.
  intros Hu Hrows. apply generate_realistic_data_ok in Hrows. subst rows.
  apply Forall_forall. intros r Hr.
  apply in_map_iff in Hr. destruct Hr as (k & <- & _).
  apply row_at_in_range. exact Hu.
Qed.

Lemma C4_bounded_fields_in_range_witness :
  exists rows,
    fst (generate_realistic_data 739923 3 (seeded sample_draws)) = Ok rows
    /\ List.length rows = 3%nat /\ Forall Spec.in_range rows.
Proof.
  eexists. split; [vm_compute; reflexivity |].
  split; [reflexivity |].
  apply (C4_bounded_fields_in_range 739923 3 sample_draws).
  - exact sample_draws_unit.
  - vm_compute. reflexivity.
Defined.

(** C8.  A record whose day index is below the medication start day has
    [medicationTaken = 0], whatever the generator returns. *)
Theorem C8_no_medication_before_start (now num_days : Z) (g : rng_state)
    (rows : list record) (i : nat) (r : record) :
  fst (generate_realistic_data now num_days g) = Ok rows ->
  nth_error rows i = Some r ->
  Z.of_nat i < medication_start_day ->
  medicationTaken r = 0.
Proof.
  intros Hrows Hnth Hi.
  destruct (rows_nth _ _ _ _ _ _ Hrows Hnth) as [_ ->].
  now apply row_at_medication.
Qed.

Lemma C8_no_medication_before_start_witness :
  exists rows r,
    fst (generate_realistic_data 739923 3 (seeded sample_draws)) = Ok rows
    /\ nth_error rows 1 = Some r /\ medicationTaken r = 0.
Proof.
  do 2 eexists. split; [vm_compute; reflexivity |].
  split; [reflexivity |].
  eapply (C8_no_medication_before_start 739923 3 (seeded sample_draws) _ 1%nat).
  - vm_compute. reflexivity.
  - reflexivity.
  - unfold medication_start_day. cbn. lia.
Defined.

(** ** What a run depends on *)

Section Respects.

Lemma same_draws_refl (s : rng_state) : same_draws s s.
Proof. split; reflexivity. Qed.

Lemma respects_ret {A} (a : A) : respects (ret a).
Proof. intros s1 s2 H. split; [reflexivity | exact H]. Qed.

Lemma respects_random : respects random.
Proof.
  intros s1 s2 [Hc Hs]. unfold random. cbn [fst snd]. split.
  - now rewrite Hc, Hs.
  - split; cbn [cursor stream]; [now rewrite Hc | exact Hs].
Qed.

Lemma respects_bind {A B} (c : M A) (k : A -> M B) :
  respects c -> (forall a, respects (k a)) -> respects (bind c k).
Proof.
  intros Hc Hk s1 s2 H. unfold bind.
  destruct (Hc s1 s2 H) as [E H'].
  destruct (c s1) as [a1 t1], (c s2) as [a2 t2]. cbn [fst snd] in *.
  subst a2. now apply Hk.
Qed.

Lemma respects_if {A} (b : bool) (c1 c2 : M A) :
  respects c1 -> respects c2 -> respects (if b then c1 else c2).
Proof. destruct b; auto. Qed.

Lemma respects_uniform (a b : num) : respects (uniform a b).
Proof.
  unfold uniform.
  apply respects_bind; [apply respects_random | intro; apply respects_ret].
Qed.

End Respects.

Ltac respects :=
  repeat first
    [ apply respects_ret | apply respects_random | apply respects_uniform
    | apply respects_if
    | apply respects_bind; [| intro] ].

Section RespectsBlocks.

Lemma respects_medication_block day : respects (medication_block day).
Proof. unfold medication_block. respects. Qed.

Lemma respects_sleep_block w m : respects (sleep_block w m).
Proof. unfold sleep_block. respects. Qed.

Lemma respects_exercise_block w d p : respects (exercise_block w d p).
Proof. unfold exercise_block. respects. Qed.

Lemma respects_daylight_block w d : respects (daylight_block w d).
Proof. unfold daylight_block. respects. Qed.

Lemma respects_substance_block w : respects (substance_block w).
Proof. unfold substance_block. respects. Qed.

Lemma respects_mood_block a b c d e f g : respects (mood_block a b c d e f g).
Proof. unfold mood_block. respects. Qed.

Lemma respects_anxiety_block a b c d : respects (anxiety_block a b c d).
Proof. unfold anxiety_block. respects. Qed.

Lemma respects_anhedonia_block a b c : respects (anhedonia_block a b c).
Proof. unfold anhedonia_block. respects. Qed.

Lemma respects_day_body start day ps pm : respects (day_body start day ps pm).
Proof.
  unfold day_body.
  apply respects_bind; [apply respects_medication_block | intros [[? ?] ?]].
  apply respects_bind; [apply respects_sleep_block | intros [[? ?] ?]].
  apply respects_bind; [apply respects_exercise_block | intros [? ?]].
  apply respects_bind; [apply respects_daylight_block | intros [[[? ?] ?] ?]].
  apply respects_bind; [apply respects_substance_block | intros ?].
  apply respects_bind; [apply respects_mood_block | intros [? ?]].
  apply respects_bind; [apply respects_anxiety_block | intros [? ?]].
  apply respects_bind; [apply respects_anhedonia_block | intros [? ?]].
  apply respects_ret.
Qed.

Lemma respects_for_each start days f :
  respects (for_each days (iteration start) f).
Proof.
  revert f. induction days as [| d days IH]; intro f; cbn [for_each].
  - apply respects_ret.
  - apply respects_bind; [| intro; apply IH].
    unfold iteration.
    apply respects_bind; [apply respects_day_body | intro; apply respects_ret].
Qed.

Lemma respects_generate_realistic_data now num_days :
  respects (generate_realistic_data now num_days).
Proof.
  unfold generate_realistic_data.
  apply respects_if; [| apply respects_ret].
  apply respects_bind; [apply respects_for_each | intro; apply respects_ret].
Qed.

End RespectsBlocks.

(** C3 (as the claim states it, refuted).  Two runs with the same draws
    and the same day count, started on 2026-11-03 and on 2026-11-02,
    return different records and write different files. *)
Lemma C3_output_depends_on_the_date :
  fst (generate_realistic_data 739923 1 (seeded sample_draws))
    <> fst (generate_realistic_data 739922 1 (seeded sample_draws))
  /\ files (snd (script 1 739923 NoFault (seeded sample_draws) empty_world))
           default_filename
     <> files (snd (script 1 739922 NoFault (seeded sample_draws) empty_world))
              default_filename.
Proof.
  split; vm_compute; intro H; discriminate H.
Qed.

(** C3 (amended).  Two runs on the same date, with the same day count and
    generators that return the same draws, return the same records, print
    the same lines and leave the same files. *)
Theorem C3_deterministic_given_the_date (now num_days : Z)
    (draws1 draws2 : nat -> Q) (flt : fault) (w : world) :
  (forall k, draws1 k = draws2 k) ->
  fst (generate_realistic_data now num_days (seeded draws1))
    = fst (generate_realistic_data now num_days (seeded draws2))
  /\ script num_days now flt (seeded draws1) w
     = script num_days now flt (seeded draws2) w.
Proof.
  intro H.
  assert (E : fst (generate_realistic_data now num_days (seeded draws1))
              = fst (generate_realistic_data now num_days (seeded draws2))).
  { apply respects_generate_realistic_data. split; [reflexivity | exact H]. }
  split; [exact E |].
  unfold script. rewrite E. reflexivity.
Qed.

Lemma C3_deterministic_given_the_date_witness :
  fst (generate_realistic_data 739923 3 (seeded sample_draws))
    = fst (generate_realistic_data 739923 3
             (seeded (fun k => sample_draws (k + 0))))
  /\ script 3 739923 NoFault (seeded sample_draws) empty_world
     = script 3 739923 NoFault (seeded (fun k => sample_draws (k + 0)))
         empty_world.
Proof.
  apply (C3_deterministic_given_the_date 739923 3 sample_draws
           (fun k => sample_draws (k + 0)) NoFault empty_world).
  intro k. rewrite Nat.add_0_r. reflexivity.
Defined.

(** ** The formulas of a day *)

Section Formulas.

Local Open Scope Q_scope.

Variable start_date : Z.
Variable i : nat.
Variable g : rng_state.

Local Notation "'this_day'" := (locals_at start_date i g).


End Formulas.


(** A dose that is not taken leaves no medication effect at all: the
    factor 0.3 multiplies a value computed from [days_on_meds = 0]. *)
Lemma missed_dose_has_no_effect (day : Z) : (Spec.medEffect day 0 == 0)%Q.
Proof.
  unfold Spec.medEffect, Spec.daysOnMeds. cbn [Z.eqb].
  destruct (medication_start_day <=? day); reflexivity.
Qed.

(** ** Rounding in binary64

    Sums and products of finite floats, read off the specification of
    the primitive operations: a result that lies between two floats
    before it is rounded lies between them afterwards. *)

Module Rounding.

Import Binary64.

Local Abbreviation fexp := (SpecFloat.fexp prec emax).
Local Abbreviation canonical := (canonical_mantissa prec emax).
Local Abbreviation bounded := (SpecFloat.bounded prec emax).
Local Abbreviation round_aux := (binary_round_aux prec emax).

Lemma fexp_spec e : fexp e = Z.max (e - 53) (-1074).
Proof. reflexivity. Qed.

Lemma pow2_pos n : 0 <= n -> 0 < 2 ^ n.
Proof. intros. apply Z.pow_pos_nonneg; lia. Qed.

Ltac hide_pows :=
  repeat match goal with
         | |- context [2 ^ ?e] =>
             let P := fresh "P" in
             set (P := 2 ^ e) in *; clearbody P
         | H : context [2 ^ ?e] |- _ =>
             let P := fresh "P" in
             set (P := 2 ^ e) in *; clearbody P
         end.

Lemma digits2_pos_bounds p :
  2 ^ (Zpos (digits2_pos p) - 1) <= Zpos p < 2 ^ Zpos (digits2_pos p).
Proof.
  induction p as [p IH|p IH|]; cbn [digits2_pos].
  - rewrite Pos2Z.inj_succ.
    replace (Z.succ (Zpos (digits2_pos p)) - 1)
      with (Z.succ (Zpos (digits2_pos p) - 1)) by lia.
    rewrite !Z.pow_succ_r by lia. rewrite (Pos2Z.inj_xI p). hide_pows. lia.
  - rewrite Pos2Z.inj_succ.
    replace (Z.succ (Zpos (digits2_pos p)) - 1)
      with (Z.succ (Zpos (digits2_pos p) - 1)) by lia.
    rewrite !Z.pow_succ_r by lia. rewrite (Pos2Z.inj_xO p). hide_pows. lia.
  - cbn. lia.
Qed.

Lemma digits_le p k : 0 <= k -> Zpos p < 2 ^ k -> Zpos (digits2_pos p) <= k.
Proof.
  intros Hk H. destruct (digits2_pos_bounds p) as [L _].
  assert (2 ^ (Zpos (digits2_pos p) - 1) < 2 ^ k) as T by lia.
  apply Z.pow_lt_mono_r_iff in T; lia.
Qed.

Lemma digits_gt p k : 0 <= k -> 2 ^ k <= Zpos p -> k < Zpos (digits2_pos p).
Proof.
  intros Hk H. destruct (digits2_pos_bounds p) as [_ U].
  assert (2 ^ k < 2 ^ Zpos (digits2_pos p)) as T by lia.
  apply Z.pow_lt_mono_r_iff in T; lia.
Qed.

Lemma scaled_lt_pow p j :
  0 <= j -> Zpos p * 2 ^ j < 2 ^ (Zpos (digits2_pos p) + j).
Proof.
  intros Hj. destruct (digits2_pos_bounds p) as [_ U].
  rewrite Z.pow_add_r by lia.
  apply Z.mul_lt_mono_pos_r; [apply pow2_pos; lia | exact U].
Qed.

Lemma scaled_ge_pow p j :
  0 <= j -> 2 ^ (Zpos (digits2_pos p) - 1 + j) <= Zpos p * 2 ^ j.
Proof.
  intros Hj. destruct (digits2_pos_bounds p) as [L _].
  rewrite Z.pow_add_r by lia.
  apply Z.mul_le_mono_nonneg_r; [apply Z.lt_le_incl, pow2_pos; lia | exact L].
Qed.

Lemma canonical_spec m e :
  canonical m e = true <-> e = Z.max (Zpos (digits2_pos m) + e - 53) (-1074).
Proof.
  unfold canonical_mantissa. rewrite Z.eqb_eq, fexp_spec. lia.
Qed.

Lemma bounded_spec m e :
  bounded m e = true <-> canonical m e = true /\ e <= 971.
Proof.
  unfold SpecFloat.bounded. rewrite andb_true_iff, Z.leb_le.
  change (emax - prec) with 971. tauto.
Qed.

Lemma ulps_pos m e : -1074 <= e -> 0 < ulps m e.
Proof.
  intros. unfold ulps. apply Z.mul_pos_pos; [lia | apply pow2_pos; lia].
Qed.

Lemma canonical_lt m1 e1 m2 e2 :
  canonical m1 e1 = true -> canonical m2 e2 = true -> e1 < e2 ->
  ulps m1 e1 < ulps m2 e2.
Proof.
  intros H1 H2 L. apply canonical_spec in H1, H2. unfold ulps.
  eapply Z.lt_le_trans; [apply scaled_lt_pow; lia |].
  eapply Z.le_trans; [| apply scaled_ge_pow; lia].
  apply Z.pow_le_mono_r; lia.
Qed.

Lemma finite_sf_inv s m e :
  finite_sf (S754_finite s m e) = true ->
  canonical m e = true /\ -1074 <= e <= 971 /\ 0 < ulps m e.
Proof.
  cbn. rewrite bounded_spec. intros [C B].
  pose proof (proj1 (canonical_spec _ _) C).
  assert (-1074 <= e) by lia.
  split; [exact C | split; [lia | apply ulps_pos; lia]].
Qed.

Lemma mul_compare_r n m p : 0 < p -> (n * p ?= m * p) = (n ?= m).
Proof.
  intros Hp. destruct (Z.compare_spec n m) as [E|L|G].
  - subst. apply Z.compare_refl.
  - apply Z.compare_lt_iff. now apply Z.mul_lt_mono_pos_r.
  - apply Z.compare_gt_iff. now apply Z.mul_lt_mono_pos_r.
Qed.

Lemma SFcompare_finite x y :
  finite_sf x = true -> finite_sf y = true -> SFcompare x y = Some (scaled x ?= scaled y).
Proof.
  destruct x as [sx| | |sx mx ex], y as [sy| | |sy my ey];
    try discriminate; intros Fx Fy.
  - reflexivity.
  - apply finite_sf_inv in Fy as (_ & _ & P). cbn [SFcompare scaled].
    f_equal. symmetry.
    destruct sy; [apply Z.compare_gt_iff | apply Z.compare_lt_iff]; lia.
  - apply finite_sf_inv in Fx as (_ & _ & P). cbn [SFcompare scaled].
    f_equal. symmetry.
    destruct sx; [apply Z.compare_lt_iff | apply Z.compare_gt_iff]; lia.
  - apply finite_sf_inv in Fx as (Cx & Bx & Px).
    apply finite_sf_inv in Fy as (Cy & By & Py).
    cbn [SFcompare scaled]. f_equal.
    destruct sx, sy.
    + rewrite Z.compare_opp.
      destruct (Z.compare_spec ex ey) as [E|L|G].
      * subst ey. unfold ulps.
        rewrite mul_compare_r by (apply pow2_pos; lia).
        cbn [Z.compare]. symmetry. apply (Pos.compare_antisym mx my).
      * symmetry. apply Z.compare_gt_iff. now apply canonical_lt.
      * symmetry. apply Z.compare_lt_iff. now apply canonical_lt.
    + symmetry. apply Z.compare_lt_iff. lia.
    + symmetry. apply Z.compare_gt_iff. lia.
    + destruct (Z.compare_spec ex ey) as [E|L|G].
      * subst ey. unfold ulps.
        rewrite mul_compare_r by (apply pow2_pos; lia).
        reflexivity.
      * symmetry. apply Z.compare_lt_iff. now apply canonical_lt.
      * symmetry. apply Z.compare_gt_iff. now apply canonical_lt.
Qed.

(** *** Shifting right and rounding *)

Lemma iter_pos_nat {A} (f : A -> A) p x :
  iter_pos f p x = Nat.iter (Pos.to_nat p) f x.
Proof.
  revert x. induction p as [p IH|p IH|]; intros x; cbn [iter_pos].
  - rewrite !IH, Pos2Nat.inj_xI.
    replace (S (2 * Pos.to_nat p))
      with (Pos.to_nat p + (Pos.to_nat p + 1))%nat by lia.
    rewrite !Nat.iter_add. reflexivity.
  - rewrite !IH, Pos2Nat.inj_xO.
    replace (2 * Pos.to_nat p)%nat
      with (Pos.to_nat p + Pos.to_nat p)%nat by lia.
    rewrite Nat.iter_add. reflexivity.
  - reflexivity.
Qed.

Lemma shr_1_spec mrs :
  0 <= shr_m mrs ->
  shr_m (shr_1 mrs) = shr_m mrs / 2 /\
  shr_r (shr_1 mrs) = Z.odd (shr_m mrs) /\
  shr_s (shr_1 mrs) = (shr_r mrs || shr_s mrs)%bool.
Proof.
  destruct mrs as [m r s]. cbn [shr_m shr_r shr_s]. intros Hm.
  destruct m as [|[p|p|]|p]; cbn [shr_1 shr_m shr_r shr_s]; try lia.
  - repeat split.
  - repeat split.
    rewrite (Pos2Z.inj_xI p).
    apply Z.div_unique with (r := 1); lia.
  - repeat split.
    rewrite (Pos2Z.inj_xO p).
    apply Z.div_unique with (r := 0); lia.
  - repeat split.
Qed.

Lemma iter_shr_1 m k :
  0 <= m ->
  let mrs := Nat.iter k shr_1 (Build_shr_record m false false) in
  shr_m mrs = m / 2 ^ Z.of_nat k /\
  ((shr_r mrs || shr_s mrs)%bool = true -> m mod 2 ^ Z.of_nat k <> 0).
Proof.
  intros Hm. cbv zeta. induction k as [|k [IHm IHr]].
  - cbn. split; [now rewrite Z.div_1_r | discriminate].
  - rewrite Nat.iter_succ.
    set (mrs := Nat.iter k shr_1 _) in *.
    assert (0 < 2 ^ Z.of_nat k) as Hp by (apply pow2_pos; lia).
    assert (0 <= shr_m mrs) as H0.
    { rewrite IHm. apply Z.div_pos; lia. }
    destruct (shr_1_spec mrs H0) as (E1 & E2 & E3).
    rewrite Nat2Z.inj_succ, Z.pow_succ_r by lia.
    split.
    + rewrite E1, IHm, Z.div_div by lia.
      now rewrite (Z.mul_comm 2).
    + rewrite E2, E3, (Z.mul_comm 2), Z.rem_mul_r by lia.
      pose proof (Z.mod_pos_bound m (2 ^ Z.of_nat k) Hp).
      pose proof (Z.mod_pos_bound (m / 2 ^ Z.of_nat k) 2 ltac:(lia)).
      intros [O|R]%orb_true_iff.
      * rewrite IHm, <- Z.bit0_odd in O.
        pose proof (Z.bit0_mod (m / 2 ^ Z.of_nat k)) as T.
        rewrite O in T. cbn [Z.b2z] in T. rewrite <- T. nia.
      * specialize (IHr R). nia.
Qed.

Lemma shr_exact m e n :
  0 <= m -> 0 <= n ->
  exists mrs,
    shr (Build_shr_record m false false) e n = (mrs, e + n) /\
    shr_m mrs = m / 2 ^ n /\
    ((shr_r mrs || shr_s mrs)%bool = true -> m mod 2 ^ n <> 0).
Proof.
  intros Hm Hn. destruct n as [|p|p]; [| |lia].
  - exists (Build_shr_record m false false). cbn [shr shr_m shr_r shr_s].
    rewrite Z.add_0_r, Z.div_1_r. repeat split. discriminate.
  - cbn [shr]. rewrite iter_pos_nat.
    destruct (iter_shr_1 m (Pos.to_nat p) Hm) as [E R].
    rewrite positive_nat_Z in E, R. eauto.
Qed.

Lemma round_nearest_even_spec mrs :
  let q := shr_m mrs in
  let r := round_nearest_even q (loc_of_shr_record mrs) in
  q <= r <= q + 1 /\ ((shr_r mrs || shr_s mrs)%bool = false -> r = q).
Proof.
  destruct mrs as [m [|] [|]]; cbn; try destruct (Z.even m);
    split; try lia; discriminate.
Qed.

(** Rounding to nearest never passes a multiple of the unit. *)
Lemma rounded_le m n mr K :
  0 <= m -> 0 <= n -> m / 2 ^ n <= mr <= m / 2 ^ n + 1 ->
  (m mod 2 ^ n = 0 -> mr = m / 2 ^ n) ->
  m <= K * 2 ^ n -> mr <= K.
Proof.
  intros Hm Hn B E H.
  assert (0 < 2 ^ n) as Hp by (apply pow2_pos; lia).
  pose proof (Z.div_mod m (2 ^ n) ltac:(lia)) as D.
  pose proof (Z.mod_pos_bound m (2 ^ n) Hp) as R.
  destruct (Z.eq_dec (m mod 2 ^ n) 0) as [Z|NZ].
  - rewrite (E Z). nia.
  - assert (m / 2 ^ n < K) by nia. lia.
Qed.

(** What [binary_round_aux] makes of an exact positive number whose
    exponent is not above the one of its format. *)
Lemma round_aux_exact sx p ex :
  let e1 := fexp (Zpos (digits2_pos p) + ex) in
  ex <= e1 ->
  exists mr,
    Zpos p / 2 ^ (e1 - ex) <= mr <= Zpos p / 2 ^ (e1 - ex) + 1 /\
    (Zpos p mod 2 ^ (e1 - ex) = 0 -> mr = Zpos p / 2 ^ (e1 - ex)) /\
    ((mr = 0 /\ round_aux sx (Zpos p) ex loc_Exact = S754_zero sx) \/
     (exists m' e',
        ulps m' e' = mr * 2 ^ (e1 + 1074) /\
        canonical m' e' = true /\
        round_aux sx (Zpos p) ex loc_Exact =
          if e' <=? 971 then S754_finite sx m' e' else S754_infinity sx)).
Proof.
  intros e1 Hex.
  pose proof (fexp_spec (Zpos (digits2_pos p) + ex)) as He1.
  fold e1 in He1.
  set (d := Zpos (digits2_pos p)) in *.
  set (n := e1 - ex).
  assert (0 <= n) as Hn by lia.
  assert (0 < 2 ^ n) as Hp by (apply pow2_pos; lia).
  destruct (digits2_pos_bounds p) as [Lp Up]. fold d in Lp, Up.
  unfold binary_round_aux, shr_fexp. cbn [Zdigits2 shr_record_of_loc].
  fold d. fold e1. fold n.
  destruct (shr_exact (Zpos p) ex n ltac:(lia) Hn) as (mrs & E & Hq & Hr).
  rewrite E.
  destruct (round_nearest_even_spec mrs) as [B X]. cbn zeta in B, X.
  set (mr := round_nearest_even (shr_m mrs) (loc_of_shr_record mrs)) in *.
  rewrite Hq in B, X.
  replace (ex + n) with e1 by lia.
  set (q := Zpos p / 2 ^ n) in *.
  assert (0 <= q) as Hq0 by (apply Z.div_pos; lia).
  assert (q < 2 ^ 53) as Hq1.
  { apply Z.div_lt_upper_bound; [lia|].
    rewrite Z.mul_comm, <- Z.pow_add_r by lia.
    eapply Z.lt_le_trans; [exact Up|].
    apply Z.pow_le_mono_r; lia. }
  exists mr. split; [exact B|]. split.
  { intros Z. apply X. destruct (shr_r mrs || shr_s mrs)%bool; auto.
    now destruct Hr. }
  destruct mr as [|m|m] eqn:Emr; [left|right|lia].
  - split; [reflexivity|].
    cbn [Zdigits2]. rewrite Z.add_0_l.
    destruct (fexp e1 - e1) as [|s|s] eqn:Es;
      [reflexivity | rewrite fexp_spec in Es; lia | reflexivity].
  - cbn [Zdigits2 shr_record_of_loc].
    destruct (Z.eq_dec (Zpos m) (2 ^ 53)) as [Top|NTop].
    + assert (m = 9007199254740992%positive) as -> by
        (change (2 ^ 53) with 9007199254740992 in Top; lia).
      change (digits2_pos 9007199254740992) with 54%positive.
      replace (fexp (54 + e1) - e1) with 1 by (rewrite fexp_spec; lia).
      exists 4503599627370496%positive, (e1 + 1).
      split; [|split].
      * unfold ulps. replace (e1 + 1 + 1074) with (Z.succ (e1 + 1074)) by lia.
        rewrite Z.pow_succ_r by lia. lia.
      * apply canonical_spec.
        change (digits2_pos 4503599627370496) with 53%positive. lia.
      * reflexivity.
    + assert (Zpos m < 2 ^ 53) as Hm by lia.
      pose proof (digits_le m 53 ltac:(lia) Hm) as Dm.
      destruct (fexp (Zpos (digits2_pos m) + e1) - e1) as [|s|s] eqn:Es;
        [| rewrite fexp_spec in Es; lia |].
      * exists m, e1. split; [reflexivity|]. split; [|reflexivity].
        apply canonical_spec. rewrite fexp_spec in Es. lia.
      * exists m, e1. split; [reflexivity|]. split; [|reflexivity].
        apply canonical_spec. rewrite fexp_spec in Es.
        assert (-1074 < e1) as Big by lia.
        assert (n = d - 53) as En by lia.
        assert (2 ^ 52 <= q) as Hq2.
        { apply Z.div_le_lower_bound; [lia|].
          rewrite <- Z.pow_add_r by lia.
          replace (n + 52) with (d - 1) by lia. exact Lp. }
        pose proof (digits_gt m 52 ltac:(lia) ltac:(lia)). lia.
Qed.

(** A number below a float is rounded to a float that is not above it. *)
Lemma round_aux_le sx p ex k mb eb :
  ex <= fexp (Zpos (digits2_pos p) + ex) ->
  0 <= k -> 0 <= ex + 1074 + k ->
  bounded mb eb = true ->
  Zpos p * 2 ^ (ex + 1074 + k) <= ulps mb eb * 2 ^ k ->
  round_aux sx (Zpos p) ex loc_Exact = S754_zero sx \/
  exists m' e',
    round_aux sx (Zpos p) ex loc_Exact = S754_finite sx m' e' /\
    bounded m' e' = true /\ ulps m' e' <= ulps mb eb.
Proof.
  intros Hex Hk Hs Hb H.
  destruct (round_aux_exact sx p ex Hex)
    as (mr & B & X & [[_ Z]|(m' & e' & V & C & R)]); [now left | right].
  apply bounded_spec in Hb as [Cb Eb].
  pose proof (proj1 (canonical_spec _ _) Cb) as Cb'.
  pose proof (fexp_spec (Zpos (digits2_pos p) + ex)) as He1.
  set (e1 := fexp (Zpos (digits2_pos p) + ex)) in *.
  set (d := Zpos (digits2_pos p)) in *.
  set (db := Zpos (digits2_pos mb)) in *.
  assert (0 < d) as Hd by (subst d; lia).
  assert (0 < db) as Hdb by (subst db; lia).
  assert (-1074 <= eb) as Heb by lia.
  assert (0 < 2 ^ k) as Pk by (apply pow2_pos; lia).
  (* the exponent of the format is not above the bound's *)
  assert (e1 <= eb) as Le.
  { destruct (Z_le_gt_dec e1 eb) as [|G]; [assumption | exfalso].
    assert (db + eb <= d + ex - 1) as Hd' by lia.
    assert (ulps mb eb * 2 ^ k < Zpos p * 2 ^ (ex + 1074 + k)); [|lia].
    unfold ulps. rewrite <- Z.mul_assoc, <- Z.pow_add_r by lia.
    eapply Z.lt_le_trans; [apply scaled_lt_pow; lia |].
    eapply Z.le_trans; [| apply scaled_ge_pow; lia].
    apply Z.pow_le_mono_r; subst d db; lia. }
  set (n := e1 - ex) in *.
  assert (mr <= Zpos mb * 2 ^ (eb - e1)) as Hmr.
  { apply (rounded_le (Zpos p) n); try lia; try assumption.
    assert (0 < 2 ^ (ex + 1074 + k)) as Pe by (apply pow2_pos; lia).
    apply (Z.mul_le_mono_pos_r _ _ (2 ^ (ex + 1074 + k)) Pe).
    eapply Z.le_trans; [exact H|]. unfold ulps.
    rewrite <- !Z.mul_assoc, <- !Z.pow_add_r by lia.
    replace (eb - e1 + (n + (ex + 1074 + k))) with (eb + 1074 + k) by lia.
    lia. }
  assert (ulps m' e' <= ulps mb eb) as Hv.
  { rewrite V. unfold ulps.
    replace (eb + 1074) with (eb - e1 + (e1 + 1074)) by lia.
    rewrite (Z.pow_add_r 2 (eb - e1) (e1 + 1074)), Z.mul_assoc by lia.
    apply Z.mul_le_mono_nonneg_r; [apply Z.lt_le_incl, pow2_pos; lia | lia]. }
  assert (e' <= eb) as He'.
  { destruct (Z_le_gt_dec e' eb) as [|G]; [assumption | exfalso].
    pose proof (canonical_lt mb eb m' e' Cb C ltac:(lia)). lia. }
  exists m', e'. rewrite R.
  destruct (Z.leb_spec e' 971); [|lia].
  split; [reflexivity|]. split; [|exact Hv].
  apply bounded_spec. split; [exact C | lia].
Qed.

Lemma iter_xO p s : Zpos (Pos.iter xO p s) = Zpos p * 2 ^ Zpos s.
Proof.
  change (Pos.iter xO p s) with (shift_pos s p).
  rewrite shift_pos_correct, Z.pow_pos_fold. lia.
Qed.

Lemma binary_round_le sx p ex mb eb :
  -1074 <= ex ->
  bounded mb eb = true ->
  Zpos p * 2 ^ (ex + 1074) <= ulps mb eb ->
  binary_round prec emax sx p ex = S754_zero sx \/
  exists m' e',
    binary_round prec emax sx p ex = S754_finite sx m' e' /\
    bounded m' e' = true /\ ulps m' e' <= ulps mb eb.
Proof.
  intros Hex Hb H. unfold binary_round, shl_align.
  pose proof (fexp_spec (Zpos (digits2_pos p) + ex)) as Hf.
  set (f := fexp (Zpos (digits2_pos p) + ex)) in *.
  destruct (digits2_pos_bounds p) as [Lp Up].
  destruct (f - ex) as [|s|s] eqn:Es.
  - apply round_aux_le with (k := 0);
      [fold f; lia | lia | lia | assumption |].
    rewrite Z.add_0_r, Z.mul_1_r. exact H.
  - apply round_aux_le with (k := 0);
      [fold f; lia | lia | lia | assumption |].
    rewrite Z.add_0_r, Z.mul_1_r. exact H.
  - pose proof (iter_xO p s) as Hz.
    set (mz := Pos.iter xO p s) in *.
    assert (ex = f + Zpos s) as Hs by lia.
    assert (Zpos (digits2_pos mz) = Zpos (digits2_pos p) + Zpos s) as Hd.
    { apply Z.le_antisymm.
      - apply digits_le; [lia|]. rewrite Hz, Z.pow_add_r by lia.
        apply Z.mul_lt_mono_pos_r; [apply pow2_pos; lia | exact Up].
      - assert (Zpos (digits2_pos p) - 1 + Zpos s < Zpos (digits2_pos mz));
          [|lia].
        apply digits_gt; [lia|]. rewrite Hz, Z.pow_add_r by lia.
        apply Z.mul_le_mono_nonneg_r;
          [apply Z.lt_le_incl, pow2_pos; lia | exact Lp]. }
    apply round_aux_le with (k := 0);
      [rewrite Hd, fexp_spec; lia | lia | lia | assumption |].
    rewrite Z.add_0_r, Z.mul_1_r, Hz, <- Z.mul_assoc, <- Z.pow_add_r by lia.
    replace (Zpos s + (f + 1074)) with (ex + 1074) by lia. exact H.
Qed.

(** *** Sums and products of finite floats *)

Lemma shl_align_value m e ez :
  -1074 <= ez -> ez <= e ->
  Zpos (fst (shl_align m e ez)) * 2 ^ (ez + 1074) = ulps m e.
Proof.
  intros Hz He. unfold shl_align, ulps.
  destruct (ez - e) as [|s|s] eqn:Es; cbn [fst]; [| lia |].
  - replace ez with e by lia. reflexivity.
  - rewrite iter_xO, <- Z.mul_assoc, <- Z.pow_add_r by lia.
    replace (Zpos s + (ez + 1074)) with (e + 1074) by lia. reflexivity.
Qed.

Lemma finite_positive x :
  finite_sf x = true -> 0 < scaled x ->
  exists m e, x = S754_finite false m e /\ bounded m e = true.
Proof.
  destruct x as [s| | |[|] m e]; cbn [finite_sf scaled]; try discriminate; try lia.
  - intros F. pose proof (finite_sf_inv true m e F). lia.
  - eauto.
Qed.

Lemma finite_negative x :
  finite_sf x = true -> scaled x < 0 ->
  exists m e, x = S754_finite true m e /\ bounded m e = true.
Proof.
  destruct x as [s| | |[|] m e]; cbn [finite_sf scaled]; try discriminate; try lia.
  - eauto.
  - intros F. pose proof (finite_sf_inv false m e F). lia.
Qed.

(** A sum that lies, before rounding, between two floats of opposite
    signs lies between them after rounding. *)
Lemma SFadd_within x y lo hi :
  finite_sf x = true -> finite_sf y = true -> finite_sf lo = true -> finite_sf hi = true ->
  scaled lo <= 0 <= scaled hi ->
  scaled lo <= scaled x + scaled y <= scaled hi ->
  finite_sf (SFadd prec emax x y) = true /\
  scaled lo <= scaled (SFadd prec emax x y) <= scaled hi.
Proof.
  intros Fx Fy Flo Fhi Z H.
  destruct x as [sx| | |sx mx ex]; try discriminate;
    destruct y as [sy| | |sy my ey]; try discriminate.
  - destruct sx, sy; cbn; lia.
  - cbn [SFadd]. split; [exact Fy | exact H].
  - cbn [SFadd]. split; [exact Fx | cbn [scaled] in *; lia].
  - cbn [SFadd]. cbv zeta.
    destruct (finite_sf_inv _ _ _ Fx) as (_ & Bx & _).
    destruct (finite_sf_inv _ _ _ Fy) as (_ & By & _).
    set (ez := Z.min ex ey).
    pose proof (shl_align_value mx ex ez ltac:(lia) ltac:(lia)) as Vx.
    pose proof (shl_align_value my ey ez ltac:(lia) ltac:(lia)) as Vy.
    set (ax := Zpos (fst (shl_align mx ex ez))) in *.
    set (ay := Zpos (fst (shl_align my ey ez))) in *.
    assert ((cond_Zopp sx ax + cond_Zopp sy ay) * 2 ^ (ez + 1074)
            = scaled (S754_finite sx mx ex) + scaled (S754_finite sy my ey)) as V.
    { cbn [scaled]. rewrite <- Vx, <- Vy. destruct sx, sy; cbn [cond_Zopp]; lia. }
    assert (0 < 2 ^ (ez + 1074)) as Pz by (apply pow2_pos; lia).
    rewrite <- V in H. clear V Vx Vy.
    destruct (cond_Zopp sx ax + cond_Zopp sy ay) as [|s|s];
      cbn [binary_normalize].
    + cbn [finite_sf scaled]. split; [reflexivity | lia].
    + destruct (finite_positive hi Fhi ltac:(nia)) as (mh & eh & -> & Bh).
      cbn [scaled] in H, Z.
      destruct (binary_round_le false s ez mh eh ltac:(lia) Bh ltac:(lia))
        as [->|(m' & e' & -> & B' & L)];
        [cbn [finite_sf scaled]; split; [reflexivity | lia]|].
      cbn [finite_sf scaled]. split; [exact B'|].
      pose proof (finite_sf_inv false m' e' B'). lia.
    + destruct (finite_negative lo Flo ltac:(nia)) as (ml & el & -> & Bl).
      cbn [scaled] in H, Z.
      destruct (binary_round_le true s ez ml el ltac:(lia) Bl)
        as [->|(m' & e' & -> & B' & L)];
        [|cbn [finite_sf scaled]; split; [reflexivity | lia]|].
      * change (Zneg s) with (- Zpos s) in H. lia.
      * cbn [finite_sf scaled]. split; [exact B'|].
        pose proof (finite_sf_inv true m' e' B'). lia.
Qed.

(** A product of floats that are not negative, if it is not above a float
    before rounding, is not above it after rounding. *)
Lemma SFmul_within x y hi :
  finite_sf x = true -> finite_sf y = true -> finite_sf hi = true ->
  0 <= scaled x -> 0 <= scaled y ->
  scaled x * scaled y <= scaled hi * 2 ^ 1074 ->
  finite_sf (SFmul prec emax x y) = true /\
  0 <= scaled (SFmul prec emax x y) <= scaled hi.
Proof.
  intros Fx Fy Fhi Px Py H.
  assert (0 < 2 ^ 1074) as P by (apply pow2_pos; lia).
  assert (0 <= scaled hi) as Phi by nia.
  destruct x as [sx| | |sx mx ex]; try discriminate;
    destruct y as [sy| | |sy my ey]; try discriminate;
    try (cbn [SFmul finite_sf scaled]; split; [reflexivity | lia]).
  cbn [SFmul].
  destruct (finite_sf_inv _ _ _ Fx) as (Cx & Bx & Vx).
  destruct (finite_sf_inv _ _ _ Fy) as (Cy & By & Vy).
  destruct sx; [cbn [scaled] in Px; lia|].
  destruct sy; [cbn [scaled] in Py; lia|].
  cbn [scaled xorb] in *.
  destruct (finite_positive hi Fhi ltac:(nia)) as (mh & eh & -> & Bh).
  cbn [scaled] in *.
  apply canonical_spec in Cx, Cy.
  destruct (digits2_pos_bounds mx) as [Lx _].
  destruct (digits2_pos_bounds my) as [Ly _].
  assert (Zpos (digits2_pos mx) + Zpos (digits2_pos my) - 2
          < Zpos (digits2_pos (mx * my))) as Hd.
  { apply digits_gt; [lia|].
    replace (Zpos (digits2_pos mx) + Zpos (digits2_pos my) - 2)
      with ((Zpos (digits2_pos mx) - 1) + (Zpos (digits2_pos my) - 1)) by lia.
    rewrite Z.pow_add_r, Pos2Z.inj_mul by lia.
    apply Z.mul_le_mono_nonneg; try assumption;
      apply Z.lt_le_incl, pow2_pos; lia. }
  destruct (round_aux_le false (mx * my) (ex + ey) 1074 mh eh)
    as [->|(m' & e' & -> & B' & L)].
  - rewrite fexp_spec. lia.
  - lia.
  - lia.
  - exact Bh.
  - eapply Z.le_trans; [|exact H]. unfold ulps.
    rewrite Pos2Z.inj_mul.
    replace (ex + ey + 1074 + 1074) with ((ex + 1074) + (ey + 1074)) by lia.
    rewrite Z.pow_add_r by lia. lia.
  - cbn [finite_sf scaled]. split; [reflexivity | lia].
  - cbn [finite_sf scaled]. split; [exact B'|].
    pose proof (finite_sf_inv false m' e' B'). lia.
Qed.

(** *** Binary64 numbers *)

Lemma leb_scaled x y :
  finite64 x = true -> finite64 y = true ->
  (x <=? y)%float = (scaled64 x <=? scaled64 y).
Proof.
  intros Fx Fy. rewrite leb_spec. unfold SFleb, scaled64, Z.leb.
  rewrite (SFcompare_finite _ _ Fx Fy).
  now destruct (scaled (Prim2SF x) ?= scaled (Prim2SF y)).
Qed.

Lemma ltb_scaled x y :
  finite64 x = true -> finite64 y = true ->
  (x <? y)%float = (scaled64 x <? scaled64 y).
Proof.
  intros Fx Fy. rewrite ltb_spec. unfold SFltb, scaled64, Z.ltb.
  rewrite (SFcompare_finite _ _ Fx Fy).
  now destruct (scaled (Prim2SF x) ?= scaled (Prim2SF y)).
Qed.

Lemma ltb_leb x y : (x <? y)%float = true -> (x <=? y)%float = true.
Proof.
  rewrite ltb_spec, leb_spec. unfold SFltb, SFleb.
  now destruct (SFcompare (Prim2SF x) (Prim2SF y)) as [[| |]|].
Qed.

(** What lies between two finite floats is finite. *)
Lemma finite64_between x lo hi :
  finite64 lo = true -> finite64 hi = true ->
  (lo <=? x)%float = true -> (x <=? hi)%float = true -> finite64 x = true.
Proof.
  unfold finite64. rewrite !leb_spec. unfold SFleb.
  pose proof (Prim2SF_valid x) as V.
  destruct (Prim2SF x) as [s|s| |s m e]; intros Flo Fhi L U.
  - reflexivity.
  - exfalso.
    destruct (Prim2SF lo) as [?|?| |? ? ?]; try discriminate;
      destruct (Prim2SF hi) as [?|?| |? ? ?]; try discriminate;
      destruct s; cbn in L, U; discriminate.
  - exfalso. destruct (Prim2SF lo); discriminate.
  - exact V.
Qed.

Lemma add_within x y lo hi :
  finite64 x = true -> finite64 y = true -> finite64 lo = true -> finite64 hi = true ->
  scaled64 lo <= 0 <= scaled64 hi ->
  scaled64 lo <= scaled64 x + scaled64 y <= scaled64 hi ->
  finite64 (x + y) = true /\ scaled64 lo <= scaled64 (x + y) <= scaled64 hi.
Proof.
  unfold finite64, scaled64. rewrite add_spec. apply SFadd_within.
Qed.

Lemma mul_within x y hi :
  finite64 x = true -> finite64 y = true -> finite64 hi = true ->
  0 <= scaled64 x -> 0 <= scaled64 y ->
  scaled64 x * scaled64 y <= scaled64 hi * 2 ^ 1074 ->
  finite64 (x * y) = true /\ 0 <= scaled64 (x * y) <= scaled64 hi.
Proof.
  unfold finite64, scaled64. rewrite mul_spec. apply SFmul_within.
Qed.

Lemma scaled64_one : scaled64 1 = 2 ^ 1074.
Proof. vm_compute. reflexivity. Qed.

(** A draw of [random()]. *)
Lemma unit_draw r :
  (0 <=? r)%float = true -> (r <? 1)%float = true ->
  finite64 r = true /\ 0 <= scaled64 r < 2 ^ 1074.
Proof.
  intros L U.
  assert (finite64 0 = true) as F0 by reflexivity.
  assert (finite64 1 = true) as F1 by reflexivity.
  assert (finite64 r = true) as F
    by (apply (finite64_between r 0 1); auto using ltb_leb).
  split; [exact F|].
  rewrite (leb_scaled _ _ F0 F) in L. rewrite (ltb_scaled _ _ F F1) in U.
  apply Z.leb_le in L. apply Z.ltb_lt in U.
  rewrite scaled64_one in U. change (scaled64 0) with 0 in L. lia.
Qed.

(** [a + w * r] for a draw [r] of [random()]: the value of
    [random.uniform(a, b)], where [w] is [b - a]. *)
Lemma uniform_within a w lo hi r :
  finite64 a = true -> finite64 w = true -> finite64 lo = true -> finite64 hi = true ->
  (0 <=? scaled64 w) = true ->
  (scaled64 lo <=? 0) = true -> (0 <=? scaled64 hi) = true ->
  (scaled64 lo <=? scaled64 a) = true -> (scaled64 a + scaled64 w <=? scaled64 hi) = true ->
  (0 <=? r)%float = true -> (r <? 1)%float = true ->
  finite64 (a + w * r) = true /\
  (lo <=? a + w * r)%float = true /\ (a + w * r <=? hi)%float = true.
Proof.
  intros Fa Fw Flo Fhi Pw Nlo Phi La Ua L U.
  apply Z.leb_le in Pw, Nlo, Phi, La, Ua.
  destruct (unit_draw r L U) as [Fr Br].
  assert (0 < 2 ^ 1074) as P by (apply pow2_pos; lia).
  destruct (mul_within w r w Fw Fr Fw Pw ltac:(lia) ltac:(nia)) as [Fm Bm].
  destruct (add_within a (w * r) lo hi Fa Fm Flo Fhi ltac:(lia) ltac:(lia))
    as [Fs Bs].
  split; [exact Fs|].
  rewrite (leb_scaled _ _ Flo Fs), (leb_scaled _ _ Fs Fhi).
  split; apply Z.leb_le; lia.
Qed.

Lemma noise_03 r :
  (0 <=? r)%float = true -> (r <? 1)%float = true ->
  (-0.3 <=? -0.3 + (0.3 - -0.3) * r)%float = true /\
  (-0.3 + (0.3 - -0.3) * r <=? 0.3)%float = true.
Proof.
  intros L U.
  apply (uniform_within (-0.3) (0.3 - -0.3) (-0.3) 0.3 r); auto;
    vm_compute; reflexivity.
Qed.

Lemma noise_1 r :
  (0 <=? r)%float = true -> (r <? 1)%float = true ->
  (-1 <=? -1 + 2 * r)%float = true /\ (-1 + 2 * r <=? 1)%float = true.
Proof.
  intros L U.
  apply (uniform_within (-1) 2 (-1) 1 r); auto; vm_compute; reflexivity.
Qed.

End Rounding.

(** ** The generator in binary64 arithmetic *)

Section Binary64Monad.

Import Binary64.

Lemma keeps_ret_b64 {A} (a : A) : keeps_stream (ret a).
Proof. intro s. reflexivity. Qed.

Lemma keeps_random_b64 : keeps_stream random.
Proof. intro s. reflexivity. Qed.

Lemma keeps_bind_b64 {A B} (c : M A) (k : A -> M B) :
  keeps_stream c -> (forall a, keeps_stream (k a)) ->
  keeps_stream (bind c k).
Proof.
  intros Hc Hk s. unfold bind.
  specialize (Hc s). destruct (c s) as [a s']. cbn in Hc.
  rewrite Hk. exact Hc.
Qed.

Lemma keeps_if_b64 {A} (b : bool) (c1 c2 : M A) :
  keeps_stream c1 -> keeps_stream c2 -> keeps_stream (if b then c1 else c2).
Proof. destruct b; auto. Qed.

Lemma keeps_uniform_b64 (a b : num) : keeps_stream (uniform a b).
Proof. intro s. reflexivity. Qed.

End Binary64Monad.

Ltac keeps_b64 :=
  repeat first
    [ apply keeps_ret_b64 | apply keeps_random_b64 | apply keeps_uniform_b64
    | apply keeps_if_b64
    | apply keeps_bind_b64; [| intro] ].

Section Binary64Blocks.

Import Binary64.

Lemma keeps_medication_block_b64 day : keeps_stream (medication_block day).
Proof. unfold medication_block. keeps_b64. Qed.

Lemma keeps_sleep_block_b64 w m : keeps_stream (sleep_block w m).
Proof. unfold sleep_block. keeps_b64. Qed.

Lemma keeps_exercise_block_b64 w d p : keeps_stream (exercise_block w d p).
Proof. unfold exercise_block. keeps_b64. Qed.

Lemma keeps_daylight_block_b64 w d : keeps_stream (daylight_block w d).
Proof. unfold daylight_block. keeps_b64. Qed.

Lemma keeps_substance_block_b64 w : keeps_stream (substance_block w).
Proof. unfold substance_block. keeps_b64. Qed.

Lemma keeps_mood_block_b64 a b c d e f g :
  keeps_stream (mood_block a b c d e f g).
Proof. unfold mood_block. keeps_b64. Qed.

Lemma keeps_anxiety_block_b64 a b c d : keeps_stream (anxiety_block a b c d).
Proof. unfold anxiety_block. keeps_b64. Qed.

Lemma keeps_anhedonia_block_b64 a b c : keeps_stream (anhedonia_block a b c).
Proof. unfold anhedonia_block. keeps_b64. Qed.

Lemma keeps_day_body_b64 start day ps pm :
  keeps_stream (day_body start day ps pm).
Proof.
  unfold day_body.
  apply keeps_bind_b64; [apply keeps_medication_block_b64 | intros [[? ?] ?]].
  apply keeps_bind_b64; [apply keeps_sleep_block_b64 | intros [[[[? ?] ?] ?] ?]].
  apply keeps_bind_b64; [apply keeps_exercise_block_b64 | intros [? ?]].
  apply keeps_bind_b64; [apply keeps_daylight_block_b64 | intros [[[? ?] ?] ?]].
  apply keeps_bind_b64; [apply keeps_substance_block_b64 | intros ?].
  apply keeps_bind_b64; [apply keeps_mood_block_b64 | intros [[? ?] ?]].
  apply keeps_bind_b64; [apply keeps_anxiety_block_b64 | intros [[? ?] ?]].
  apply keeps_bind_b64; [apply keeps_anhedonia_block_b64 | intros [[? ?] ?]].
  apply keeps_ret_b64.
Qed.

Lemma keeps_iteration_b64 start f day : keeps_stream (iteration start f day).
Proof.
  unfold iteration.
  apply keeps_bind_b64; [apply keeps_day_body_b64 | intro; apply keeps_ret_b64].
Qed.

Lemma keeps_for_each_b64 start days f :
  keeps_stream (for_each days (iteration start) f).
Proof.
  revert f. induction days as [| d days IH]; intro f; cbn [for_each].
  - apply keeps_ret_b64.
  - apply keeps_bind_b64; [apply keeps_iteration_b64 | intro; apply IH].
Qed.

(** *** What the blocks return *)

Lemma clamp_levels (lo hi z : Z) :
  py_int (py_max (PyInt lo) (py_min (PyInt hi) (PyInt z)))
  = Z.max lo (Z.min hi z).
Proof.
  unfold py_max, py_min, gt, lt.
  destruct (Z.ltb_spec z hi); cbn [py_int to_float];
    match goal with
    | |- context [?a <? ?b] => destruct (Z.ltb_spec a b)
    end; cbn [py_int]; lia.
Qed.

Lemma mood_block_run me ps em dl sa dow pm (s : rng_state) :
  mood_block me ps em dl sa dow pm s =
  let noise := uniform_of (PyFloat (-0.3)) (PyFloat 0.3)
                 (PyFloat (stream s (cursor s))) in
  let m := moodSum me ps em dl sa dow pm noise in
  ((noise, m, round_then_clamp 1 5 m),
   {| stream := stream s; cursor := S (cursor s) |}).
Proof.
  cbv beta iota zeta delta [mood_block bind uniform random ret].
  rewrite clamp_levels. reflexivity.
Qed.

Lemma anxiety_block_run me sh em sa (s : rng_state) :
  exists a,
    anxiety_block me sh em sa s =
    ((uniform_of (PyFloat (-0.4)) (PyFloat 0.4)
        (PyFloat (stream s (cursor s))), a, round_then_clamp 0 4 a),
     {| stream := stream s; cursor := S (cursor s) |}).
Proof.
  cbv beta iota zeta delta [anxiety_block bind uniform random ret].
  rewrite clamp_levels. eexists. reflexivity.
Qed.

Lemma anhedonia_block_run me sh em (s : rng_state) :
  exists a,
    anhedonia_block me sh em s =
    ((uniform_of (PyFloat (-0.3)) (PyFloat 0.3)
        (PyFloat (stream s (cursor s))), a, round_then_clamp 0 4 a),
     {| stream := stream s; cursor := S (cursor s) |}).
Proof.
  cbv beta iota zeta delta [anhedonia_block bind uniform random ret].
  rewrite clamp_levels. eexists. reflexivity.
Qed.

Lemma sleep_quality_of_clamp (sh qn : num) :
  sleep_quality_of sh qn
  = clamp_then_truncate 1 5
      (to_float ((sh / PyFloat 8.0) * PyInt 5 + qn)%b64).
Proof.
  unfold sleep_quality_of, clamp_then_truncate.
  set (x := to_float _).
  assert (((sh / PyFloat 8.0) * PyInt 5 + qn)%b64 = PyFloat x) as ->
    by reflexivity.
  unfold py_max, py_min, gt. cbn [lt to_float].
  destruct (PrimFloat.ltb (of_int 1) x); cbn [lt to_float].
  - destruct (PrimFloat.ltb x (of_int 5)); reflexivity.
  - reflexivity.
Qed.

Lemma sleep_block_run (w : bool) (me : num) (s : rng_state) :
  let draw k := PyFloat (stream s k) in
  let c := cursor s in
  let base := if w then uniform_of (PyFloat 7.5) (PyFloat 9.0) (draw c)
              else uniform_of (PyFloat 6.0) (PyFloat 8.0) (draw c) in
  let sn := uniform_of (PyFloat (-0.5)) (PyFloat 0.5) (draw (S c)) in
  let sh := py_max (PyFloat 4.0)
              (py_min (PyFloat 10.0) (base + me * PyFloat 0.5 + sn)%b64) in
  let qn := uniform_of (PyInt (-1)) (PyInt 1) (draw (S (S c))) in
  sleep_block w me s =
  ((base, sn, sh, qn, sleep_quality_of sh qn),
   {| stream := stream s; cursor := S (S (S c)) |}).
Proof. destruct w; reflexivity. Qed.

Lemma medication_block_effect (day : Z) (s : rng_state) :
  let '(taken, _, effect, _) := medication_block day s in
  effect = medEffect day taken.
Proof.
  unfold medication_block, medEffect, bind, medication_start_day.
  destruct (60 <=? day).
  - cbn [random ret]. destruct (_ <? _)%b64; reflexivity.
  - reflexivity.
Qed.

Lemma medication_block_cursor (day : Z) (s : rng_state) :
  cursor (snd (medication_block day s))
  = if medication_start_day <=? day then S (cursor s) else cursor s.
Proof.
  unfold medication_block, bind.
  destruct (medication_start_day <=? day); reflexivity.
Qed.

End Binary64Blocks.

(** *** The loop *)

Section Binary64Loop.

Import Binary64.

Variable start_date : Z.

Lemma for_each_app_b64 (l1 l2 : list Z) body f (s : rng_state) :
  for_each (l1 ++ l2) body f s =
  let (f', s') := for_each l1 body f s in for_each l2 body f' s'.
Proof.
  revert f s. induction l1 as [| d l1 IH]; intros f s; cbn.
  - reflexivity.
  - unfold bind. destruct (body f d s) as [f1 s1]. apply IH.
Qed.

Lemma generate_from_state_before_b64 (n : Z) (g : rng_state) :
  generate_from start_date n g = state_before start_date (Z.to_nat n) g.
Proof.
  unfold state_before, generate_from. now rewrite <- range_to_nat.
Qed.

Lemma state_before_succ_b64 (i : nat) (g : rng_state) :
  state_before start_date (S i) g =
  let (f, s) := state_before start_date i g in
  iteration start_date f (Z.of_nat i) s.
Proof.
  unfold state_before, generate_from.
  rewrite range_succ, for_each_app_b64.
  destruct (for_each _ _ _ g) as [f s]. cbn [for_each].
  unfold bind. destruct (iteration start_date f (Z.of_nat i) s).
  reflexivity.
Qed.

(** What one iteration leaves in the frame and in the generator. *)
Lemma frame_after_b64 (i : nat) (g : rng_state) :
  let st := state_before start_date i g in
  let st' := state_before start_date (S i) g in
  let l := locals_at start_date i g in
  previous_sleep (fst st') = sleep_hours l /\
  previous_mood (fst st') = mood_level l /\
  data (fst st') = data (fst st) ++ [row_at start_date i g] /\
  snd st' = snd (day_body start_date (Z.of_nat i) (previous_sleep (fst st))
                   (previous_mood (fst st)) (snd st)).
Proof.
  cbn zeta. rewrite state_before_succ_b64.
  unfold row_at, locals_at.
  destruct (state_before start_date i g) as [f s]. cbn [fst snd].
  unfold iteration, bind.
  destruct (day_body _ _ _ _ s) as [l s']. cbn.
  repeat split.
Qed.

Lemma data_state_before_b64 (i : nat) (g : rng_state) :
  data (fst (state_before start_date i g)) =
  map (fun k => row_at start_date k g) (seq 0 i).
Proof.
  induction i as [| i IH].
  - reflexivity.
  - destruct (frame_after_b64 i g) as (_ & _ & -> & _).
    rewrite IH, seq_S, map_app. reflexivity.
Qed.

Lemma stream_state_before_b64 (i : nat) (g : rng_state) :
  stream (snd (state_before start_date i g)) = stream g.
Proof. apply keeps_for_each_b64. Qed.

End Binary64Loop.

Section Binary64Rows.

Import Binary64.

Lemma generate_realistic_data_ok_b64 (now num_days : Z) (g : rng_state)
    (rows : list record) :
  fst (generate_realistic_data now num_days g) = Ok rows ->
  rows = map (fun k => row_at (now - num_days) k g)
             (seq 0 (Z.to_nat num_days)).
Proof.
  unfold generate_realistic_data.
  destruct ((MINORDINAL <=? now - num_days)
            && (now - num_days <=? MAXORDINAL)); [|discriminate].
  unfold bind. rewrite generate_from_state_before_b64.
  rewrite <- data_state_before_b64.
  destruct (state_before _ _ g). cbn. congruence.
Qed.

Lemma rows_nth_b64 (now num_days : Z) (g : rng_state) (rows : list record)
    (i : nat) (r : record) :
  fst (generate_realistic_data now num_days g) = Ok rows ->
  nth_error rows i = Some r ->
  (i < Z.to_nat num_days)%nat /\ r = row_at (now - num_days) i g.
Proof.
  intros Hrows Hnth. apply generate_realistic_data_ok_b64 in Hrows.
  subst rows.
  assert (Hi : (i < Z.to_nat num_days)%nat).
  { assert (Hn : nth_error
                   (map (fun k => row_at (now - num_days) k g)
                        (seq 0 (Z.to_nat num_days))) i <> None)
      by congruence.
    apply nth_error_Some in Hn.
    now rewrite length_map, length_seq in Hn. }
  rewrite nth_error_rows in Hnth by exact Hi.
  split; [exact Hi | congruence].
Qed.

End Binary64Rows.

(** *** One iteration, block by block *)

Section Binary64Day.

Import Binary64.

Variables (start_date day : Z) (previous_sleep : num) (previous_mood : Z).

Lemma day_body_blocks_b64 (s : rng_state) :
  let l := fst (day_body start_date day previous_sleep previous_mood s) in
  exists s1 s2 s3 s4 s5 s6 s7 : rng_state,
    (forall t, In t [s1; s2; s3; s4; s5; s6; s7] -> stream t = stream s) /\
    day_of_week l = weekday (start_date + day) + 1 /\
    medication_block day s
      = (medication_taken l, days_on_meds l, med_effect l, s1) /\
    sleep_block (is_weekend l) (med_effect l) s1
      = (base_sleep l, sleep_noise l, sleep_hours l, quality_noise l,
         sleep_quality l, s2) /\
    exercise_block (is_weekend l) day previous_mood s2
      = (exercise_probability l, exercise_minutes l, s3) /\
    daylight_block (is_weekend l) (current_date l) s3
      = (month l, seasonal_factor l, base_daylight l, daylight_minutes l, s4) /\
    substance_block (is_weekend l) s4 = (substance_amount l, s5) /\
    mood_block (med_effect l) previous_sleep (exercise_minutes l)
      (daylight_minutes l) (substance_amount l) (day_of_week l)
      previous_mood s5 = (mood_noise l, mood l, mood_level l, s6) /\
    anxiety_block (med_effect l) (sleep_hours l) (exercise_minutes l)
      (substance_amount l) s6
      = (anxiety_noise l, anxiety l, anxiety_level l, s7) /\
    anhedonia_block (med_effect l) (sleep_hours l) (exercise_minutes l) s7
      = (anhedonia_noise l, anhedonia l, anhedonia_level l,
         snd (day_body start_date day previous_sleep previous_mood s)).
Proof.
  unfold day_body, bind.
  destruct (medication_block day s) as [[[mt dm] me] s1] eqn:E1.
  destruct (sleep_block _ me s1) as [[[[[bs sn] sh] qn] sq] s2] eqn:E2.
  destruct (exercise_block _ day previous_mood s2) as [[ep em] s3] eqn:E3.
  destruct (daylight_block _ _ s3) as [[[[mo sf] bd] dm'] s4] eqn:E4.
  destruct (substance_block _ s4) as [sa s5] eqn:E5.
  destruct (mood_block me previous_sleep em dm' sa _ previous_mood s5)
    as [[[mn m] ml] s6] eqn:E6.
  destruct (anxiety_block me sh em sa s6) as [[[an ax] al] s7] eqn:E7.
  destruct (anhedonia_block me sh em s7) as [[[hn ah] hl] s8] eqn:E8.
  cbn [fst snd ret current_date day_of_week on_medication medication_taken
       days_on_meds med_effect is_weekend base_sleep sleep_noise sleep_hours
       quality_noise sleep_quality exercise_probability exercise_minutes
       month seasonal_factor base_daylight daylight_minutes substance_amount
       mood_noise mood mood_level anxiety_noise anxiety anxiety_level
       anhedonia_noise anhedonia anhedonia_level].
  exists s1, s2, s3, s4, s5, s6, s7.
  split; [| repeat split; assumption].
  pose proof (keeps_medication_block_b64 day s) as K1.
  pose proof (keeps_sleep_block_b64
                ((weekday (start_date + day) + 1 =? 1)
                 || (weekday (start_date + day) + 1 =? 7)) me s1) as K2.
  pose proof (keeps_exercise_block_b64
                ((weekday (start_date + day) + 1 =? 1)
                 || (weekday (start_date + day) + 1 =? 7))
                day previous_mood s2) as K3.
  pose proof (keeps_daylight_block_b64
                ((weekday (start_date + day) + 1 =? 1)
                 || (weekday (start_date + day) + 1 =? 7))
                (start_date + day) s3) as K4.
  pose proof (keeps_substance_block_b64
                ((weekday (start_date + day) + 1 =? 1)
                 || (weekday (start_date + day) + 1 =? 7)) s4) as K5.
  pose proof (keeps_mood_block_b64 me previous_sleep em dm' sa
                (weekday (start_date + day) + 1) previous_mood s5) as K6.
  pose proof (keeps_anxiety_block_b64 me sh em sa s6) as K7.
  rewrite E1 in K1. rewrite E2 in K2. rewrite E3 in K3. rewrite E4 in K4.
  rewrite E5 in K5. rewrite E6 in K6. rewrite E7 in K7.
  cbn [snd] in *.
  intros t Ht. cbn [In] in Ht.
  repeat (destruct Ht as [<- | Ht]; [congruence |]).
  contradiction.
Qed.

End Binary64Day.

Section Binary64Iteration.

Import Binary64.

Variable start_date : Z.
Variable i : nat.
Variable g : rng_state.

Local Notation "'this_day'" := (locals_at start_date i g).
Local Notation "'before'" := (snd (state_before start_date i g)).
Local Notation "'after'" := (snd (state_before start_date (S i) g)).

Lemma medication_of_iteration :
  med_effect this_day = medEffect (Z.of_nat i) (medication_taken this_day).
Proof.
  unfold locals_at.
  destruct (state_before start_date i g) as [f s]. cbn [fst snd].
  destruct (day_body_blocks_b64 start_date (Z.of_nat i) (previous_sleep f)
              (previous_mood f) s)
    as (s1 & s2 & s3 & s4 & s5 & s6 & s7 & _ & _ & Hmed & _).
  pose proof (medication_block_effect (Z.of_nat i) s) as H.
  rewrite Hmed in H. exact H.
Qed.

(** The noise of the sleep quality is the third draw of the sleep block,
    which follows the draw of the medication, if there is one. *)
Lemma quality_of_iteration :
  let k := if medication_start_day <=? Z.of_nat i
           then S (S (S (cursor before))) else S (S (cursor before)) in
  quality_noise this_day
  = uniform_of (PyInt (-1)) (PyInt 1) (PyFloat (stream g k)) /\
  sleep_quality this_day
  = clamp_then_truncate 1 5
      (to_float ((sleep_hours this_day / PyFloat 8.0) * PyInt 5
                 + quality_noise this_day)%b64).
Proof.
  cbn zeta. unfold locals_at.
  pose proof (stream_state_before_b64 start_date i g) as Hg.
  destruct (state_before start_date i g) as [f s]. cbn [fst snd] in *.
  destruct (day_body_blocks_b64 start_date (Z.of_nat i) (previous_sleep f)
              (previous_mood f) s)
    as (s1 & s2 & s3 & s4 & s5 & s6 & s7 & _ & _ & Hmed & Hslp & _).
  pose proof (keeps_medication_block_b64 (Z.of_nat i) s) as K.
  pose proof (medication_block_cursor (Z.of_nat i) s) as C.
  rewrite Hmed in K, C. cbn [snd] in K, C.
  rewrite sleep_block_run in Hslp. cbv zeta in Hslp.
  apply pair_inv in Hslp as [Hslp _].
  apply pair_inv in Hslp as [Hslp Hq].
  apply pair_inv in Hslp as [Hslp Hn].
  apply pair_inv in Hslp as [_ Hh].
  split.
  - rewrite <- Hn, K, Hg, C.
    destruct (medication_start_day <=? Z.of_nat i); reflexivity.
  - rewrite <- sleep_quality_of_clamp, <- Hq, Hh, Hn. reflexivity.
Qed.

(** The mood of the day: the sum of the source, with the carried values
    of the frame and the noise of the third draw from the end of the
    iteration; and the three levels, rounded and then clamped. *)
Lemma mood_of_iteration :
  (exists k,
     S (S (S k)) = cursor after /\
     mood_noise this_day
     = uniform_of (PyFloat (-0.3)) (PyFloat 0.3) (PyFloat (stream g k))) /\
  mood this_day
  = moodSum (med_effect this_day) (previous_sleep_at start_date i g)
      (exercise_minutes this_day) (daylight_minutes this_day)
      (substance_amount this_day) (day_of_week this_day)
      (previous_mood_at start_date i g) (mood_noise this_day) /\
  mood_level this_day = round_then_clamp 1 5 (mood this_day) /\
  anxiety_level this_day = round_then_clamp 0 4 (anxiety this_day) /\
  anhedonia_level this_day = round_then_clamp 0 4 (anhedonia this_day).
Proof.
  destruct (frame_after_b64 start_date i g) as (_ & _ & _ & Hafter).
  rewrite Hafter. clear Hafter.
  unfold locals_at, previous_sleep_at, previous_mood_at.
  pose proof (stream_state_before_b64 start_date i g) as Hg.
  destruct (state_before start_date i g) as [f s]. cbn [fst snd] in *.
  destruct (day_body_blocks_b64 start_date (Z.of_nat i) (previous_sleep f)
              (previous_mood f) s)
    as (s1 & s2 & s3 & s4 & s5 & s6 & s7 & Hs & _ & _ & _ & _ & _ & _
        & Hmood & Hanx & Hanh).
  set (l := fst (day_body _ _ _ _ s)) in *.
  rewrite mood_block_run in Hmood. cbv zeta in Hmood.
  apply pair_inv in Hmood as [Hmood Hs6].
  apply pair_inv in Hmood as [Hmood Hlvl].
  apply pair_inv in Hmood as [Hnoise Hm].
  destruct (anxiety_block_run (med_effect l) (sleep_hours l)
              (exercise_minutes l) (substance_amount l) s6) as [a Ha].
  rewrite Ha in Hanx.
  apply pair_inv in Hanx as [Hanx Hs7].
  apply pair_inv in Hanx as [Hanx Hal].
  apply pair_inv in Hanx as [_ Hax].
  destruct (anhedonia_block_run (med_effect l) (sleep_hours l)
              (exercise_minutes l) s7) as [h Hh].
  rewrite Hh in Hanh.
  apply pair_inv in Hanh as [Hanh Hs8].
  apply pair_inv in Hanh as [Hanh Hhl].
  apply pair_inv in Hanh as [_ Hah].
  split; [exists (cursor s5); split |].
  - rewrite <- Hs8, <- Hs7, <- Hs6. reflexivity.
  - rewrite <- Hnoise, (Hs s5), Hg by (cbn; auto 10). reflexivity.
  - rewrite <- Hlvl, <- Hal, <- Hhl, <- Hnoise, Hax, Hah, Hm.
    repeat split; reflexivity.
Qed.

Lemma mood_noise_range (r : float) :
  (0 <=? r)%float = true -> (r <? 1)%float = true ->
  let n := to_float
             (uniform_of (PyFloat (-0.3)) (PyFloat 0.3) (PyFloat r)) in
  (-0.3 <=? n)%float = true /\ (n <=? 0.3)%float = true.
Proof. exact (Rounding.noise_03 r). Qed.

Lemma quality_noise_range (r : float) :
  (0 <=? r)%float = true -> (r <? 1)%float = true ->
  let n := to_float (uniform_of (PyInt (-1)) (PyInt 1) (PyFloat r)) in
  (-1 <=? n)%float = true /\ (n <=? 1)%float = true.
Proof. exact (Rounding.noise_1 r). Qed.

End Binary64Iteration.

(** *** The model on the inputs where rounding decides

    Start 2026-07-12, two days, the draws [sixteenths]: on the second day
    the binary64 sum is 3.4999999999999996 and [moodLevel] is 3; in exact
    arithmetic the sum is 7/2 and would round to 4. *)

Example binary64_mood_below_the_tie :
  Binary64.mood (Binary64.locals_at 739809 1
                   (Binary64.seeded Binary64.sixteenths))
  = Binary64.PyFloat 3.4999999999999996 /\
  Binary64.mood_level (Binary64.locals_at 739809 1
                         (Binary64.seeded Binary64.sixteenths)) = 3 /\
  (val (mood (locals_at 739809 1 (seeded Binary64.sixteenths_exact)))
   == 7 # 2)%Q /\
  mood_level (locals_at 739809 1 (seeded Binary64.sixteenths_exact)) = 4.
Proof. repeat split; vm_compute; reflexivity. Qed.

(** A weekday without medication and the draws 0.05, 0.8, 0.5:
    [sleep_hours] is 6.3999999999999995, the quality before the clamp is
    3.9999999999999996 and [sleep_quality] is 3. *)
Example binary64_sleep_quality_below_four :
  let draws k := match k with
                 | O => 0.05 | S O => 0.8 | _ => 0.5
                 end%float in
  fst (Binary64.sleep_block false (Binary64.PyInt 0) (Binary64.seeded draws))
  = (Binary64.PyFloat 6.1, Binary64.PyFloat 0.30000000000000004,
     Binary64.PyFloat 6.3999999999999995, Binary64.PyFloat 0, 3).
Proof. vm_compute. reflexivity. Qed.

(** The draws 0.5, 0.7 and the float before 0.75: the sum rounds up to
    5.0 and [sleep_quality] is 5. *)
Example binary64_sleep_quality_five :
  let draws k := match k with
                 | O => 0.5 | S O => 0.7 | _ => 0x1.7ffffffffffffp-1
                 end%float in
  snd (fst (Binary64.sleep_block false (Binary64.PyInt 0)
              (Binary64.seeded draws))) = 5.
Proof. vm_compute. reflexivity. Qed.

Section Binary64Claims.

Import Binary64.

Lemma sixteenths_unit : unit_draws sixteenths.
Proof.
  intro k. unfold sixteenths.
  pose proof (Nat.mod_upper_bound (15 * k + 10) 16 ltac:(lia)) as H.
  revert H. generalize ((15 * k + 10) mod 16)%nat. intros n H.
  do 16 (destruct n as [|n]; [split; reflexivity |]).
  lia.
Qed.

(** C6.  The [moodLevel] of every record of a run is the sum of the
    claim, added in binary64 from left to right as lines 117-119 add it,
    rounded to the nearest integer (ties to even) and then clamped into
    [1,5].  The terms are the variables of the record's iteration: the
    medication effect of the day and of the record's dose, the carried
    sleep and mood (6.5 and 2 on the first day, [sleep_hours] and
    [mood_level] of the iteration before on the others), and the
    exercise, daylight and substance values before the record rounds them
    to one decimal.  The noise is [uniform(-0.3, 0.3)] of the third draw
    from the end of the iteration, and lies in [-0.3, 0.3]. *)
Theorem C6_mood_level_binary64 (now num_days : Z) (g : rng_state)
    (rows : list record) (i : nat) (r : record) :
  unit_draws (stream g) ->
  fst (generate_realistic_data now num_days g) = Ok rows ->
  nth_error rows i = Some r ->
  let start_date := now - num_days in
  let l := locals_at start_date i g in
  moodLevel r
  = round_then_clamp 1 5
      (moodSum (med_effect l) (previous_sleep_at start_date i g)
         (exercise_minutes l) (daylight_minutes l) (substance_amount l)
         (dayOfWeek r) (previous_mood_at start_date i g) (mood_noise l)) /\
  (exists k : nat,
     S (S (S k)) = cursor (snd (state_before start_date (S i) g)) /\
     mood_noise l
     = uniform_of (PyFloat (-0.3)) (PyFloat 0.3) (PyFloat (stream g k))) /\
  (-0.3 <=? to_float (mood_noise l))%float = true /\
  (to_float (mood_noise l) <=? 0.3)%float = true /\
  med_effect l = medEffect (Z.of_nat i) (medicationTaken r) /\
  match i with
  | O => previous_sleep_at start_date i g = PyFloat 6.5 /\
         previous_mood_at start_date i g = 2
  | S j => previous_sleep_at start_date i g
           = sleep_hours (locals_at start_date j g) /\
           previous_mood_at start_date i g
           = mood_level (locals_at start_date j g)
  end /\
  exerciseMinutes r = py_round1 (exercise_minutes l) /\
  daylightMinutes r = py_round1 (daylight_minutes l) /\
  substanceAmount r = py_round1 (substance_amount l).
Proof.
  intros Hu Hrows Hnth. cbn zeta.
  destruct (rows_nth_b64 _ _ _ _ _ _ Hrows Hnth) as [_ ->].
  destruct (mood_of_iteration (now - num_days) i g)
    as ((k & Hk & Hn) & Hm & Hl & _).
  unfold row_at.
  cbn [moodLevel dayOfWeek medicationTaken exerciseMinutes daylightMinutes
       substanceAmount make_row].
  split; [now rewrite Hl, Hm |].
  split; [now exists k |].
  destruct (Hu k) as [H0 H1].
  destruct (mood_noise_range (stream g k) H0 H1) as [Lo Hi].
  rewrite Hn in *.
  split; [exact Lo |]. split; [exact Hi |].
  split; [apply medication_of_iteration |].
  split; [| repeat split].
  destruct i as [| j].
  - split; reflexivity.
  - destruct (frame_after_b64 (now - num_days) j g) as (Hs & Hp & _).
    split; assumption.
Qed.

Lemma C6_mood_level_binary64_witness :
  exists rows r,
    fst (generate_realistic_data 739811 2 (seeded sixteenths)) = Ok rows /\
    nth_error rows 1 = Some r /\
    moodLevel r = 3 /\
    let l := locals_at 739809 1 (seeded sixteenths) in
    moodLevel r
    = round_then_clamp 1 5
        (moodSum (med_effect l) (previous_sleep_at 739809 1 (seeded sixteenths))
           (exercise_minutes l) (daylight_minutes l) (substance_amount l)
           (dayOfWeek r) (previous_mood_at 739809 1 (seeded sixteenths))
           (mood_noise l)) /\
    (exists k : nat,
       S (S (S k)) = cursor (snd (state_before 739809 2 (seeded sixteenths))) /\
       mood_noise l
       = uniform_of (PyFloat (-0.3)) (PyFloat 0.3) (PyFloat (sixteenths k))) /\
    (-0.3 <=? to_float (mood_noise l))%float = true /\
    (to_float (mood_noise l) <=? 0.3)%float = true /\
    med_effect l = medEffect 1 (medicationTaken r) /\
    (previous_sleep_at 739809 1 (seeded sixteenths)
     = sleep_hours (locals_at 739809 0 (seeded sixteenths)) /\
     previous_mood_at 739809 1 (seeded sixteenths)
     = mood_level (locals_at 739809 0 (seeded sixteenths))) /\
    exerciseMinutes r = py_round1 (exercise_minutes l) /\
    daylightMinutes r = py_round1 (daylight_minutes l) /\
    substanceAmount r = py_round1 (substance_amount l).
Proof.
  do 2 eexists. split; [vm_compute; reflexivity |].
  split; [reflexivity |]. split; [reflexivity |].
  eapply (C6_mood_level_binary64 739811 2 (seeded sixteenths) _ 1%nat).
  - exact sixteenths_unit.
  - vm_compute. reflexivity.
  - reflexivity.
Defined.

(** C7.  The [sleepQuality] of every record of a run is
    [(sleep_hours / 8.0) * 5] plus the noise, computed in binary64,
    clamped into [1,5] as a float and only then truncated toward zero;
    the noise is [uniform(-1, 1)] of the third draw of the sleep block and
    lies in [-1, 1].  [moodLevel], [anxietyLevel] and [anhedoniaLevel]
    are rounded to the nearest integer first and clamped afterwards.
    Truncation is not rounding: 6 hours and no noise give 3, where
    rounding the same value gives 4. *)
Theorem C7_sleep_quality_truncates_binary64 (now num_days : Z)
    (g : rng_state) (rows : list record) (i : nat) (r : record) :
  unit_draws (stream g) ->
  fst (generate_realistic_data now num_days g) = Ok rows ->
  nth_error rows i = Some r ->
  let start_date := now - num_days in
  let l := locals_at start_date i g in
  let first := cursor (snd (state_before start_date i g)) in
  let k := if medication_start_day <=? Z.of_nat i
           then S (S (S first)) else S (S first) in
  sleepQuality r
  = clamp_then_truncate 1 5
      (to_float ((sleep_hours l / PyFloat 8.0) * PyInt 5
                 + quality_noise l)%b64) /\
  quality_noise l
  = uniform_of (PyInt (-1)) (PyInt 1) (PyFloat (stream g k)) /\
  (-1 <=? to_float (quality_noise l))%float = true /\
  (to_float (quality_noise l) <=? 1)%float = true /\
  sleepHours r = py_round1 (sleep_hours l) /\
  moodLevel r = round_then_clamp 1 5 (mood l) /\
  anxietyLevel r = round_then_clamp 0 4 (anxiety l) /\
  anhedoniaLevel r = round_then_clamp 0 4 (anhedonia l) /\
  sleep_quality_of (PyFloat 6.0) (PyFloat 0.0) = 3 /\
  round_then_clamp 1 5
    ((PyFloat 6.0 / PyFloat 8.0) * PyInt 5 + PyFloat 0.0)%b64 = 4.
Proof.
  intros Hu Hrows Hnth. cbn zeta.
  destruct (rows_nth_b64 _ _ _ _ _ _ Hrows Hnth) as [_ ->].
  destruct (quality_of_iteration (now - num_days) i g) as [Hn Hq].
  cbn zeta in Hn.
  destruct (mood_of_iteration (now - num_days) i g)
    as (_ & _ & Hl & Ha & Hh).
  unfold row_at.
  cbn [sleepQuality sleepHours moodLevel anxietyLevel anhedoniaLevel make_row].
  split; [exact Hq |]. split; [exact Hn |].
  match type of Hn with
  | _ = uniform_of _ _ (PyFloat (stream g ?k)) =>
      destruct (Hu k) as [H0 H1];
      destruct (quality_noise_range (stream g k) H0 H1) as [Lo Hi]
  end.
  rewrite Hn.
  repeat split; try assumption; reflexivity.
Qed.

Lemma C7_sleep_quality_truncates_binary64_witness :
  exists rows r,
    fst (generate_realistic_data 739811 2 (seeded sixteenths)) = Ok rows /\
    nth_error rows 1 = Some r /\
    sleepQuality r = 5 /\
    let l := locals_at 739809 1 (seeded sixteenths) in
    let first := cursor (snd (state_before 739809 1 (seeded sixteenths))) in
    let k := if medication_start_day <=? Z.of_nat 1
             then S (S (S first)) else S (S first) in
    sleepQuality r
    = clamp_then_truncate 1 5
        (to_float ((sleep_hours l / PyFloat 8.0) * PyInt 5
                   + quality_noise l)%b64) /\
    quality_noise l
    = uniform_of (PyInt (-1)) (PyInt 1) (PyFloat (sixteenths k)) /\
    (-1 <=? to_float (quality_noise l))%float = true /\
    (to_float (quality_noise l) <=? 1)%float = true /\
    sleepHours r = py_round1 (sleep_hours l) /\
    moodLevel r = round_then_clamp 1 5 (mood l) /\
    anxietyLevel r = round_then_clamp 0 4 (anxiety l) /\
    anhedoniaLevel r = round_then_clamp 0 4 (anhedonia l) /\
    sleep_quality_of (PyFloat 6.0) (PyFloat 0.0) = 3 /\
    round_then_clamp 1 5
      ((PyFloat 6.0 / PyFloat 8.0) * PyInt 5 + PyFloat 0.0)%b64 = 4.
Proof.
  do 2 eexists. split; [vm_compute; reflexivity |].
  split; [reflexivity |]. split; [reflexivity |].
  eapply (C7_sleep_quality_truncates_binary64 739811 2 (seeded sixteenths)
            _ 1%nat).
  - exact sixteenths_unit.
  - vm_compute. reflexivity.
  - reflexivity.
Defined.

End Binary64Claims.

(** ** The writer *)

Section WriterFacts.

Variables (rows : list record) (filename : string) (w : world).

Lemma put_same (fs : filesystem) (name content : string) :
  put fs name content name = Some content.
Proof. unfold put. now rewrite String.eqb_refl. Qed.

(** A write that completes leaves the whole text in the file. *)
Lemma write_file_ok (flt : fault) :
  fst (write_file flt (csv_writes rows) filename (files w)) = Ok tt ->
  snd (write_file flt (csv_writes rows) filename (files w)) filename
  = Some (String.concat "" (csv_writes rows)).
Proof.
  destruct flt as [| | k |]; cbn [write_file fst snd]; try discriminate.
  - intros _. apply put_same.
  - destruct (k <? List.length (csv_writes rows))%nat; cbn [fst snd];
      [discriminate | intros _; apply put_same].
Qed.

Lemma save_to_csv_failed_write (flt : fault) (e : exn) :
  fst (write_file flt (csv_writes rows) filename (files w)) = Raise e ->
  fst (save_to_csv flt rows filename w) = Raise e
  /\ console (snd (save_to_csv flt rows filename w)) = console w.
Proof.
  unfold save_to_csv.
  destruct (write_file flt (csv_writes rows) filename (files w))
    as [[u | e'] fs]; cbn [fst snd].
  - discriminate.
  - intros [= ->]. split; reflexivity.
Qed.

Lemma save_to_csv_files (flt : fault) :
  files (snd (save_to_csv flt rows filename w))
  = snd (write_file flt (csv_writes rows) filename (files w)).
Proof.
  unfold save_to_csv.
  destruct (write_file flt (csv_writes rows) filename (files w))
    as [[u | e'] fs]; cbn [fst snd]; [| reflexivity].
  destruct (Z.of_nat (List.length rows) - 90 =? 0); reflexivity.
Qed.

(** What [save_to_csv] prints when the write completes. *)
Lemma save_to_csv_console :
  let printed :=
    [GeneratedDays (List.length rows); SavedTo filename] in
  let before := (PyInt (sum_mood (firstn 60 rows)) / PyInt 60)%py in
  let divisor := Z.of_nat (List.length rows) - 90 in
  let after := (PyInt (sum_mood (skipn 90 rows)) / PyInt divisor)%py in
  (divisor = 0 ->
   save_to_csv NoFault rows filename w
   = (Raise ZeroDivisionError,
      {| console := console w ++ printed;
         files := put (files w) filename
                    (String.concat "" (csv_writes rows)) |})) /\
  (divisor <> 0 ->
   save_to_csv NoFault rows filename w
   = (Ok tt,
      {| console :=
           console w ++ printed
           ++ [StatisticsHeader; DaysOnMedication (count_medicated rows);
               AvgMoodBefore before; AvgMoodAfter after;
               MoodImprovement (after - before)%py];
         files := put (files w) filename
                    (String.concat "" (csv_writes rows)) |})).
Proof.
  cbn zeta. unfold save_to_csv. cbn [write_file].
  split; intro H.
  - rewrite H. cbn [Z.eqb]. unfold print. cbn [console files].
    now rewrite <- app_assoc.
  - apply Z.eqb_neq in H. rewrite H. unfold print. cbn [console files].
    now rewrite <- !app_assoc.
Qed.

End WriterFacts.

Section Means.

Lemma sum_mood_acc (l : list record) (acc : Z) :
  fold_left (fun a d => a + moodLevel d) l acc = acc + sum_mood l.
Proof.
  unfold sum_mood. revert acc.
  induction l as [| d l IH]; intro acc; cbn [fold_left].
  - lia.
  - rewrite (IH (acc + moodLevel d)), (IH (0 + moodLevel d)). lia.
Qed.

Lemma sum_mood_cons (d : record) (l : list record) :
  sum_mood (d :: l) = moodLevel d + sum_mood l.
Proof. unfold sum_mood at 1. cbn [fold_left]. now rewrite sum_mood_acc. Qed.

(** Moods of at least 1 add up to at least the number of records. *)
Lemma sum_mood_lower (l : list record) :
  Forall (fun d => 1 <= moodLevel d) l ->
  Z.of_nat (List.length l) <= sum_mood l.
Proof.
  induction 1 as [| d l Hd _ IH].
  - reflexivity.
  - rewrite sum_mood_cons. cbn [List.length]. lia.
Qed.

Lemma quotients_differ (a m n : Z) :
  0 < a -> 0 < m -> 0 < n -> m <> n ->
  ~ (inject_Z a / inject_Z m == inject_Z a / inject_Z n)%Q.
Proof.
  intros Ha Hm Hn Hmn E. apply Hmn.
  assert (Hm' : ~ (inject_Z m == 0)%Q).
  { intro H. change 0%Q with (inject_Z 0) in H.
    apply (proj1 (inject_Z_injective m 0)) in H. lia. }
  assert (Hn' : ~ (inject_Z n == 0)%Q).
  { intro H. change 0%Q with (inject_Z 0) in H.
    apply (proj1 (inject_Z_injective n 0)) in H. lia. }
  assert (E' : (inject_Z a * inject_Z n == inject_Z a * inject_Z m)%Q).
  { transitivity
      ((inject_Z a / inject_Z m) * (inject_Z m * inject_Z n))%Q;
      [field; exact Hm' |].
    rewrite E. field. exact Hn'. }
  rewrite <- !inject_Z_mult in E'.
  apply (proj1 (inject_Z_injective (a * n) (a * m))) in E'. nia.
Qed.

End Means.

Lemma mean_mood_some (l : list record) :
  l <> [] ->
  mean_mood l
  = Some (inject_Z (sum_mood l) / inject_Z (Z.of_nat (List.length l)))%Q.
Proof. destruct l; [congruence | reflexivity]. Qed.

(** C9.  When the [with open(...)] block raises, [save_to_csv] raises the
    same error and prints nothing; in any run in which [save_to_csv] has
    printed a line, the block had completed and the file holds the whole
    table. *)
Theorem C9_no_summary_after_failed_write (flt : fault) (rows : list record)
    (filename : string) (w : world) :
  (forall e,
     fst (write_file flt (csv_writes rows) filename (files w)) = Raise e ->
     fst (save_to_csv flt rows filename w) = Raise e /\
     console (snd (save_to_csv flt rows filename w)) = console w) /\
  (console (snd (save_to_csv flt rows filename w)) <> console w ->
   fst (write_file flt (csv_writes rows) filename (files w)) = Ok tt /\
   files (snd (save_to_csv flt rows filename w)) filename
   = Some (String.concat "" (csv_writes rows))).
Proof.
  split.
  - intros e H. now apply save_to_csv_failed_write.
  - intro Hprinted.
    destruct (fst (write_file flt (csv_writes rows) filename (files w)))
      as [[] | e] eqn:E.
    + split; [reflexivity |].
      rewrite save_to_csv_files. now apply write_file_ok.
    + exfalso. apply Hprinted.
      now apply (save_to_csv_failed_write rows filename w flt e).
Qed.

Lemma C9_no_summary_after_failed_write_witness :
  (fst (save_to_csv (WriteFails 1) [sample_record] default_filename
          empty_world) = Raise OSError /\
   console (snd (save_to_csv (WriteFails 1) [sample_record] default_filename
                   empty_world)) = []) /\
  (fst (write_file NoFault (csv_writes [sample_record]) default_filename
          (files empty_world)) = Ok tt /\
   files (snd (save_to_csv NoFault [sample_record] default_filename
                 empty_world)) default_filename
   = Some (String.concat "" (csv_writes [sample_record]))).
Proof.
  split.
  - apply (proj1 (C9_no_summary_after_failed_write (WriteFails 1)
                    [sample_record] default_filename empty_world)).
    reflexivity.
  - apply (proj2 (C9_no_summary_after_failed_write NoFault
                    [sample_record] default_filename empty_world)).
    vm_compute. discriminate.
Defined.

(** The script stops at the failed write: the title and the rule are all
    it has printed. *)
Lemma script_failed_write (num_days now : Z) (flt : fault) (g : rng_state)
    (w : world) (rows : list record) (e : exn) :
  fst (generate_realistic_data now num_days g) = Ok rows ->
  fst (write_file flt (csv_writes rows) default_filename (files w))
    = Raise e ->
  fst (script num_days now flt g w) = Raise e /\
  console (snd (script num_days now flt g w)) = console w ++ [Title; Rule].
Proof.
  intros Hrows Hfail. unfold script. rewrite Hrows.
  destruct (save_to_csv_failed_write rows default_filename
              (print Rule (print Title w)) flt e Hfail) as [H1 H2].
  destruct (save_to_csv flt rows default_filename _) as [[u | e'] w'];
    cbn [fst snd] in *; [discriminate |].
  split; [congruence |].
  rewrite H2. unfold print. cbn [console]. now rewrite <- app_assoc.
Qed.

(** C10.  With exactly 90 records the statistics divide by zero and
    [save_to_csv] raises after the file is written; with fewer than 60
    records (of mood at least 1) the printed "before" average is the sum
    over 60 and is not the mean of the records; with fewer than 90 records
    the "after" average is 0 over a negative count, the mean of no record;
    with more than 90 records both divisors are nonzero, nothing fails,
    and the two averages are the means of the first 60 records and of the
    records from index 90. *)
Theorem C10_summary_statistics_divisions (rows : list record)
    (filename : string) (w : world) :
  (List.length rows = 90%nat ->
   fst (save_to_csv NoFault rows filename w) = Raise ZeroDivisionError) /\
  ((List.length rows < 60)%nat ->
   Forall (fun d => 1 <= moodLevel d) rows ->
   exists before after : num,
     save_to_csv NoFault rows filename w
     = (Ok tt,
        {| console :=
             console w
             ++ [GeneratedDays (List.length rows); SavedTo filename]
             ++ [StatisticsHeader; DaysOnMedication (count_medicated rows);
                 AvgMoodBefore before; AvgMoodAfter after;
                 MoodImprovement (after - before)%py];
           files := put (files w) filename
                      (String.concat "" (csv_writes rows)) |}) /\
     (val before == inject_Z (sum_mood rows) / 60)%Q /\
     forall m, mean_mood (firstn 60 rows) = Some m -> ~ (val before == m)%Q) /\
  ((List.length rows < 90)%nat ->
   mean_mood (skipn 90 rows) = None /\
   exists before after : num,
     save_to_csv NoFault rows filename w
     = (Ok tt,
        {| console :=
             console w
             ++ [GeneratedDays (List.length rows); SavedTo filename]
             ++ [StatisticsHeader; DaysOnMedication (count_medicated rows);
                 AvgMoodBefore before; AvgMoodAfter after;
                 MoodImprovement (after - before)%py];
           files := put (files w) filename
                      (String.concat "" (csv_writes rows)) |}) /\
     (val after == 0)%Q) /\
  ((90 < List.length rows)%nat ->
   Z.of_nat (List.length rows) - 90 <> 0 /\ 60 <> 0 /\
   exists before after : num,
     save_to_csv NoFault rows filename w
     = (Ok tt,
        {| console :=
             console w
             ++ [GeneratedDays (List.length rows); SavedTo filename]
             ++ [StatisticsHeader; DaysOnMedication (count_medicated rows);
                 AvgMoodBefore before; AvgMoodAfter after;
                 MoodImprovement (after - before)%py];
           files := put (files w) filename
                      (String.concat "" (csv_writes rows)) |}) /\
     mean_mood (firstn 60 rows) = Some (val before) /\
     mean_mood (skipn 90 rows) = Some (val after)).
Proof.
  destruct (save_to_csv_console rows filename w) as [Hzero Hnonzero].
  split; [| split; [| split]].
  - intro H. rewrite Hzero by lia. reflexivity.
  - intros Hlen Hmood. do 2 eexists.
    split; [apply Hnonzero; lia |].
    rewrite firstn_all2 by lia.
    split; [reflexivity |].
    intros m Hm. destruct rows as [| d rest] eqn:Erows; [discriminate |].
    rewrite <- Erows in *.
    rewrite mean_mood_some in Hm by (rewrite Erows; discriminate).
    injection Hm as <-. cbn [val truediv].
    pose proof (sum_mood_lower rows Hmood) as Hsum.
    assert (Hpos : (0 < List.length rows)%nat)
      by (rewrite Erows; cbn; lia).
    apply (quotients_differ (sum_mood rows) 60
             (Z.of_nat (List.length rows))); lia.
  - intro Hlen.
    assert (E : skipn 90 rows = []) by (apply skipn_all2; lia).
    split; [now rewrite E |]. do 2 eexists.
    split; [apply Hnonzero; lia |].
    rewrite E. cbn [val truediv sum_mood fold_left]. unfold Qdiv.
    apply Qmult_0_l.
  - intro Hlen. split; [lia |]. split; [lia |]. do 2 eexists.
    split; [apply Hnonzero; lia |].
    split.
    + rewrite mean_mood_some.
      * rewrite length_firstn, Nat.min_l by lia. reflexivity.
      * intro E. apply (f_equal (@List.length record)) in E.
        rewrite length_firstn, Nat.min_l in E by lia. discriminate.
    + rewrite mean_mood_some.
      * rewrite length_skipn. cbn [val truediv].
        rewrite Nat2Z.inj_sub by lia. reflexivity.
      * intro E. apply (f_equal (@List.length record)) in E.
        rewrite length_skipn in E. cbn in E. lia.
Qed.

Lemma C10_summary_statistics_divisions_witness :
  fst (save_to_csv NoFault (repeat sample_record 90) default_filename
         empty_world) = Raise ZeroDivisionError
  /\ (exists before after : num,
        fst (save_to_csv NoFault (repeat sample_record 3) default_filename
               empty_world) = Ok tt /\
        In (AvgMoodBefore before)
           (console (snd (save_to_csv NoFault (repeat sample_record 3)
                            default_filename empty_world))) /\
        (val before == 9 / 60)%Q /\
        ~ (val before == 9 / 3)%Q)
  /\ (exists before after : num,
        fst (save_to_csv NoFault (repeat sample_record 75) default_filename
               empty_world) = Ok tt /\
        In (AvgMoodAfter after)
           (console (snd (save_to_csv NoFault (repeat sample_record 75)
                            default_filename empty_world))) /\
        (val after == 0)%Q)
  /\ (exists before after : num,
        fst (save_to_csv NoFault (repeat sample_record 91) default_filename
               empty_world) = Ok tt /\
        mean_mood (firstn 60 (repeat sample_record 91)) = Some (val before) /\
        mean_mood (skipn 90 (repeat sample_record 91)) = Some (val after)).
Proof.
  split; [| split; [| split]].
  - apply (proj1 (C10_summary_statistics_divisions
                    (repeat sample_record 90) default_filename empty_world)).
    reflexivity.
  - destruct (proj1 (proj2 (C10_summary_statistics_divisions
                              (repeat sample_record 3) default_filename
                              empty_world)))
      as (before & after & Hrun & Hsum & Hmean).
    + cbn. lia.
    + repeat constructor; cbn; lia.
    + exists before, after. rewrite Hrun. cbn [fst snd console].
      repeat split.
      * cbn. auto 10.
      * exact Hsum.
      * apply Hmean. reflexivity.
  - destruct (proj1 (proj2 (proj2 (C10_summary_statistics_divisions
                                     (repeat sample_record 75)
                                     default_filename empty_world))))
      as (_ & before & after & Hrun & Hzero).
    + rewrite repeat_length. lia.
    + exists before, after. rewrite Hrun. cbn [fst snd console].
      repeat split.
      * cbn. auto 10.
      * exact Hzero.
  - destruct (proj2 (proj2 (proj2 (C10_summary_statistics_divisions
                                     (repeat sample_record 91)
                                     default_filename empty_world))))
      as (_ & _ & before & after & Hrun & Hb & Ha).
    + rewrite repeat_length. lia.
    + exists before, after. rewrite Hrun. repeat split; assumption.
Defined.

(** * Further properties of the generator and of the writer *)

(** ** Numbers *)

Section MoreNumFacts.

Local Open Scope Q_scope.

(** A value below [m + 1/2] rounds to at most [m]; a value above
    [m - 1/2] rounds to at least [m]. *)
Lemma round_half_even_upper (m : Z) (q : Q) :
  q < inject_Z m + (1 # 2) -> (round_half_even q <= m)%Z.
Proof.
  intro H. destruct (round_half_even_near q) as [_ Hn].
  assert (Hlt : inject_Z (round_half_even q) < inject_Z (m + 1)).
  { rewrite inject_Z_plus. change (inject_Z 1) with 1. lra. }
  rewrite <- Zlt_Qlt in Hlt. lia.
Qed.

Lemma round_half_even_lower (m : Z) (q : Q) :
  inject_Z m - (1 # 2) < q -> (m <= round_half_even q)%Z.
Proof.
  intro H. destruct (round_half_even_near q) as [Hn _].
  assert (Hlt : inject_Z (m - 1) < inject_Z (round_half_even q)).
  { unfold Z.sub. rewrite inject_Z_plus, inject_Z_opp.
    change (inject_Z 1) with 1. lra. }
  rewrite <- Zlt_Qlt in Hlt. lia.
Qed.

(** [max(lo, min(hi, x))] is the clamp of the value into [[lo, hi]]. *)
Lemma clamp_max_min_val (lo hi x : num) :
  val lo <= val hi ->
  val (py_max lo (py_min hi x)) == Spec.clamp (val lo) (val hi) (val x).
Proof.
  intro Hlh. unfold Spec.clamp.
  destruct (Q.min_spec (val hi) (val x)) as [[H1 E1] | [H1 E1]];
    rewrite E1;
    match goal with
    | |- _ == Qmax ?a ?b =>
        destruct (Q.max_spec a b) as [[H2 E2] | [H2 E2]]; rewrite E2
    end;
    destruct (py_min_cases hi x) as [[Hx H3] | [Hx H3]]; rewrite Hx;
    case_max; lra.
Qed.

(** A clamp leaves a value of the interval as it is, type included. *)
Lemma clamp_max_min_inside (lo hi x : num) :
  val lo < val x -> val x < val hi -> py_max lo (py_min hi x) = x.
Proof.
  intros H1 H2.
  destruct (py_min_cases hi x) as [[-> H3] | [-> H3]]; [| lra].
  destruct (py_max_cases lo x) as [[-> H4] | [-> H4]]; [reflexivity | lra].
Qed.

Lemma clamp_lower (lo hi a x : Q) :
  a <= x -> a <= hi -> a <= Spec.clamp lo hi x.
Proof.
  intros H1 H2. unfold Spec.clamp.
  destruct (Q.min_spec hi x) as [[H3 E3] | [H3 E3]];
    destruct (Q.max_spec lo (Qmin hi x)) as [[H4 E4] | [H4 E4]];
    rewrite E4; rewrite ?E3 in *; lra.
Qed.

Lemma clamp_upper (lo hi x : Q) : lo <= hi -> Spec.clamp lo hi x <= hi.
Proof.
  intros H1. unfold Spec.clamp.
  destruct (Q.min_spec hi x) as [[H3 E3] | [H3 E3]];
    destruct (Q.max_spec lo (Qmin hi x)) as [[H4 E4] | [H4 E4]];
    rewrite E4; rewrite ?E3 in *; lra.
Qed.

Lemma medEffect_bounds (day mt : Z) :
  0 <= Spec.medEffect day mt <= 1.5.
Proof.
  unfold Spec.medEffect, Spec.daysOnMeds.
  assert (Hd : 0 <= inject_Z (Z.max 0 (day - medication_start_day))).
  { change 0 with (inject_Z 0). rewrite <- Zle_Qle. lia. }
  destruct (medication_start_day <=? day)%Z; cbn [andb];
    [| destruct (mt =? 0)%Z; lra].
  destruct (mt =? 1)%Z; destruct (mt =? 0)%Z;
    match goal with
    | |- context [Qmin ?a ?b] =>
        destruct (Q.min_spec a b) as [[H E] | [H E]]; rewrite E
    end;
    eval_literals; lra.
Qed.

(** From day 90 on, a dose taken has the full effect. *)
Lemma medEffect_full (day : Z) :
  (90 <= day)%Z -> Spec.medEffect day 1 == 1.5.
Proof.
  intro H. unfold Spec.medEffect, Spec.daysOnMeds, medication_start_day.
  assert (E : (60 <=? day)%Z = true) by (apply Z.leb_le; lia).
  rewrite E. cbn [Z.eqb Pos.eqb andb].
  assert (Hd : 30 <= inject_Z (Z.max 0 (day - 60))).
  { change 30 with (inject_Z 30). rewrite <- Zle_Qle. lia. }
  apply Q.min_l. eval_literals. lra.
Qed.

End MoreNumFacts.

(** ** Sharper facts about the blocks *)

Section TightBlocks.

Local Open Scope Q_scope.

Lemma truncate_lower (m : Z) (x : Q) :
  (0 <= m)%Z -> inject_Z m <= x -> (m <= Spec.truncate x)%Z.
Proof.
  intros Hm Hx. unfold Spec.truncate.
  assert (H0 : 0 <= x).
  { eapply Qle_trans; [| exact Hx].
    change 0 with (inject_Z 0). now rewrite <- Zle_Qle. }
  apply Qle_bool_iff in H0. rewrite H0.
  apply Qfloor_resp_le in Hx. now rewrite Qfloor_Z in Hx.
Qed.

Lemma medication_block_range (day : Z) (s : rng_state) mt dm me s1 :
  medication_block day s = (mt, dm, me, s1) ->
  (mt = 0 \/ mt = 1)%Z /\
  0 <= val me <= 1.5 /\
  (mt = 0%Z -> val me == 0) /\
  (mt = 1%Z -> (90 <= day)%Z -> val me == 1.5).
Proof.
  intro H. apply medication_block_spec in H.
  destruct H as (Hmt & _ & _ & He).
  split; [exact Hmt |]. split; [| split].
  - rewrite He. apply medEffect_bounds.
  - intros ->. rewrite He. apply missed_dose_has_no_effect.
  - intros -> Hday. rewrite He. now apply medEffect_full.
Qed.

Lemma sleep_block_tight (w : bool) (m : num) (s : rng_state) bs sh sq s2 :
  unit_draws (stream s) -> 0 <= val m <= 1.5 ->
  sleep_block w m s = (bs, sh, sq, s2) ->
  5.5 <= val sh /\ (w = true -> 7.0 <= val sh) /\ (2 <= sq)%Z.
Proof.
  intros Hu Hm Hrun.
  pose proof (sleep_block_spec _ _ _ _ _ _ _ Hrun) as (_ & Hhi & Hsq).
  pose proof (Hu (cursor s)) as [Ha0 Ha1].
  pose proof (Hu (S (cursor s))) as [Hb0 Hb1].
  pose proof (Hu (S (S (cursor s)))) as [Hc0 Hc1].
  assert (Hsh : 5.5 <= val sh /\ (w = true -> 7.0 <= val sh)).
  { revert Hrun. unfold sleep_block, bind.
    destruct w; rewrite !uniform_run; unfold ret; cbn [stream cursor];
      intro_tuple; rewrite clamp_max_min_val by (cbn; qlra).
    - split; [| intros _]; apply clamp_lower; push_val; qlra.
    - split; [| discriminate]; apply clamp_lower; push_val; qlra. }
  split; [tauto |]. split; [tauto |].
  rewrite Hsq, sleep_quality_of_spec. apply truncate_lower; [lia |].
  apply clamp_lower; [| qlra].
  cbn [val]. unfold Spec.uniform_of. destruct Hsh as [Hsh _]. qlra.
Qed.

Lemma daylight_block_tight (w : bool) (d : Z) (s : rng_state)
    mo sf bd dm s4 :
  unit_draws (stream s) ->
  daylight_block w d s = (mo, sf, bd, dm, s4) ->
  (exists q, dm = PyFloat q) /\ 25.2 <= val dm <= 270.
Proof.
  intros Hu. pose proof (Hu (cursor s)) as [H0 H1].
  unfold daylight_block, bind. rewrite uniform_run. unfold ret.
  intro_tuple.
  destruct ((5 <=? month_of d)%Z && (month_of d <=? 8)%Z); destruct w;
    (rewrite clamp_max_min_inside;
     [ split; [eexists; cbn [add sub mul]; reflexivity | push_val; qlra]
     | push_val; qlra | push_val; qlra ]).
Qed.

Lemma substance_block_tight (w : bool) (s : rng_state) sa s5 :
  unit_draws (stream s) ->
  substance_block w s = (sa, s5) ->
  sa = PyInt 0 \/
  exists q, sa = PyFloat q /\ 100 <= q <= 1000 /\ (w = false -> q <= 400).
Proof.
  intros Hu.
  pose proof (Hu (S (cursor s))) as [Ha0 Ha1].
  pose proof (Hu (S (S (cursor s)))) as [Hb0 Hb1].
  pose proof (Hu (S (S (S (cursor s))))) as [Hc0 Hc1].
  unfold substance_block, bind. cbn [random fst snd].
  destruct (PyFloat (stream s (cursor s)) <? PyFloat 0.7)%py;
    destruct w; rewrite ?uniform_run; unfold ret; cbn [random stream cursor];
    try match goal with
    | |- context [if lt ?a ?b then _ else _] => destruct (lt a b)
    end;
    rewrite ?uniform_run; cbn [stream cursor]; intro_tuple;
    try (left; reflexivity);
    right; eexists; (split; [cbn [add sub mul]; reflexivity |]);
    (split; [| intro; try discriminate]); qlra.
Qed.

Lemma anhedonia_block_tight (me sh em : num) (s : rng_state) a al :
  unit_draws (stream s) ->
  0 <= val me -> 0 <= val em <= 60 -> 5.5 <= val sh <= 10 ->
  fst (anhedonia_block me sh em s) = (a, al) ->
  (al <= 3)%Z /\ (val me == 0 -> (1 <= al)%Z).
Proof.
  intros Hu Hme Hem Hsh. pose proof (Hu (cursor s)) as [H0 H1].
  unfold anhedonia_block, bind. rewrite uniform_run. unfold ret; cbn [fst].
  intro_tuple. rewrite clamp_int. cbn [add py_round].
  match goal with
  | |- context [round_half_even ?q] => set (x := q)
  end.
  assert (Hx : val (PyFloat x)
               == 2.5 - val me * 0.7 - val em / 60 * 0.4
                  + (7 - val sh) * 0.2
                  + (- 0.3 + 0.6 * stream s (cursor s))).
  { subst x. push_val. qlra. }
  cbn [val] in Hx. split.
  - assert (Hr : (round_half_even x <= 3)%Z)
      by (apply round_half_even_upper; rewrite Hx; qlra).
    unfold Spec.clampZ. lia.
  - intro Hz.
    assert (Hr : (1 <= round_half_even x)%Z)
      by (apply round_half_even_lower; rewrite Hx; qlra).
    unfold Spec.clampZ. lia.
Qed.

Lemma anxiety_block_tight (me sh em sa : num) (s : rng_state) a al s7 :
  unit_draws (stream s) ->
  val me == 0 -> 0 <= val em <= 60 -> 5.5 <= val sh <= 10 -> 0 <= val sa ->
  anxiety_block me sh em sa s = (a, al, s7) ->
  (1 <= al)%Z.
Proof.
  intros Hu Hme Hem Hsh Hsa. pose proof (Hu (cursor s)) as [H0 H1].
  unfold anxiety_block, bind. rewrite uniform_run. unfold ret.
  intro_tuple. rewrite clamp_int. unfold baseline_anxiety.
  cbn [add py_round].
  match goal with
  | |- context [round_half_even ?q] => set (x := q)
  end.
  assert (Hx : val (PyFloat x)
               == 3.0 - val me * 0.8 + (7 - val sh) * 0.3
                  - val em / 60 * 0.5 + val sa / 500 * 0.5
                  + (- 0.4 + 0.8 * stream s (cursor s))).
  { subst x. push_val. qlra. }
  cbn [val] in Hx.
  assert (Hr : (1 <= round_half_even x)%Z)
    by (apply round_half_even_lower; rewrite Hx; qlra).
  unfold Spec.clampZ. lia.
Qed.

End TightBlocks.

(** ** Sharper facts about every day of a run *)

Section RunFacts.

Local Open Scope Q_scope.

Variable start_date : Z.
Variable i : nat.
Variable g : rng_state.

Local Notation "'this_day'" := (locals_at start_date i g).

(** What holds of a day whatever the generator returns. *)
Lemma locals_at_calendar :
  day_of_week this_day = (weekday (start_date + Z.of_nat i) + 1)%Z /\
  is_weekend this_day
  = ((day_of_week this_day =? 1)%Z || (day_of_week this_day =? 7)%Z) /\
  (medication_taken this_day = 0 \/ medication_taken this_day = 1)%Z /\
  0 <= val (med_effect this_day) <= 1.5 /\
  (medication_taken this_day = 0%Z -> val (med_effect this_day) == 0) /\
  (medication_taken this_day = 1%Z -> (90 <= Z.of_nat i)%Z ->
   val (med_effect this_day) == 1.5).
Proof.
  unfold locals_at.
  destruct (state_before start_date i g) as [f s].
  destruct (day_body_blocks start_date (Z.of_nat i) (previous_sleep f)
              (previous_mood f) s)
    as (s1 & s2 & s3 & s4 & s5 & s6 & s7 & _ & _ & Hdow & _ & Hwe
        & Hmed & _).
  apply medication_block_range in Hmed.
  repeat split; try tauto.
Qed.

(** What holds of a day when the draws are those of [random()]. *)
Lemma locals_at_ranges :
  unit_draws (stream g) ->
  5.5 <= val (sleep_hours this_day) <= 10 /\
  (is_weekend this_day = true -> 7.0 <= val (sleep_hours this_day)) /\
  (2 <= sleep_quality this_day <= 5)%Z /\
  (exercise_minutes this_day = PyInt 0 \/
   exists q, exercise_minutes this_day = PyFloat q /\ 20 <= q < 60) /\
  ((exists q, daylight_minutes this_day = PyFloat q) /\
   25.2 <= val (daylight_minutes this_day) <= 270) /\
  (substance_amount this_day = PyInt 0 \/
   exists q, substance_amount this_day = PyFloat q /\ 100 <= q <= 1000 /\
             (is_weekend this_day = false -> q <= 400)) /\
  (anhedonia_level this_day <= 3)%Z /\
  (medication_taken this_day = 0%Z ->
   (1 <= anhedonia_level this_day)%Z /\ (1 <= anxiety_level this_day)%Z).
Proof.
  intro Hu.
  destruct locals_at_calendar as (_ & _ & _ & Hme & Hme0 & _).
  revert Hme Hme0. unfold locals_at.
  pose proof (stream_state_before start_date i g) as Hg.
  destruct (state_before start_date i g) as [f s]. cbn [snd] in Hg.
  destruct (day_body_blocks start_date (Z.of_nat i) (previous_sleep f)
              (previous_mood f) s)
    as (s1 & s2 & s3 & s4 & s5 & s6 & s7 & Hs & _ & _ & _ & _
        & _ & Hslp & Hex & Hdl & Hsub & _ & Hanx & Hanh).
  intros Hme Hme0.
  assert (Hall : forall t, In t [s1; s2; s3; s4; s5; s6; s7] ->
                           unit_draws (stream t)).
  { intros t Ht. rewrite (Hs t Ht), Hg. exact Hu. }
  pose proof (sleep_block_spec _ _ _ _ _ _ _ Hslp) as (_ & Hsh10 & Hsq).
  apply (sleep_block_tight _ _ _ _ _ _ _ (Hall s1 ltac:(cbn; auto 10)) Hme)
    in Hslp.
  apply (exercise_block_spec _ _ _ _ _ _ _ (Hall s2 ltac:(cbn; auto 10)))
    in Hex.
  apply (daylight_block_tight _ _ _ _ _ _ _ _ (Hall s3 ltac:(cbn; auto 10)))
    in Hdl.
  apply (substance_block_tight _ _ _ _ (Hall s4 ltac:(cbn; auto 10)))
    in Hsub.
  assert (Hem : 0 <= val (exercise_minutes
                           (fst (day_body start_date (Z.of_nat i)
                                   (previous_sleep f) (previous_mood f) s)))
                <= 60).
  { destruct Hex as [-> | (q & -> & Hq)]; cbn [val]; qlra. }
  assert (Hsa : 0 <= val (substance_amount
                           (fst (day_body start_date (Z.of_nat i)
                                   (previous_sleep f) (previous_mood f) s)))).
  { destruct Hsub as [-> | (q & -> & Hq & _)]; cbn [val]; qlra. }
  assert (Hsh : 5.5 <= val (sleep_hours
                             (fst (day_body start_date (Z.of_nat i)
                                     (previous_sleep f) (previous_mood f) s)))
                <= 10) by (split; tauto).
  apply (anhedonia_block_tight _ _ _ _ _ _ (Hall s7 ltac:(cbn; auto 10))
           (proj1 Hme) Hem Hsh) in Hanh.
  pose proof (sleep_quality_of_bounds
                (sleep_hours (fst (day_body start_date (Z.of_nat i)
                                     (previous_sleep f) (previous_mood f) s)))
                (PyFloat (Spec.uniform_of (inject_Z (-1)) (inject_Z 1)
                            (stream s1 (S (S (cursor s1))))))) as Hq5.
  rewrite <- Hsq in Hq5.
  destruct Hslp as (Hs55 & Hs7 & Hq2). destruct Hanh as [Hah3 Hah1].
  split; [tauto |]. split; [exact Hs7 |]. split; [lia |].
  split; [exact Hex |]. split; [exact Hdl |]. split; [exact Hsub |].
  split; [exact Hah3 |]. intro Hmt. split.
  - apply Hah1. now apply Hme0.
  - eapply anxiety_block_tight;
      [ exact (Hall s6 ltac:(cbn; auto 10)) | now apply Hme0
      | exact Hem | exact Hsh | exact Hsa | exact Hanx ].
Qed.

(** The fields of a row are the variables of its day. *)
Lemma row_at_fields :
  let r := row_at start_date i g in
  moodLevel r = mood_level this_day /\
  anxietyLevel r = anxiety_level this_day /\
  anhedoniaLevel r = anhedonia_level this_day /\
  sleepHours r = py_round1 (sleep_hours this_day) /\
  sleepQuality r = sleep_quality this_day /\
  daylightMinutes r = py_round1 (daylight_minutes this_day) /\
  exerciseMinutes r = py_round1 (exercise_minutes this_day) /\
  medicationTaken r = medication_taken this_day /\
  substanceAmount r = py_round1 (substance_amount this_day) /\
  dayOfWeek r = day_of_week this_day.
Proof. cbn zeta. repeat split. Qed.

End RunFacts.

(** ** Properties of the generated records *)

(** X1.  When the start date is a date, [generate_realistic_data] returns
    one record per day of [range(num_days)]: [num_days] records, none when
    [num_days] is not positive. *)
Theorem X1_one_record_per_day (now num_days : Z) (g : rng_state) :
  MINORDINAL <= now - num_days <= MAXORDINAL ->
  exists rows,
    fst (generate_realistic_data now num_days g) = Ok rows /\
    List.length rows = Z.to_nat num_days /\
    (num_days <= 0 -> rows = []).
Proof.
  intro H. eexists. split; [now apply generate_realistic_data_rows |].
  split; [now rewrite length_map, length_seq |].
  intro Hn. replace (Z.to_nat num_days) with 0%nat by lia. reflexivity.
Qed.

Lemma X1_one_record_per_day_witness :
  exists rows,
    fst (generate_realistic_data 739923 180 (seeded sample_draws)) = Ok rows
    /\ List.length rows = 180%nat.
Proof.
  destruct (X1_one_record_per_day 739923 180 (seeded sample_draws))
    as (rows & Hrows & Hlen & _).
  - unfold MINORDINAL, MAXORDINAL. lia.
  - exists rows. split; [exact Hrows | exact Hlen].
Defined.

(** X2.  In every record [medicationTaken] is 0 or 1, and the medication
    effect of its day lies in [0, 1.5]: it is 0 on a day whose dose is not
    taken (the factor 0.3 of line 56 always multiplies 0) and it is the
    full 1.5 on a day from index 90 on whose dose is taken. *)
Theorem X2_medication_effect_range (now num_days : Z) (g : rng_state)
    (rows : list record) (i : nat) (r : record) :
  fst (generate_realistic_data now num_days g) = Ok rows ->
  nth_error rows i = Some r ->
  let effect := val (med_effect (locals_at (now - num_days) i g)) in
  (medicationTaken r = 0 \/ medicationTaken r = 1) /\
  (0 <= effect <= 1.5)%Q /\
  (medicationTaken r = 0 -> (effect == 0)%Q) /\
  (medicationTaken r = 1 -> 90 <= Z.of_nat i -> (effect == 1.5)%Q).
Proof.
  intros Hrows Hnth.
  destruct (rows_nth _ _ _ _ _ _ Hrows Hnth) as [_ ->].
  cbn zeta.
  destruct (locals_at_calendar (now - num_days) i g)
    as (_ & _ & H1 & H2 & H3 & H4).
  destruct (row_at_fields (now - num_days) i g)
    as (_ & _ & _ & _ & _ & _ & _ & -> & _).
  repeat split; tauto.
Qed.

Lemma X2_medication_effect_range_witness :
  exists rows r,
    fst (generate_realistic_data 739923 3 (seeded sample_draws)) = Ok rows
    /\ nth_error rows 1 = Some r
    /\ let effect :=
         val (med_effect (locals_at (739923 - 3) 1 (seeded sample_draws))) in
       (medicationTaken r = 0 \/ medicationTaken r = 1) /\
       (0 <= effect <= 1.5)%Q /\
       (medicationTaken r = 0 -> (effect == 0)%Q) /\
       (medicationTaken r = 1 -> 90 <= Z.of_nat 1 -> (effect == 1.5)%Q).
Proof.
  do 2 eexists. split; [vm_compute; reflexivity |].
  split; [reflexivity |].
  eapply (X2_medication_effect_range 739923 3 (seeded sample_draws)
            _ 1%nat).
  - vm_compute. reflexivity.
  - reflexivity.
Defined.

(** X3.  With draws of [random()], every record has [sleepHours] at least
    5.5 (the lower clamp 4.0 is never reached), at least 7.0 on a day the
    code takes for a weekend day ([dayOfWeek] 1 or 7), and [sleepQuality]
    at least 2. *)
Theorem X3_sleep_never_short (now num_days : Z) (g : rng_state)
    (rows : list record) (i : nat) (r : record) :
  unit_draws (stream g) ->
  fst (generate_realistic_data now num_days g) = Ok rows ->
  nth_error rows i = Some r ->
  (5.5 <= val (sleepHours r) <= 10)%Q /\
  (dayOfWeek r = 1 \/ dayOfWeek r = 7 -> (7.0 <= val (sleepHours r))%Q) /\
  2 <= sleepQuality r <= 5.
Proof.
  intros Hu Hrows Hnth.
  destruct (rows_nth _ _ _ _ _ _ Hrows Hnth) as [_ ->].
  destruct (locals_at_calendar (now - num_days) i g) as (_ & Hwe & _).
  destruct (locals_at_ranges (now - num_days) i g Hu)
    as (Hsh & Hsh7 & Hq & _).
  destruct (row_at_fields (now - num_days) i g)
    as (_ & _ & _ & -> & -> & _ & _ & _ & _ & ->).
  split; [| split; [| exact Hq]].
  - destruct (py_round1_bounds 55 100
                (sleep_hours (locals_at (now - num_days) i g)))
      as [Ha Hb]; qlra.
  - intro Hd.
    assert (Hw : is_weekend (locals_at (now - num_days) i g) = true).
    { rewrite Hwe. destruct Hd as [-> | ->]; reflexivity. }
    specialize (Hsh7 Hw).
    destruct (py_round1_bounds 70 100
                (sleep_hours (locals_at (now - num_days) i g)))
      as [Ha Hb]; qlra.
Qed.

Lemma X3_sleep_never_short_witness :
  exists rows r,
    fst (generate_realistic_data 739923 3 (seeded sample_draws)) = Ok rows
    /\ nth_error rows 1 = Some r /\ dayOfWeek r = 7
    /\ (5.5 <= val (sleepHours r) <= 10)%Q
    /\ (dayOfWeek r = 1 \/ dayOfWeek r = 7 -> (7.0 <= val (sleepHours r))%Q)
    /\ 2 <= sleepQuality r <= 5.
Proof.
  do 2 eexists. split; [vm_compute; reflexivity |].
  split; [reflexivity |]. split; [reflexivity |].
  eapply (X3_sleep_never_short 739923 3 (seeded sample_draws) _ 1%nat).
  - exact sample_draws_unit.
  - vm_compute. reflexivity.
  - reflexivity.
Defined.

(** X4.  With draws of [random()], [daylightMinutes] of every record is a
    float between 25.2 and 270: the clamp to [15, 300] of line 85 never
    changes the value. *)
Theorem X4_daylight_clamp_is_idle (now num_days : Z) (g : rng_state)
    (rows : list record) (i : nat) (r : record) :
  unit_draws (stream g) ->
  fst (generate_realistic_data now num_days g) = Ok rows ->
  nth_error rows i = Some r ->
  (exists q, daylightMinutes r = PyFloat q) /\
  (25.2 <= val (daylightMinutes r) <= 270)%Q.
Proof.
  intros Hu Hrows Hnth.
  destruct (rows_nth _ _ _ _ _ _ Hrows Hnth) as [_ ->].
  destruct (locals_at_ranges (now - num_days) i g Hu)
    as (_ & _ & _ & _ & ((q & Hq) & Hdl) & _).
  destruct (row_at_fields (now - num_days) i g)
    as (_ & _ & _ & _ & _ & -> & _).
  split.
  - rewrite Hq. eexists. reflexivity.
  - destruct (py_round1_bounds 252 2700
                (daylight_minutes (locals_at (now - num_days) i g)))
      as [Ha Hb]; qlra.
Qed.

Lemma X4_daylight_clamp_is_idle_witness :
  exists rows r,
    fst (generate_realistic_data 739923 3 (seeded sample_draws)) = Ok rows
    /\ nth_error rows 0 = Some r
    /\ (25.2 <= val (daylightMinutes r) <= 270)%Q.
Proof.
  do 2 eexists. split; [vm_compute; reflexivity |].
  split; [reflexivity |].
  eapply (X4_daylight_clamp_is_idle 739923 3 (seeded sample_draws) _ 0%nat).
  - exact sample_draws_unit.
  - vm_compute. reflexivity.
  - reflexivity.
Defined.

(** X5.  With draws of [random()], [substanceAmount] of every record is
    the integer 0 or a float between 100 and 1000, and at most 400 on a
    day the code does not take for a weekend day: the accumulation has an
    upper bound although the code has no clamp for it. *)
Theorem X5_substance_amount_bounded (now num_days : Z) (g : rng_state)
    (rows : list record) (i : nat) (r : record) :
  unit_draws (stream g) ->
  fst (generate_realistic_data now num_days g) = Ok rows ->
  nth_error rows i = Some r ->
  (substanceAmount r = PyInt 0 \/
   exists q, substanceAmount r = PyFloat q /\ (100 <= q <= 1000)%Q) /\
  (dayOfWeek r <> 1 -> dayOfWeek r <> 7 ->
   (val (substanceAmount r) <= 400)%Q).
Proof.
  intros Hu Hrows Hnth.
  destruct (rows_nth _ _ _ _ _ _ Hrows Hnth) as [_ ->].
  destruct (locals_at_calendar (now - num_days) i g) as (_ & Hwe & _).
  destruct (locals_at_ranges (now - num_days) i g Hu)
    as (_ & _ & _ & _ & _ & Hsub & _).
  destruct (row_at_fields (now - num_days) i g)
    as (_ & _ & _ & _ & _ & _ & _ & _ & -> & ->).
  destruct Hsub as [-> | (q & -> & Hq & Hq4)].
  - split; [left; reflexivity | intros _ _; cbn; qlra].
  - split.
    + right. eexists. split; [reflexivity |].
      destruct (py_round1_bounds 1000 10000 (PyFloat q)) as [Ha Hb];
        cbn [py_round1] in *; qlra.
    + intros H1 H7.
      assert (Hw : is_weekend (locals_at (now - num_days) i g) = false).
      { rewrite Hwe. apply Z.eqb_neq in H1, H7. now rewrite H1, H7. }
      specialize (Hq4 Hw).
      destruct (py_round1_bounds 1000 4000 (PyFloat q)) as [Ha Hb]; qlra.
Qed.

Lemma X5_substance_amount_bounded_witness :
  exists rows r,
    fst (generate_realistic_data 739923 3 (seeded sample_draws)) = Ok rows
    /\ nth_error rows 1 = Some r
    /\ (substanceAmount r = PyInt 0 \/
        exists q, substanceAmount r = PyFloat q /\ (100 <= q <= 1000)%Q).
Proof.
  do 2 eexists. split; [vm_compute; reflexivity |].
  split; [reflexivity |].
  eapply (X5_substance_amount_bounded 739923 3 (seeded sample_draws)
            _ 1%nat).
  - exact sample_draws_unit.
  - vm_compute. reflexivity.
  - reflexivity.
Defined.

(** X6.  With draws of [random()], [anhedoniaLevel] of every record is at
    most 3 (the upper clamp 4 is never reached), and on a day whose dose
    is not taken both [anhedoniaLevel] and [anxietyLevel] are at least
    1. *)
Theorem X6_levels_without_medication (now num_days : Z) (g : rng_state)
    (rows : list record) (i : nat) (r : record) :
  unit_draws (stream g) ->
  fst (generate_realistic_data now num_days g) = Ok rows ->
  nth_error rows i = Some r ->
  0 <= anhedoniaLevel r <= 3 /\
  (medicationTaken r = 0 -> 1 <= anhedoniaLevel r /\ 1 <= anxietyLevel r).
Proof.
  intros Hu Hrows Hnth.
  destruct (rows_nth _ _ _ _ _ _ Hrows Hnth) as [_ ->].
  destruct (locals_at_ranges (now - num_days) i g Hu)
    as (_ & _ & _ & _ & _ & _ & H3 & H1).
  pose proof (row_at_in_range (now - num_days) g i Hu) as (_ & _ & Hah & _).
  destruct (row_at_fields (now - num_days) i g)
    as (_ & Hax & Hahf & _ & _ & _ & _ & Hmt & _).
  rewrite Hax, Hmt. rewrite Hahf in *. split; [lia | exact H1].
Qed.

Lemma X6_levels_without_medication_witness :
  exists rows r,
    fst (generate_realistic_data 739923 3 (seeded sample_draws)) = Ok rows
    /\ nth_error rows 2 = Some r /\ medicationTaken r = 0
    /\ 0 <= anhedoniaLevel r <= 3
    /\ (medicationTaken r = 0 ->
        1 <= anhedoniaLevel r /\ 1 <= anxietyLevel r).
Proof.
  do 2 eexists. split; [vm_compute; reflexivity |].
  split; [reflexivity |]. split; [reflexivity |].
  eapply (X6_levels_without_medication 739923 3 (seeded sample_draws)
            _ 2%nat).
  - exact sample_draws_unit.
  - vm_compute. reflexivity.
  - reflexivity.
Defined.

Section CarriedValues.

Import Binary64.

(** X7.  The mood of a day is computed from the day before: the sleep
    and the mood that enter the sum of the second and later iterations are
    [sleep_hours] (before the record rounds it) and [mood_level] of the
    iteration before, which the loop carries in [previous_sleep] and
    [previous_mood]; the first iteration reads 6.5 and 2. *)
Theorem X7_mood_reads_the_previous_day (start_date : Z) (i : nat)
    (g : rng_state) :
  let first := locals_at start_date 0 g in
  let yesterday := locals_at start_date i g in
  let today := locals_at start_date (S i) g in
  previous_sleep_at start_date (S i) g = sleep_hours yesterday /\
  previous_mood_at start_date (S i) g = mood_level yesterday /\
  mood today
  = moodSum (med_effect today) (sleep_hours yesterday)
      (exercise_minutes today) (daylight_minutes today)
      (substance_amount today) (day_of_week today)
      (mood_level yesterday) (mood_noise today) /\
  mood first
  = moodSum (med_effect first) (PyFloat 6.5)
      (exercise_minutes first) (daylight_minutes first)
      (substance_amount first) (day_of_week first) 2 (mood_noise first) /\
  sleepHours (row_at start_date i g) = py_round1 (sleep_hours yesterday) /\
  moodLevel (row_at start_date i g) = mood_level yesterday.
Proof.
  cbn zeta.
  destruct (frame_after_b64 start_date i g) as (Hs & Hm & _).
  destruct (mood_of_iteration start_date (S i) g) as (_ & Ht & _).
  destruct (mood_of_iteration start_date 0 g) as (_ & Hf & _).
  unfold previous_sleep_at, previous_mood_at in *.
  rewrite Hs, Hm in Ht.
  repeat split; assumption.
Qed.

End CarriedValues.

(** X8.  In every run the first record has [previousDaySleep] and
    [previousDayMood] equal to 0, and every later record has them equal
    to its own [sleepHours] and [moodLevel]. *)
Theorem X8_previous_fields_repeat_the_record (now num_days : Z)
    (g : rng_state) (rows : list record) (i : nat) (r : record) :
  fst (generate_realistic_data now num_days g) = Ok rows ->
  nth_error rows i = Some r ->
  (i = 0%nat -> previousDaySleep r = PyInt 0 /\ previousDayMood r = 0) /\
  ((0 < i)%nat ->
   previousDaySleep r = sleepHours r /\ previousDayMood r = moodLevel r).
Proof.
  intros Hrows Hnth.
  destruct (rows_nth _ _ _ _ _ _ Hrows Hnth) as [_ ->].
  split.
  - intros ->. apply row_at_first_previous_fields.
  - apply row_at_previous_fields.
Qed.

Lemma X8_previous_fields_repeat_the_record_witness :
  exists rows r0 r1,
    fst (generate_realistic_data 739923 3 (seeded sample_draws)) = Ok rows
    /\ nth_error rows 0 = Some r0 /\ nth_error rows 1 = Some r1
    /\ (previousDaySleep r0 = PyInt 0 /\ previousDayMood r0 = 0)
    /\ (previousDaySleep r1 = sleepHours r1
        /\ previousDayMood r1 = moodLevel r1).
Proof.
  do 3 eexists. split; [vm_compute; reflexivity |].
  split; [reflexivity |]. split; [reflexivity |]. split.
  - eapply (proj1 (X8_previous_fields_repeat_the_record 739923 3
                     (seeded sample_draws) _ 0%nat _ _ _)).
    reflexivity.
  - eapply (proj2 (X8_previous_fields_repeat_the_record 739923 3
                     (seeded sample_draws) _ 1%nat _ _ _)).
    lia.
  Unshelve.
  all: try (vm_compute; reflexivity).
Defined.

(** X9.  [dayOfWeek] cycles through 1..7 along the records: each record's
    value is its predecessor's modulo 7, plus 1, and the first record's
    is [weekday() + 1] of the start date. *)
Theorem X9_day_of_week_cycles (now num_days : Z) (g : rng_state)
    (rows : list record) (i : nat) (r r' : record) :
  fst (generate_realistic_data now num_days g) = Ok rows ->
  nth_error rows i = Some r ->
  nth_error rows (S i) = Some r' ->
  dayOfWeek r' = dayOfWeek r mod 7 + 1 /\
  dayOfWeek r = weekday (now - num_days + Z.of_nat i) + 1.
Proof.
  intros Hrows Hnth Hnth'.
  destruct (rows_nth _ _ _ _ _ _ Hrows Hnth) as [_ ->].
  destruct (rows_nth _ _ _ _ _ _ Hrows Hnth') as [_ ->].
  rewrite !row_at_day_of_week. split; [| reflexivity].
  unfold weekday. rewrite Nat2Z.inj_succ.
  replace (now - num_days + Z.succ (Z.of_nat i) + 6)
    with ((now - num_days + Z.of_nat i + 6) + 1) by lia.
  rewrite <- Zplus_mod_idemp_l. reflexivity.
Qed.

Lemma X9_day_of_week_cycles_witness :
  exists rows r r',
    fst (generate_realistic_data 739923 3 (seeded sample_draws)) = Ok rows
    /\ nth_error rows 1 = Some r /\ nth_error rows 2 = Some r'
    /\ dayOfWeek r = 7 /\ dayOfWeek r' = 1
    /\ dayOfWeek r' = dayOfWeek r mod 7 + 1
    /\ dayOfWeek r = weekday (739923 - 3 + Z.of_nat 1) + 1.
Proof.
  do 3 eexists. split; [vm_compute; reflexivity |].
  split; [reflexivity |]. split; [reflexivity |].
  split; [reflexivity |]. split; [reflexivity |].
  eapply (X9_day_of_week_cycles 739923 3 (seeded sample_draws) _ 1%nat).
  - vm_compute. reflexivity.
  - reflexivity.
  - reflexivity.
Defined.

(** X10.  Which days the branches of the code fire on: the weekend
    branches ([is_weekend]) fire exactly on the Mondays and the Sundays of
    the calendar, and the penalty of line 111 is applied exactly on the
    Tuesdays. *)
Theorem X10_branches_by_calendar_day (start_date : Z) (i : nat)
    (g : rng_state) :
  let today := locals_at start_date i g in
  let name := day_name_of (start_date + Z.of_nat i) in
  (is_weekend today = true <-> name = Monday \/ name = Sunday) /\
  ((val (weekday_effect_of (day_of_week today)) == - 0.3)%Q
   <-> name = Tuesday) /\
  ((val (weekday_effect_of (day_of_week today)) == 0)%Q
   <-> name <> Tuesday).
Proof.
  cbn zeta.
  destruct (locals_at_calendar start_date i g) as (Hd & Hw & _).
  destruct (day_of_week_names (start_date + Z.of_nat i)) as (H2 & H17 & _).
  rewrite Hw, Hd. split; [exact H17 |].
  unfold weekday_effect_of.
  destruct (weekday (start_date + Z.of_nat i) + 1 =? 2) eqn:E.
  - apply Z.eqb_eq in E. apply H2 in E. rewrite E. cbn [val].
    repeat split; intros; try reflexivity; try congruence.
    exfalso. match goal with H : (_ == _)%Q |- _ => revert H end.
    intro Hq. lra.
  - apply Z.eqb_neq in E. cbn [val].
    assert (Hn : day_name_of (start_date + Z.of_nat i) <> Tuesday)
      by (intro Ht; apply E; now apply H2).
    repeat split; intros; try reflexivity; try congruence.
    exfalso. match goal with H : (_ == _)%Q |- _ => revert H end.
    intro Hq. change (inject_Z 0) with 0%Q in Hq. lra.
Qed.

Lemma X10_branches_by_calendar_day_witness :
  day_name_of (739920 + Z.of_nat 1) = Sunday /\
  is_weekend (locals_at 739920 1 (seeded sample_draws)) = true /\
  (val (weekday_effect_of
          (day_of_week (locals_at 739920 1 (seeded sample_draws)))) == 0)%Q.
Proof.
  split; [reflexivity |]. split.
  - apply (proj1 (X10_branches_by_calendar_day 739920 1
                    (seeded sample_draws))).
    right. reflexivity.
  - apply (proj2 (proj2 (X10_branches_by_calendar_day 739920 1
                           (seeded sample_draws)))).
    discriminate.
Defined.

(** ** The draws a run consumes *)

Section Advances.

Lemma advances_ret {A} (a : A) : advances 0 0 (ret a).
Proof. intro s. cbn. lia. Qed.

Lemma advances_random : advances 1 1 random.
Proof. intro s. cbn. lia. Qed.

Lemma advances_uniform (a b : num) : advances 1 1 (uniform a b).
Proof. intro s. cbn. lia. Qed.

Lemma advances_bind {A B} (l1 h1 l2 h2 : nat) (c : M A) (k : A -> M B) :
  advances l1 h1 c -> (forall a, advances l2 h2 (k a)) ->
  advances (l1 + l2) (h1 + h2) (bind c k).
Proof.
  intros Hc Hk s. unfold bind.
  specialize (Hc s). destruct (c s) as [a s']. cbn [snd] in Hc.
  specialize (Hk a s'). lia.
Qed.

Lemma advances_if {A} (l1 h1 l2 h2 : nat) (b : bool) (c1 c2 : M A) :
  advances l1 h1 c1 -> advances l2 h2 c2 ->
  advances (Nat.min l1 l2) (Nat.max h1 h2) (if b then c1 else c2).
Proof.
  intros H1 H2 s. destruct b; [specialize (H1 s) | specialize (H2 s)]; lia.
Qed.

Lemma advances_weaken {A} (l h l' h' : nat) (c : M A) :
  advances l h c -> (l' <= l)%nat -> (h <= h')%nat -> advances l' h' c.
Proof. intros H Hl Hh s. specialize (H s). lia. Qed.

End Advances.

(** Counts the draws of a computation built from [ret], [random],
    [uniform], [bind] and conditionals. *)
Ltac count_draws :=
  eapply advances_weaken;
  [ repeat first
      [ apply advances_ret | apply advances_random | apply advances_uniform
      | eapply advances_if
      | eapply advances_bind; [| intro] ]
  | cbn; lia | cbn; lia ].

Section AdvancesBlocks.

Lemma advances_medication_block day : advances 0 1 (medication_block day).
Proof. unfold medication_block. count_draws. Qed.

Lemma advances_sleep_block w m : advances 3 3 (sleep_block w m).
Proof. unfold sleep_block. count_draws. Qed.

Lemma advances_exercise_block w d p :
  advances 1 2 (exercise_block w d p).
Proof. unfold exercise_block. count_draws. Qed.

Lemma advances_daylight_block w d : advances 1 1 (daylight_block w d).
Proof. unfold daylight_block. count_draws. Qed.

Lemma advances_substance_block w : advances 1 4 (substance_block w).
Proof. unfold substance_block. count_draws. Qed.

Lemma advances_mood_block a b c d e f g :
  advances 1 1 (mood_block a b c d e f g).
Proof. unfold mood_block. count_draws. Qed.

Lemma advances_anxiety_block a b c d : advances 1 1 (anxiety_block a b c d).
Proof. unfold anxiety_block. count_draws. Qed.

Lemma advances_anhedonia_block a b c :
  advances 1 1 (anhedonia_block a b c).
Proof. unfold anhedonia_block. count_draws. Qed.

Lemma advances_day_body start day ps pm :
  advances 9 14 (day_body start day ps pm).
Proof.
  unfold day_body.
  eapply advances_weaken;
    [ eapply advances_bind;
        [apply advances_medication_block | intros [[? ?] ?]];
      eapply advances_bind;
        [apply advances_sleep_block | intros [[? ?] ?]];
      eapply advances_bind;
        [apply advances_exercise_block | intros [? ?]];
      eapply advances_bind;
        [apply advances_daylight_block | intros [[[? ?] ?] ?]];
      eapply advances_bind;
        [apply advances_substance_block | intros ?];
      eapply advances_bind;
        [apply advances_mood_block | intros [? ?]];
      eapply advances_bind;
        [apply advances_anxiety_block | intros [? ?]];
      eapply advances_bind;
        [apply advances_anhedonia_block | intros [? ?]];
      apply advances_ret
    | cbn; lia | cbn; lia ].
Qed.

Lemma advances_for_each start days f :
  advances (9 * List.length days) (14 * List.length days)
    (for_each days (iteration start) f).
Proof.
  revert f. induction days as [| d days IH]; intro f; cbn [for_each].
  - apply advances_ret.
  - eapply advances_weaken.
    + eapply advances_bind; [| intro; apply IH].
      unfold iteration.
      eapply advances_bind; [apply advances_day_body |].
      intro. apply advances_ret.
    + cbn [List.length]. lia.
    + cbn [List.length]. lia.
Qed.

End AdvancesBlocks.

(** X11.  A run of [n] days that returns its records has called
    [random.random()] at least [9 n] and at most [14 n] times; a run that
    raises has not called it; in both cases the generator's stream is
    read, never changed. *)
Theorem X11_draws_consumed (now num_days : Z) (g : rng_state) :
  let g' := snd (generate_realistic_data now num_days g) in
  let n := Z.to_nat num_days in
  stream g' = stream g /\
  (forall rows,
     fst (generate_realistic_data now num_days g) = Ok rows ->
     (cursor g + 9 * n <= cursor g' <= cursor g + 14 * n)%nat) /\
  (fst (generate_realistic_data now num_days g) = Raise OverflowError ->
   cursor g' = cursor g).
Proof.
  cbn zeta. unfold generate_realistic_data.
  destruct ((MINORDINAL <=? now - num_days)
            && (now - num_days <=? MAXORDINAL)).
  - unfold bind, generate_from.
    pose proof (keeps_for_each (now - num_days) (range num_days)
                  initial_frame g) as Hk.
    pose proof (advances_for_each (now - num_days) (range num_days)
                  initial_frame g) as Ha.
    assert (Hl : List.length (range num_days) = Z.to_nat num_days)
      by (unfold range; now rewrite length_map, length_seq).
    rewrite Hl in Ha.
    destruct (for_each _ _ _ g) as [f s']. unfold ret. cbn [fst snd] in *.
    split; [exact Hk |]. split; [intros _ _; exact Ha |].
    intro H. discriminate H.
  - unfold ret. cbn [fst snd]. split; [reflexivity |].
    split; [| reflexivity]. intros rows H. discriminate H.
Qed.

Lemma X11_draws_consumed_witness :
  let g' :=
    snd (generate_realistic_data 739923 3 (seeded sample_draws)) in
  (0 + 9 * 3 <= cursor g' <= 0 + 14 * 3)%nat /\
  cursor (snd (generate_realistic_data 3 739923 (seeded sample_draws)))
  = 0%nat.
Proof.
  cbn zeta. split.
  - eapply (proj1 (proj2 (X11_draws_consumed 739923 3
                            (seeded sample_draws)))).
    vm_compute. reflexivity.
  - apply (X11_draws_consumed 3 739923 (seeded sample_draws)).
    reflexivity.
Defined.

(** ** The summary statistics of generated data *)

Section Statistics.

Lemma count_medicated_acc (l : list record) (acc : Z) :
  fold_left (fun a d => if medicationTaken d =? 1 then a + 1 else a) l acc
  = acc + count_medicated l.
Proof.
  unfold count_medicated. revert acc.
  induction l as [| d l IH]; intro acc; cbn [fold_left].
  - lia.
  - destruct (medicationTaken d =? 1).
    + rewrite (IH (acc + 1)), (IH (0 + 1)). lia.
    + rewrite (IH acc), (IH 0). lia.
Qed.

Lemma count_medicated_filter (l : list record) :
  count_medicated l
  = Z.of_nat (List.length (filter (fun d => medicationTaken d =? 1) l)).
Proof.
  induction l as [| d l IH]; [reflexivity |].
  unfold count_medicated. cbn [fold_left filter].
  destruct (medicationTaken d =? 1); rewrite count_medicated_acc, IH;
    cbn [List.length]; lia.
Qed.

(** Rows before index 60 are never counted. *)
Lemma medicated_rows_bound (start_date : Z) (g : rng_state) (len a : nat) :
  (List.length
     (filter (fun d => (medicationTaken d =? 1)%Z)
        (map (fun k => row_at start_date k g) (seq a len)))
   <= (a + len) - Nat.max a 60)%nat.
Proof.
  revert a. induction len as [| len IH]; intro a; cbn [seq map filter].
  - cbn. lia.
  - specialize (IH (S a)).
    destruct (Nat.ltb_spec a 60) as [Hlt | Hge].
    + rewrite row_at_medication
        by (unfold medication_start_day; lia).
      cbn [Z.eqb]. lia.
    + destruct (medicationTaken (row_at start_date a g) =? 1);
        cbn [List.length]; lia.
Qed.

Lemma row_at_mood_bounds (start_date : Z) (g : rng_state) (i : nat) :
  1 <= moodLevel (row_at start_date i g) <= 5.
Proof.
  unfold row_at, locals_at.
  destruct (state_before start_date i g) as [f s].
  cbn [make_row moodLevel].
  destruct (day_body_blocks start_date (Z.of_nat i) (previous_sleep f)
              (previous_mood f) s)
    as (s1 & s2 & s3 & s4 & s5 & s6 & s7 & _ & _ & _ & _ & _
        & _ & _ & _ & _ & _ & Hmood & _).
  now apply mood_block_bounds in Hmood.
Qed.

Lemma sum_mood_upper (l : list record) :
  Forall (fun d => moodLevel d <= 5) l ->
  sum_mood l <= 5 * Z.of_nat (List.length l).
Proof.
  induction 1 as [| d l Hd _ IH].
  - reflexivity.
  - rewrite sum_mood_cons. cbn [List.length]. lia.
Qed.

(** A quotient of integers between two integer bounds. *)
Lemma quotient_bounds (a b s n : Z) :
  0 < n -> a * n <= s <= b * n ->
  (inject_Z a <= inject_Z s / inject_Z n <= inject_Z b)%Q.
Proof.
  intros Hn [Hlo Hhi].
  assert (Hn' : (0 < inject_Z n)%Q).
  { change 0%Q with (inject_Z 0). now rewrite <- Zlt_Qlt. }
  split.
  - apply Qle_shift_div_l; [exact Hn' |].
    rewrite <- inject_Z_mult, <- Zle_Qle. exact Hlo.
  - apply Qle_shift_div_r; [exact Hn' |].
    rewrite <- inject_Z_mult, <- Zle_Qle. exact Hhi.
Qed.

Lemma mood_range_split (l : list record) :
  Forall (fun d => 1 <= moodLevel d <= 5) l ->
  Forall (fun d => 1 <= moodLevel d) l /\
  Forall (fun d => moodLevel d <= 5) l.
Proof.
  intro H. split; eapply Forall_impl; try exact H; cbn; intros; lia.
Qed.

(** The mean of moods between 1 and 5 lies between 1 and 5. *)
Lemma mean_bounds (l : list record) :
  Forall (fun d => 1 <= moodLevel d <= 5) l -> (0 < List.length l)%nat ->
  (1 <= inject_Z (sum_mood l) / inject_Z (Z.of_nat (List.length l)) <= 5)%Q.
Proof.
  intros H Hlen. destruct (mood_range_split l H) as [H1 H5].
  pose proof (sum_mood_lower l H1). pose proof (sum_mood_upper l H5).
  apply (quotient_bounds 1 5); lia.
Qed.

End Statistics.

(** The count of medicated days of generated data. *)
Lemma count_medicated_generated (now num_days : Z) (g : rng_state)
    (rows : list record) :
  fst (generate_realistic_data now num_days g) = Ok rows ->
  count_medicated rows
  = Z.of_nat (List.length (filter (fun d => medicationTaken d =? 1) rows))
  /\ 0 <= count_medicated rows <= Z.max 0 (num_days - 60).
Proof.
  intro Hrows. apply generate_realistic_data_ok in Hrows. subst rows.
  split; [apply count_medicated_filter |].
  rewrite count_medicated_filter.
  pose proof (medicated_rows_bound (now - num_days) g
                (Z.to_nat num_days) 0) as H.
  lia.
Qed.

(** X12.  On generated data, the count printed as "Days on medication" is
    the number of records with [medicationTaken = 1]; it is at least 0
    and at most [num_days - 60] (at most 0 for a run of 60 days or
    fewer). *)
Theorem X12_medication_days_count (now num_days : Z) (g : rng_state)
    (rows : list record) :
  fst (generate_realistic_data now num_days g) = Ok rows ->
  count_medicated rows
  = Z.of_nat (List.length (filter (fun d => medicationTaken d =? 1) rows))
  /\ 0 <= count_medicated rows <= Z.max 0 (num_days - 60).
Proof. apply count_medicated_generated. Qed.

Lemma X12_medication_days_count_witness :
  exists rows,
    fst (generate_realistic_data 739923 3 (seeded sample_draws)) = Ok rows
    /\ count_medicated rows
       = Z.of_nat
           (List.length (filter (fun d => medicationTaken d =? 1) rows))
    /\ 0 <= count_medicated rows <= Z.max 0 (3 - 60).
Proof.
  eexists. split; [vm_compute; reflexivity |].
  eapply (X12_medication_days_count 739923 3 (seeded sample_draws)).
  vm_compute. reflexivity.
Defined.

(** What [save_to_csv] prints on more than 90 records of mood 1 to 5. *)
Lemma save_to_csv_averages (rows : list record) (filename : string)
    (w : world) :
  Forall (fun d => 1 <= moodLevel d <= 5) rows ->
  (90 < List.length rows)%nat ->
  exists before after : num,
    save_to_csv NoFault rows filename w
    = (Ok tt,
       {| console :=
            console w
            ++ [GeneratedDays (List.length rows); SavedTo filename]
            ++ [StatisticsHeader; DaysOnMedication (count_medicated rows);
                AvgMoodBefore before; AvgMoodAfter after;
                MoodImprovement (after - before)%py];
          files := put (files w) filename
                     (String.concat "" (csv_writes rows)) |}) /\
    (1 <= val before <= 5)%Q /\ (1 <= val after <= 5)%Q /\
    (- 4 <= val (after - before)%py <= 4)%Q.
Proof.
  intros Hmood Hlen.
  destruct (save_to_csv_console rows filename w) as [_ Hrun].
  do 2 eexists. split; [apply Hrun; lia |].
  assert (Hsplit : Forall (fun d => 1 <= moodLevel d <= 5)
                     (firstn 60 rows ++ skipn 90 rows)).
  { apply Forall_app. split.
    - rewrite <- (firstn_skipn 60 rows) in Hmood.
      now apply Forall_app in Hmood.
    - rewrite <- (firstn_skipn 90 rows) in Hmood.
      now apply Forall_app in Hmood. }
  apply Forall_app in Hsplit. destruct Hsplit as [Hb Ha].
  assert (Hbefore : (1 <= inject_Z (sum_mood (firstn 60 rows)) / inject_Z 60
                     <= 5)%Q).
  { pose proof (mean_bounds (firstn 60 rows) Hb) as H.
    rewrite length_firstn, Nat.min_l in H by lia. apply H. lia. }
  assert (Hafter : (1 <= inject_Z (sum_mood (skipn 90 rows))
                         / inject_Z (Z.of_nat (List.length rows) - 90)
                    <= 5)%Q).
  { pose proof (mean_bounds (skipn 90 rows) Ha) as H.
    rewrite length_skipn, Nat2Z.inj_sub in H by lia. apply H. lia. }
  split; [exact Hbefore |]. split; [exact Hafter |].
  rewrite val_sub. cbn [val truediv]. lra.
Qed.

(** X13.  On more than 90 records whose moods lie in [1,5], as generated
    ones do, [save_to_csv] completes and both printed averages lie in
    [1,5], so the printed improvement lies in [-4,4]. *)
Theorem X13_averages_in_range (rows : list record) (filename : string)
    (w : world) :
  Forall (fun d => 1 <= moodLevel d <= 5) rows ->
  (90 < List.length rows)%nat ->
  exists before after : num,
    save_to_csv NoFault rows filename w
    = (Ok tt,
       {| console :=
            console w
            ++ [GeneratedDays (List.length rows); SavedTo filename]
            ++ [StatisticsHeader; DaysOnMedication (count_medicated rows);
                AvgMoodBefore before; AvgMoodAfter after;
                MoodImprovement (after - before)%py];
          files := put (files w) filename
                     (String.concat "" (csv_writes rows)) |}) /\
    (1 <= val before <= 5)%Q /\ (1 <= val after <= 5)%Q /\
    (- 4 <= val (after - before)%py <= 4)%Q.
Proof. apply save_to_csv_averages. Qed.

Lemma X13_averages_in_range_witness :
  exists before after : num,
    In (AvgMoodBefore before)
       (console (snd (save_to_csv NoFault (repeat sample_record 91)
                        default_filename empty_world))) /\
    (1 <= val before <= 5)%Q /\ (1 <= val after <= 5)%Q /\
    (- 4 <= val (after - before)%py <= 4)%Q.
Proof.
  destruct (X13_averages_in_range (repeat sample_record 91)
              default_filename empty_world)
    as (before & after & Hrun & Hb & Ha & Hd).
  - apply Forall_forall. intros d Hd. apply repeat_spec in Hd. subst d.
    cbn. lia.
  - rewrite repeat_length. lia.
  - exists before, after. rewrite Hrun. cbn [snd console app].
    split; [cbn; auto 10 |]. split; [exact Hb |]. split; [exact Ha |].
    exact Hd.
Defined.

(** ** The script *)

Section Script.

Lemma rows_mood_bounds (start_date : Z) (g : rng_state) (n : nat) :
  Forall (fun d => 1 <= moodLevel d <= 5)
    (map (fun k => row_at start_date k g) (seq 0 n)).
Proof.
  apply Forall_forall. intros d Hd.
  apply in_map_iff in Hd. destruct Hd as (k & <- & _).
  apply row_at_mood_bounds.
Qed.

(** The outcome of the script on a date out of range. *)
Lemma script_overflow (num_days now : Z) (flt : fault) (g : rng_state)
    (w : world) :
  ~ (MINORDINAL <= now - num_days <= MAXORDINAL) ->
  script num_days now flt g w
  = (Raise OverflowError,
     {| console := console w ++ [Title; Rule]; files := files w |}).
Proof.
  intro H. unfold script.
  rewrite generate_realistic_data_overflow by exact H.
  unfold print. cbn [console files]. now rewrite <- app_assoc.
Qed.

End Script.

(** X14.  Run on a date from which 180 days back is still a date, with a
    file system that does not fail, the script ends normally: it has
    generated 180 records, written them all, and made its eighteen calls
    of [print] in source order, with a medication count between 0 and 120
    and both averages between 1 and 5.  The division by [len(data) - 90]
    is a division by 90. *)
Theorem X14_main_succeeds (now : Z) (g : rng_state) (w : world) :
  MINORDINAL <= now - 180 <= MAXORDINAL ->
  exists (rows : list record) (m : Z) (before after : num),
    fst (generate_realistic_data now 180 g) = Ok rows /\
    List.length rows = 180%nat /\
    main now NoFault g w
    = (Ok tt,
       {| console :=
            console w
            ++ [Title; Rule; GeneratedDays 180; SavedTo default_filename;
                StatisticsHeader; DaysOnMedication m;
                AvgMoodBefore before; AvgMoodAfter after;
                MoodImprovement (after - before)%py; Done; KeyPatternsTitle;
                KeyPattern "Medication effectiveness (starts day 60)";
                KeyPattern "Sleep-mood correlation";
                KeyPattern "Exercise benefits";
                KeyPattern "Daylight exposure benefits";
                KeyPattern "Substance effects (negative)";
                KeyPattern "Day of week patterns";
                KeyPattern "Previous day effects"];
          files := put (files w) default_filename
                     (String.concat "" (csv_writes rows)) |}) /\
    List.length (console (snd (main now NoFault g w)))
    = (List.length (console w) + 18)%nat /\
    0 <= m <= 120 /\
    (1 <= val before <= 5)%Q /\ (1 <= val after <= 5)%Q.
Proof.
  intro Hdate.
  pose proof (generate_realistic_data_rows now 180 g Hdate) as Hrows.
  set (rows := map (fun k => row_at (now - 180) k g)
                   (seq 0 (Z.to_nat 180))) in *.
  assert (Hlen : List.length rows = 180%nat).
  { subst rows. rewrite length_map, length_seq. reflexivity. }
  destruct (save_to_csv_averages rows default_filename
              (print Rule (print Title w)))
    as (before & after & Hrun & Hb & Ha & _).
  { apply rows_mood_bounds. }
  { lia. }
  destruct (count_medicated_generated now 180 g rows Hrows) as [_ Hm].
  exists rows, (count_medicated rows), before, after.
  assert (Hmain :
    main now NoFault g w
    = (Ok tt,
       {| console :=
            console w
            ++ [Title; Rule; GeneratedDays 180; SavedTo default_filename;
                StatisticsHeader; DaysOnMedication (count_medicated rows);
                AvgMoodBefore before; AvgMoodAfter after;
                MoodImprovement (after - before)%py; Done; KeyPatternsTitle;
                KeyPattern "Medication effectiveness (starts day 60)";
                KeyPattern "Sleep-mood correlation";
                KeyPattern "Exercise benefits";
                KeyPattern "Daylight exposure benefits";
                KeyPattern "Substance effects (negative)";
                KeyPattern "Day of week patterns";
                KeyPattern "Previous day effects"];
          files := put (files w) default_filename
                     (String.concat "" (csv_writes rows)) |})).
  { unfold main, script. rewrite Hrows, Hrun, Hlen.
    unfold print. cbn [console files].
    repeat rewrite <- app_assoc. reflexivity. }
  split; [exact Hrows |]. split; [exact Hlen |]. split; [exact Hmain |].
  split; [| split; [lia | split; assumption]].
  rewrite Hmain. cbn [snd console]. rewrite length_app. reflexivity.
Qed.

Lemma X14_main_succeeds_witness :
  exists (rows : list record) (m : Z) (before after : num),
    fst (generate_realistic_data 739923 180 (seeded sample_draws)) = Ok rows
    /\ List.length rows = 180%nat
    /\ main 739923 NoFault (seeded sample_draws) empty_world
       = (Ok tt,
          {| console :=
               console empty_world
               ++ [Title; Rule; GeneratedDays 180; SavedTo default_filename;
                   StatisticsHeader; DaysOnMedication m;
                   AvgMoodBefore before; AvgMoodAfter after;
                   MoodImprovement (after - before)%py; Done; KeyPatternsTitle;
                   KeyPattern "Medication effectiveness (starts day 60)";
                   KeyPattern "Sleep-mood correlation";
                   KeyPattern "Exercise benefits";
                   KeyPattern "Daylight exposure benefits";
                   KeyPattern "Substance effects (negative)";
                   KeyPattern "Day of week patterns";
                   KeyPattern "Previous day effects"];
             files := put (files empty_world) default_filename
                        (String.concat "" (csv_writes rows)) |})
    /\ List.length
         (console (snd (main 739923 NoFault (seeded sample_draws)
                          empty_world)))
       = (List.length (console empty_world) + 18)%nat
    /\ 0 <= m <= 120
    /\ (1 <= val before <= 5)%Q /\ (1 <= val after <= 5)%Q.
Proof.
  apply (X14_main_succeeds 739923 (seeded sample_draws) empty_world).
  unfold MINORDINAL, MAXORDINAL. lia.
Defined.

(** X15.  How the script ends.  On a start date out of range it raises
    [OverflowError] after its first two lines and touches no file.  On a
    date in range: when the write fails it raises that error, again after
    its first two lines; for [num_days = 90] it writes the whole file,
    prints the two "generated" and "saved" lines and then raises
    [ZeroDivisionError]; for any other [num_days] it ends normally when
    the file system does not fail. *)
Theorem X15_script_outcomes (num_days now : Z) (g : rng_state)
    (w : world) :
  (~ (MINORDINAL <= now - num_days <= MAXORDINAL) ->
   forall flt,
     script num_days now flt g w
     = (Raise OverflowError,
        {| console := console w ++ [Title; Rule]; files := files w |})) /\
  (MINORDINAL <= now - num_days <= MAXORDINAL ->
   exists rows,
     fst (generate_realistic_data now num_days g) = Ok rows /\
     (forall flt e,
        fst (write_file flt (csv_writes rows) default_filename (files w))
          = Raise e ->
        fst (script num_days now flt g w) = Raise e /\
        console (snd (script num_days now flt g w))
        = console w ++ [Title; Rule]) /\
     (num_days = 90 ->
      script num_days now NoFault g w
      = (Raise ZeroDivisionError,
         {| console :=
              console w
              ++ [Title; Rule; GeneratedDays 90; SavedTo default_filename];
            files := put (files w) default_filename
                       (String.concat "" (csv_writes rows)) |})) /\
     (num_days <> 90 -> fst (script num_days now NoFault g w) = Ok tt)).
Proof.
  split.
  - intros H flt. now apply script_overflow.
  - intro Hdate.
    pose proof (generate_realistic_data_rows now num_days g Hdate) as Hrows.
    set (rows := map (fun k => row_at (now - num_days) k g)
                     (seq 0 (Z.to_nat num_days))) in *.
    assert (Hlen : List.length rows = Z.to_nat num_days).
    { subst rows. now rewrite length_map, length_seq. }
    exists rows. split; [exact Hrows |]. split; [| split].
    + intros flt e Hfail. now apply (script_failed_write _ _ _ _ _ rows).
    + intros ->.
      destruct (save_to_csv_console rows default_filename
                  (print Rule (print Title w))) as [Hzero _].
      unfold script. rewrite Hrows, Hzero by (rewrite Hlen; lia).
      rewrite Hlen. unfold print. cbn [console files].
      repeat rewrite <- app_assoc. reflexivity.
    + intro Hn.
      destruct (save_to_csv_console rows default_filename
                  (print Rule (print Title w))) as [_ Hnonzero].
      unfold script. rewrite Hrows, Hnonzero by (rewrite Hlen; lia).
      reflexivity.
Qed.

Lemma X15_script_outcomes_witness :
  script 739923 180 NoFault (seeded sample_draws) empty_world
  = (Raise OverflowError,
     {| console := console empty_world ++ [Title; Rule];
        files := files empty_world |})
  /\ (exists rows,
        fst (generate_realistic_data 739923 90 (seeded sample_draws))
          = Ok rows /\
        fst (script 90 739923 (WriteFails 0) (seeded sample_draws)
               empty_world) = Raise OSError /\
        script 90 739923 NoFault (seeded sample_draws) empty_world
        = (Raise ZeroDivisionError,
           {| console :=
                console empty_world
                ++ [Title; Rule; GeneratedDays 90;
                    SavedTo default_filename];
              files := put (files empty_world) default_filename
                         (String.concat "" (csv_writes rows)) |}))
  /\ fst (script 3 739923 NoFault (seeded sample_draws) empty_world) = Ok tt.
Proof.
  split; [| split].
  - apply (proj1 (X15_script_outcomes 739923 180 (seeded sample_draws)
                    empty_world)).
    unfold MINORDINAL, MAXORDINAL. lia.
  - destruct (proj2 (X15_script_outcomes 90 739923 (seeded sample_draws)
                       empty_world))
      as (rows & Hrows & Hfail & Hzero & _).
    + unfold MINORDINAL, MAXORDINAL. lia.
    + exists rows. split; [exact Hrows |]. split; [| now apply Hzero].
      apply (Hfail (WriteFails 0) OSError). reflexivity.
  - destruct (proj2 (X15_script_outcomes 3 739923 (seeded sample_draws)
                       empty_world))
      as (rows & _ & _ & _ & Hok).
    + unfold MINORDINAL, MAXORDINAL. lia.
    + apply Hok. lia.
Defined.
